(** * sylarco: the fiber core (fiber.h / fiber.cpp)

    A shallow embedding of [sylar::Fiber]: the three-state fiber object, the
    process-wide counters, the thread-local registry and the
    resume / yield / trampoline protocol, together with the properties the
    specification states about them.

    The C++ code mutates process globals, thread-local variables and heap
    objects, calls into libc ([getcontext], [makecontext], [swapcontext],
    [malloc], [free]) and aborts on failed assertions.  It is modelled as a
    state-and-error monad over an explicit [World]; every libc call and every
    [SetThis] is recorded in a trace of events. *)

From stdpp Require Import gmap strings list.
From Stdlib Require Import ZArith Lia Sorted.

Open Scope Z_scope.

(** ** Machine integers *)

(** [uint64_t] and [uint32_t] values are integers reduced modulo the width. *)
Definition u64 (z : Z) : Z := z mod 2 ^ 64.
Definition u32 (z : Z) : Z := z mod 2 ^ 32.

(** ** Data model *)

(** Address of a [Fiber] object; a [Fiber*] is an [option addr], [None]
    being [nullptr]. *)
Abbreviation addr := positive.
Abbreviation Fiber_ptr := (option addr).

(** Identifier of an OS thread (owner of one set of [thread_local]s). *)
Abbreviation tid := positive.

(** A [std::function<void()>] is either empty or names a piece of user code. *)
Abbreviation cb_id := nat.
Abbreviation function := (option cb_id).

(** [enum State] of fiber.h. *)
Inductive State : Set := READY | RUNNING | TERM.

#[export] Instance State_eq_dec : EqDecision State.
Proof. solve_decision. Defined.

(** Where a saved machine context continues when it is activated. *)
Inductive resume_point : Set :=
| pc_indeterminate                 (* a [ucontext_t] nobody wrote yet *)
| pc_captured (at_event : nat)     (* saved by getcontext / swapcontext *)
| pc_entry_MainFunc.               (* bound by makecontext to Fiber::MainFunc *)

(** The fields of [ucontext_t] that fiber.cpp touches. *)
Record ucontext_t : Set := mk_ucontext {
  uc_link : Fiber_ptr;             (* owner of the successor context *)
  uc_stack_ss_sp : Z;
  uc_stack_ss_size : Z;
  uc_pc : resume_point
}.

Definition ucontext_indeterminate : ucontext_t :=
  {| uc_link := None; uc_stack_ss_sp := 0; uc_stack_ss_size := 0;
     uc_pc := pc_indeterminate |}.

(** The members of [class Fiber], in declaration order, and the strong count
    of the control block that its [enable_shared_from_this] base refers to
    ([use_count = 0]: no [shared_ptr] owns the object). *)
Record Fiber : Set := mk_Fiber {
  m_id : Z;                        (* uint64_t *)
  m_stack_size : Z;                (* uint32_t *)
  m_state : State;
  m_ctx : ucontext_t;
  m_stack : Z;                     (* void*, 0 is nullptr *)
  m_cb : function;
  m_runInScheduler : bool;
  use_count : nat
}.

Definition with_id (v : Z) (f : Fiber) : Fiber :=
  mk_Fiber v (m_stack_size f) (m_state f) (m_ctx f) (m_stack f) (m_cb f)
           (m_runInScheduler f) (use_count f).
Definition with_stack_size (v : Z) (f : Fiber) : Fiber :=
  mk_Fiber (m_id f) v (m_state f) (m_ctx f) (m_stack f) (m_cb f)
           (m_runInScheduler f) (use_count f).
Definition with_state (v : State) (f : Fiber) : Fiber :=
  mk_Fiber (m_id f) (m_stack_size f) v (m_ctx f) (m_stack f) (m_cb f)
           (m_runInScheduler f) (use_count f).
Definition with_ctx (v : ucontext_t) (f : Fiber) : Fiber :=
  mk_Fiber (m_id f) (m_stack_size f) (m_state f) v (m_stack f) (m_cb f)
           (m_runInScheduler f) (use_count f).
Definition with_stack (v : Z) (f : Fiber) : Fiber :=
  mk_Fiber (m_id f) (m_stack_size f) (m_state f) (m_ctx f) v (m_cb f)
           (m_runInScheduler f) (use_count f).
Definition with_cb (v : function) (f : Fiber) : Fiber :=
  mk_Fiber (m_id f) (m_stack_size f) (m_state f) (m_ctx f) (m_stack f) v
           (m_runInScheduler f) (use_count f).
Definition with_use_count (v : nat) (f : Fiber) : Fiber :=
  mk_Fiber (m_id f) (m_stack_size f) (m_state f) (m_ctx f) (m_stack f) (m_cb f)
           (m_runInScheduler f) v.

(** The [thread_local] variables of one thread. *)
Record TLS : Set := mk_TLS {
  t_fiber : Fiber_ptr;             (* static thread_local Fiber *t_fiber *)
  t_thread_fiber : Fiber_ptr;      (* static thread_local Fiber::ptr *)
  t_scheduler_fiber : Fiber_ptr    (* what Scheduler::GetMainFiber() returns *)
}.

Definition TLS_init : TLS :=
  {| t_fiber := None; t_thread_fiber := None; t_scheduler_fiber := None |}.

(** What the code does to the outside, in program order. *)
Inductive Event : Set :=
| ESetThis (t : tid) (f : Fiber_ptr)
| EGetContext (this : addr)
| EMakeContext (this : addr)
| ESwapContext (t : tid) (save load : addr)
| EAlloc (size ptr : Z)
| EDealloc (ptr size : Z)
| EInvoke (t : tid) (this : addr) (cb : cb_id).

(** The [SYLAR_LOG_DEBUG] lines. *)
Inductive LogLine : Set :=
| LogMainCtor (id : Z)
| LogCtor (id : Z)
| LogDtor (id : Z)
| LogDeallocStack (id : Z).

(** Process state: the two atomics, the configured default stack size, the
    live [Fiber] objects, every thread's locals, and the history. *)
Record World : Type := mk_World {
  s_fiber_count : Z;               (* std::atomic<uint64_t> *)
  s_fiber_id : Z;                  (* std::atomic<uint64_t> *)
  g_fiber_stack_size : Z;          (* ConfigVar<uint32_t> "fiber.stack_size" *)
  heap : gmap addr Fiber;
  tls : gmap tid TLS;
  trace : list Event;
  logged : list LogLine
}.

(** Modelled from the spec: [Config::Lookup<uint32_t>] of config.h, called
    with the default [128 * 1024]; the variable holds that default until the
    configuration changes it. *)
Definition fiber_stack_size_default : Z := 128 * 1024.

(** The state of a process before any fiber exists. *)
Definition World_init : World :=
  {| s_fiber_count := 0; s_fiber_id := 0;
     g_fiber_stack_size := fiber_stack_size_default;
     heap := ∅; tls := ∅; trace := []; logged := [] |}.

Definition tls_of (w : World) (t : tid) : TLS := default TLS_init (tls w !! t).

Definition with_count (v : Z) (w : World) : World :=
  mk_World v (s_fiber_id w) (g_fiber_stack_size w) (heap w) (tls w) (trace w)
           (logged w).
Definition with_next_id (v : Z) (w : World) : World :=
  mk_World (s_fiber_count w) v (g_fiber_stack_size w) (heap w) (tls w)
           (trace w) (logged w).
Definition with_heap (v : gmap addr Fiber) (w : World) : World :=
  mk_World (s_fiber_count w) (s_fiber_id w) (g_fiber_stack_size w) v (tls w)
           (trace w) (logged w).
Definition with_tls (v : gmap tid TLS) (w : World) : World :=
  mk_World (s_fiber_count w) (s_fiber_id w) (g_fiber_stack_size w) (heap w) v
           (trace w) (logged w).
Definition with_trace (v : list Event) (w : World) : World :=
  mk_World (s_fiber_count w) (s_fiber_id w) (g_fiber_stack_size w) (heap w)
           (tls w) v (logged w).
Definition with_logged (v : list LogLine) (w : World) : World :=
  mk_World (s_fiber_count w) (s_fiber_id w) (g_fiber_stack_size w) (heap w)
           (tls w) (trace w) v.

(** ** The monad of fiber.cpp

    A call either returns, dies in a failed [SYLAR_ASSERT] (the process is
    gone), leaves by a C++ exception, or has no defined behaviour (a null or
    dangling [Fiber*] is dereferenced).  The world at that point is kept. *)
Inductive Outcome (A : Type) : Type :=
| Ret (a : A)
| Abort (assertion : string)
| Throw (exception : string)
| Undefined (why : string).
Arguments Ret {A} a.
Arguments Abort {A} assertion.
Arguments Throw {A} exception.
Arguments Undefined {A} why.

Definition M (A : Type) : Type := World -> Outcome A * World.

Definition ret {A} (a : A) : M A := fun w => (Ret a, w).

Definition bind {A B} (m : M A) (k : A -> M B) : M B :=
  fun w =>
    match m w with
    | (Ret a, w') => k a w'
    | (Abort s, w') => (Abort s, w')
    | (Throw s, w') => (Throw s, w')
    | (Undefined s, w') => (Undefined s, w')
    end.

#[export] Instance M_ret : MRet M := @ret.
#[export] Instance M_bind : MBind M := fun A B k m => bind m k.

Definition fail {A} (o : Outcome A) : M A := fun w => (o, w).
Definition get_world : M World := fun w => (Ret w, w).
Definition update (g : World -> World) : M unit := fun w => (Ret tt, g w).

Definition emit (e : Event) : M unit :=
  update (fun w => with_trace (trace w ++ [e]) w).
Definition SYLAR_LOG_DEBUG (l : LogLine) : M unit :=
  update (fun w => with_logged (logged w ++ [l]) w).

(** Modelled from the spec: [SYLAR_ASSERT] and [SYLAR_ASSERT2] of macro.h,
    the fatal-assertion collaborator that terminates the process when the
    condition is false. *)
Definition SYLAR_ASSERT (cond : bool) (text : string) : M unit :=
  if cond then ret tt else fail (Abort text).
Definition SYLAR_ASSERT2 (cond : bool) (text : string) : M unit :=
  SYLAR_ASSERT cond text.

(** [p->...] on a [Fiber*]. *)
Definition deref (p : Fiber_ptr) : M addr :=
  match p with
  | Some a => ret a
  | None => fail (Undefined "null Fiber*")
  end.

Definition fiber_at (a : addr) : M Fiber :=
  fun w =>
    match heap w !! a with
    | Some f => (Ret f, w)
    | None => (Undefined "dangling Fiber*", w)
    end.

Definition modify (a : addr) (g : Fiber -> Fiber) : M unit :=
  f ← fiber_at a;
  update (fun w => with_heap (<[a := g f]> (heap w)) w).

Definition get_tls (t : tid) : M TLS := fun w => (Ret (tls_of w t), w).

Definition set_tls (t : tid) (g : TLS -> TLS) : M unit :=
  update (fun w => with_tls (<[t := g (tls_of w t)]> (tls w)) w).

(** ** Everything outside fiber.cpp

    The C library, the storage allocator behind [new], the value an
    uninitialised [bool] happens to hold, and the user's callbacks are not
    part of the code under verification: they are parameters.  The return
    value of a libc call may depend on everything that happened before. *)
Record Platform : Type := mk_Platform {
  libc_getcontext : list Event -> Z;       (* 0, or -1 on error *)
  libc_swapcontext : list Event -> Z;      (* 0, or -1 on error *)
  libc_malloc : list Event -> Z -> Z;      (* the block, 0 when out of memory *)
  indeterminate_bool : bool;
  user_code : cb_id -> tid -> M unit       (* body of a std::function *)
}.

Section Fiber.

Variable P : Platform.

(** *** libc *)

(** [getcontext(&this->m_ctx)]: on success the context continues after the
    call. *)
Definition getcontext (this : addr) : M Z :=
  w ← get_world;
  let rc := libc_getcontext P (trace w) in
  emit (EGetContext this);;
  (if decide (rc = 0)
   then modify this (fun f =>
          with_ctx (mk_ucontext (uc_link (m_ctx f)) (uc_stack_ss_sp (m_ctx f))
                      (uc_stack_ss_size (m_ctx f))
                      (pc_captured (length (trace w)))) f)
   else mret tt);;
  mret rc.

(** [makecontext(&this->m_ctx, &Fiber::MainFunc, 0)]: the context will
    enter [MainFunc] on the stack [uc_stack] names.  The call builds the
    entry frame on that stack; the model records the call and the binding
    only, which is what the call does on a stack that exists.  [reset]
    asserts [m_stack] first; the task constructor passes on whatever
    [malloc] returned, and what is proved of a constructed fiber's context
    assumes a block was returned. *)
Definition makecontext_MainFunc (this : addr) : M unit :=
  emit (EMakeContext this);;
  modify this (fun f =>
    with_ctx (mk_ucontext (uc_link (m_ctx f)) (uc_stack_ss_sp (m_ctx f))
                (uc_stack_ss_size (m_ctx f)) pc_entry_MainFunc) f).

(** [swapcontext(&save->m_ctx, &load->m_ctx)] as executed by thread [t]: the
    running context is saved into [save]'s and [load]'s is activated.  What
    the activated context then executes is another run of this model; the
    call returns 0 when the saved context is activated again, or at once and
    non-zero on error.  So [resume] and [yield] below describe their caller
    up to the switch, and what the other context does before it switches
    back is given by the calls that follow in a history ([run_calls]), not by
    the one call.  Forming [&(p->m_ctx)] through a null [p] is undefined
    behaviour before the call is made: the model stops there and records no
    call. *)
Definition swapcontext (t : tid) (save load : Fiber_ptr) : M Z :=
  s ← deref save;
  l ← deref load;
  _ ← fiber_at s;
  _ ← fiber_at l;
  w ← get_world;
  let rc := libc_swapcontext P (trace w) in
  emit (ESwapContext t s l);;
  (if decide (rc = 0)
   then modify s (fun f =>
          with_ctx (mk_ucontext (uc_link (m_ctx f)) (uc_stack_ss_sp (m_ctx f))
                      (uc_stack_ss_size (m_ctx f))
                      (pc_captured (length (trace w)))) f)
   else mret tt);;
  mret rc.

(** [MallocStackAllocator::Alloc] and [Dealloc] ([malloc] and [free]). *)
Definition StackAllocator_Alloc (size : Z) : M Z :=
  w ← get_world;
  let vp := libc_malloc P (trace w) size in
  emit (EAlloc size vp);;
  mret vp.

Definition StackAllocator_Dealloc (vp size : Z) : M unit :=
  emit (EDealloc vp size).

(** *** shared_ptr<Fiber> *)

(** Storage for a new object: an address no live [Fiber] occupies. *)
Definition operator_new : M addr :=
  w ← get_world; mret (fresh (dom (heap w))).

(** [shared_from_this()]: one more owner; [std::bad_weak_ptr] when no
    [shared_ptr] owns the object. *)
Definition shared_from_this (this : addr) : M Fiber_ptr :=
  f ← fiber_at this;
  if decide (use_count f = 0%nat)
  then fail (Throw "std::bad_weak_ptr")
  else modify this (with_use_count (S (use_count f)));; mret (Some this).

(** Copying a [shared_ptr]. *)
Definition shared_ptr_copy (p : Fiber_ptr) : M Fiber_ptr :=
  match p with
  | None => mret None
  | Some a =>
      f ← fiber_at a;
      modify a (with_use_count (S (use_count f)));; mret p
  end.

(** *** fiber.cpp *)

(** [void Fiber::SetThis(Fiber *f)], lines 60-62. *)
Definition SetThis (t : tid) (f : Fiber_ptr) : M unit :=
  emit (ESetThis t f);;
  set_tls t (fun l => mk_TLS f (t_thread_fiber l) (t_scheduler_fiber l)).

(** Modelled from the spec: [Scheduler::GetMainFiber()] of scheduler.h, the
    per-thread accessor of the scheduler's hub fiber. *)
Definition Scheduler_GetMainFiber (t : tid) : M Fiber_ptr :=
  l ← get_tls t; mret (t_scheduler_fiber l).

(** [++s_fiber_count], [--s_fiber_count] and [s_fiber_id++] on the
    [std::atomic<uint64_t>]s. *)
Definition incr_fiber_count : M unit :=
  update (fun w => with_count (u64 (s_fiber_count w + 1)) w).
Definition decr_fiber_count : M unit :=
  update (fun w => with_count (u64 (s_fiber_count w - 1)) w).
Definition fetch_incr_fiber_id : M Z :=
  w ← get_world;
  update (with_next_id (u64 (s_fiber_id w + 1)));;
  mret (s_fiber_id w).

(** The object a constructor starts from: the default member initialisers of
    fiber.h; [m_ctx] and [m_runInScheduler] have none. *)
Definition Fiber_members_default : Fiber :=
  {| m_id := 0; m_stack_size := 0; m_state := READY;
     m_ctx := ucontext_indeterminate; m_stack := 0; m_cb := None;
     m_runInScheduler := indeterminate_bool P; use_count := 0 |}.

Definition place (this : addr) (f : Fiber) : M unit :=
  w ← get_world;
  match heap w !! this with
  | Some _ => fail (Undefined "storage in use")
  | None => update (with_heap (<[this := f]> (heap w)))
  end.

(** [Fiber::Fiber()], lines 40-55: the root fiber of thread [t], built in the
    storage at [this]. *)
Definition Fiber_ctor_main (t : tid) (this : addr) : M unit :=
  place this Fiber_members_default;;
  SetThis t (Some this);;
  modify this (with_state RUNNING);;
  rc ← getcontext this;
  (if decide (rc = 0) then mret tt else SYLAR_ASSERT2 false "getcontext");;
  incr_fiber_count;;
  id ← fetch_incr_fiber_id;
  modify this (with_id id);;
  SYLAR_LOG_DEBUG (LogMainCtor id).

(** [Fiber::Fiber(cb, stack_size, run_in_scheduler)], lines 64-84.
    [stack_size] is a [size_t]; [m_stack_size] is a [uint32_t]. *)
Definition Fiber_ctor (this : addr) (cb : function) (stack_size : Z)
    (run_in_scheduler : bool) : M unit :=
  id ← fetch_incr_fiber_id;
  place this (mk_Fiber id 0 READY ucontext_indeterminate 0 cb
                run_in_scheduler 0);;
  incr_fiber_count;;
  w ← get_world;
  modify this (with_stack_size
    (u32 (if decide (stack_size = 0) then g_fiber_stack_size w
          else stack_size)));;
  f ← fiber_at this;
  vp ← StackAllocator_Alloc (m_stack_size f);
  modify this (with_stack vp);;
  rc ← getcontext this;
  (if decide (rc = 0) then mret tt else SYLAR_ASSERT2 false "getcontext");;
  f ← fiber_at this;
  modify this (fun f' =>
    with_ctx (mk_ucontext None (m_stack f) (m_stack_size f)
                (uc_pc (m_ctx f'))) f');;
  makecontext_MainFunc this;;
  SYLAR_LOG_DEBUG (LogCtor id).

(** [Fiber::~Fiber()], lines 104-123, run by thread [t]. *)
Definition Fiber_dtor (t : tid) (this : addr) : M unit :=
  f ← fiber_at this;
  SYLAR_LOG_DEBUG (LogDtor (m_id f));;
  decr_fiber_count;;
  if decide (m_stack f ≠ 0)
  then
    SYLAR_ASSERT (bool_decide (m_state f = TERM)) "m_state == TERM";;
    StackAllocator_Dealloc (m_stack f) (m_stack_size f);;
    SYLAR_LOG_DEBUG (LogDeallocStack (m_id f))
  else
    SYLAR_ASSERT (bool_decide (m_cb f = None)) "!m_cb";;
    SYLAR_ASSERT (bool_decide (m_state f = RUNNING)) "m_state == RUNNING";;
    l ← get_tls t;
    let cur := t_fiber l in
    if decide (cur = Some this) then SetThis t None else mret tt.

(** The end of an object's life: the destructor runs, then the storage is
    gone. *)
Definition destroy (t : tid) (this : addr) : M unit :=
  Fiber_dtor t this;;
  update (fun w => with_heap (delete this (heap w)) w).

(** A [shared_ptr] is reset or goes out of scope on thread [t]: the last
    owner destroys the object. *)
Definition shared_ptr_release (t : tid) (p : Fiber_ptr) : M unit :=
  match p with
  | None => mret tt
  | Some a =>
      f ← fiber_at a;
      match use_count f with
      | O => fail (Undefined "release of an object no shared_ptr owns")
      | S O => modify a (with_use_count 0);; destroy t a
      | S n => modify a (with_use_count n)
      end
  end.

(** [Fiber::ptr p(new Fiber(cb, stack_size, run_in_scheduler))]: how user
    code creates a task fiber. *)
Definition Fiber_new (cb : function) (stack_size : Z)
    (run_in_scheduler : bool) : M Fiber_ptr :=
  this ← operator_new;
  Fiber_ctor this cb stack_size run_in_scheduler;;
  modify this (with_use_count 1);;
  mret (Some this).

(** [Fiber::ptr Fiber::GetThis()], lines 90-99, called on thread [t].  The
    caller owns the returned handle. *)
Definition GetThis (t : tid) : M Fiber_ptr :=
  l ← get_tls t;
  match t_fiber l with
  | Some cur => shared_from_this cur
  | None =>
      (* Fiber::ptr main_fiber(new Fiber); *)
      this ← operator_new;
      Fiber_ctor_main t this;;
      modify this (with_use_count 1);;
      let main_fiber := Some this in
      l ← get_tls t;
      SYLAR_ASSERT (bool_decide (t_fiber l = main_fiber))
        "t_fiber == main_fiber.get()";;
      (* t_thread_fiber = main_fiber; *)
      shared_ptr_copy main_fiber;;
      set_tls t (fun l' => mk_TLS (t_fiber l') main_fiber
                             (t_scheduler_fiber l'));;
      shared_ptr_release t (t_thread_fiber l);;
      (* return t_fiber->shared_from_this(); *)
      l ← get_tls t;
      cur ← deref (t_fiber l);
      r ← shared_from_this cur;
      shared_ptr_release t main_fiber;;
      mret r
  end.

(** [void Fiber::resume()], lines 128-146, called on thread [t]. *)
Definition resume (t : tid) (this : addr) : M unit :=
  f ← fiber_at this;
  SYLAR_ASSERT (bool_decide (m_state f ≠ TERM) && bool_decide (m_state f ≠ RUNNING))
    "m_state != TERM && m_state != RUNNING";;
  SetThis t (Some this);;
  modify this (with_state RUNNING);;
  if m_runInScheduler f
  then
    hub ← Scheduler_GetMainFiber t;
    rc ← swapcontext t hub (Some this);
    if decide (rc = 0) then mret tt else SYLAR_ASSERT2 false "swapcontext"
  else
    l ← get_tls t;
    rc ← swapcontext t (t_thread_fiber l) (Some this);
    if decide (rc = 0) then mret tt else SYLAR_ASSERT2 false "swapcontext".

(** [void Fiber::yield()], lines 151-165, called on thread [t]. *)
Definition yield (t : tid) (this : addr) : M unit :=
  f ← fiber_at this;
  SYLAR_ASSERT (bool_decide (m_state f = RUNNING) || bool_decide (m_state f = TERM))
    "m_state == RUNNING || m_state == TERM";;
  l ← get_tls t;
  SetThis t (t_thread_fiber l);;
  f ← fiber_at this;
  (if decide (m_state f ≠ TERM) then modify this (with_state READY)
   else mret tt);;
  l ← get_tls t;
  rc ← swapcontext t (Some this) (t_thread_fiber l);
  if decide (rc = 0) then mret tt else SYLAR_ASSERT2 false "swapcontext".

(** Calling a [std::function]: [std::bad_function_call] when it is empty. *)
Definition invoke (t : tid) (this : addr) (cb : function) : M unit :=
  match cb with
  | None => fail (Throw "std::bad_function_call")
  | Some c => emit (EInvoke t this c);; user_code P c t
  end.

(** [void Fiber::MainFunc()], lines 171-182, entered on thread [t]. *)
Definition MainFunc (t : tid) : M unit :=
  cur ← GetThis t;
  SYLAR_ASSERT (bool_decide (cur ≠ None)) "cur";;
  this ← deref cur;
  f ← fiber_at this;
  invoke t this (m_cb f);;
  modify this (with_cb None);;
  modify this (with_state TERM);;
  let raw_ptr := this in
  shared_ptr_release t cur;;
  yield t raw_ptr.

(** [void Fiber::reset(cb)], lines 187-205. *)
Definition reset (this : addr) (cb : function) : M unit :=
  f ← fiber_at this;
  SYLAR_ASSERT (bool_decide (m_stack f ≠ 0)) "m_stack";;
  SYLAR_ASSERT (bool_decide (m_state f = TERM)) "m_state == TERM";;
  modify this (with_cb cb);;
  rc ← getcontext this;
  (if decide (rc = 0) then mret tt else SYLAR_ASSERT2 false "getcontext");;
  f ← fiber_at this;
  modify this (fun f' =>
    with_ctx (mk_ucontext None (m_stack f) (m_stack_size f)
                (uc_pc (m_ctx f'))) f');;
  makecontext_MainFunc this;;
  modify this (with_state READY).

(** [uint64_t Fiber::GetFiberId()], lines 207-212. *)
Definition GetFiberId (t : tid) : M Z :=
  l ← get_tls t;
  match t_fiber l with
  | Some cur => f ← fiber_at cur; mret (m_id f)
  | None => mret 0
  end.

(** [uint64_t Fiber::TotalFibers()], lines 214-216. *)
Definition TotalFibers : M Z :=
  w ← get_world; mret (s_fiber_count w).

End Fiber.

(** ** Worlds the operations lead to, and worlds to run them in *)

(** The world after [SetThis t f]. *)
Definition registered (t : tid) (f : Fiber_ptr) (w : World) : World :=
  let w1 := with_trace (trace w ++ [ESetThis t f]) w in
  with_tls (<[t := mk_TLS f (t_thread_fiber (tls_of w t))
                      (t_scheduler_fiber (tls_of w t))]> (tls w)) w1.

(** The context saved by a successful [getcontext] or [swapcontext]. *)
Definition captured (n : nat) (f : Fiber) : Fiber :=
  with_ctx (mk_ucontext (uc_link (m_ctx f)) (uc_stack_ss_sp (m_ctx f))
              (uc_stack_ss_size (m_ctx f)) (pc_captured n)) f.

(** A world to try the operations on: thread 1 has called [GetThis] (fiber 1
    is its root) and created the task fibers 2, outside the scheduler, 3,
    taking part in it, and 4, which the scheduler uses as its hub. *)
Definition demo_platform : Platform :=
  {| libc_getcontext := fun _ => 0;
     libc_swapcontext := fun _ => 0;
     libc_malloc := fun tr _ => 4096 * (1 + Z.of_nat (length tr));
     indeterminate_bool := false;
     user_code := fun _ _ => mret tt |}.

Definition demo_world : World :=
  snd ((GetThis demo_platform 1;;
        Fiber_new demo_platform (Some 7%nat) 0 false;;
        Fiber_new demo_platform (Some 8%nat) 65536 true;;
        hub ← Fiber_new demo_platform (Some 9%nat) 0 false;
        set_tls 1 (fun l => mk_TLS (t_fiber l) (t_thread_fiber l) hub))
         World_init).

(** The world in which [yield] calls [swapcontext], and the one it leaves. *)
Definition yield_before_swap (t : tid) (this : addr) (f : Fiber)
    (root : addr) (w : World) : World :=
  let w1 := registered t (Some root) w in
  with_heap (<[this := if decide (m_state f = TERM) then f
                       else with_state READY f]> (heap w1)) w1.

Definition yield_after_swap (rc : Z) (t : tid) (this : addr) (f : Fiber)
    (root : addr) (w : World) : World :=
  let w2 := yield_before_swap t this f root w in
  let w3 := with_trace (trace w2 ++ [ESwapContext t this root]) w2 in
  if decide (rc = 0)
  then with_heap
         (<[this := captured (length (trace w2))
                      (if decide (m_state f = TERM) then f
                       else with_state READY f)]> (heap w2)) w3
  else w3.

(** The world in which [MainFunc] invokes the callback [c] of the current
    fiber: the trampoline holds one more strong handle. *)
Definition MainFunc_at_invoke (t : tid) (this : addr) (f : Fiber) (c : cb_id)
    (w : World) : World :=
  let w1 :=
    with_heap (<[this := with_use_count (S (use_count f)) f]> (heap w)) w in
  with_trace (trace w1 ++ [EInvoke t this c]) w1.


(** The world after the first two statements of [~Fiber]. *)
Definition dtor_entered (f : Fiber) (w : World) : World :=
  with_count (u64 (s_fiber_count w - 1))
    (with_logged (logged w ++ [LogDtor (m_id f)]) w).

(** The members [reset] and the task constructor write into [m_ctx] before
    [makecontext]. *)
Definition ctx_on_stack (f : Fiber) : Fiber :=
  with_ctx (mk_ucontext None (m_stack f) (m_stack_size f) (uc_pc (m_ctx f))) f.

Definition bound_to_MainFunc (f : Fiber) : Fiber :=
  with_ctx (mk_ucontext (uc_link (m_ctx f)) (uc_stack_ss_sp (m_ctx f))
              (uc_stack_ss_size (m_ctx f)) pc_entry_MainFunc) f.

(** What the task constructor computes from its arguments. *)
Definition ctor_stack_size (stack_size : Z) (w : World) : Z :=
  u32 (if decide (stack_size = 0) then g_fiber_stack_size w else stack_size).

Definition ctor_stack (P : Platform) (stack_size : Z) (w : World) : Z :=
  libc_malloc P (trace w) (ctor_stack_size stack_size w).

Definition ctor_getcontext_rc (P : Platform) (stack_size : Z) (w : World)
    : Z :=
  libc_getcontext P
    (trace w ++ [EAlloc (ctor_stack_size stack_size w)
                   (ctor_stack P stack_size w)]).

(** The task fiber the constructor leaves behind. *)
Definition task_fiber (P : Platform) (cb : function) (stack_size : Z)
    (run_in_scheduler : bool) (w : World) : Fiber :=
  {| m_id := s_fiber_id w;
     m_stack_size := ctor_stack_size stack_size w;
     m_state := READY;
     m_ctx := mk_ucontext None (ctor_stack P stack_size w)
                (ctor_stack_size stack_size w) pc_entry_MainFunc;
     m_stack := ctor_stack P stack_size w;
     m_cb := cb;
     m_runInScheduler := run_in_scheduler;
     use_count := 0 |}.

Definition after_Fiber_ctor (P : Platform) (this : addr) (cb : function)
    (stack_size : Z) (run_in_scheduler : bool) (w : World) : World :=
  {| s_fiber_count := u64 (s_fiber_count w + 1);
     s_fiber_id := u64 (s_fiber_id w + 1);
     g_fiber_stack_size := g_fiber_stack_size w;
     heap := <[this := task_fiber P cb stack_size run_in_scheduler w]> (heap w);
     tls := tls w;
     trace := trace w ++ [EAlloc (ctor_stack_size stack_size w)
                            (ctor_stack P stack_size w);
                          EGetContext this; EMakeContext this];
     logged := logged w ++ [LogCtor (s_fiber_id w)] |}.

(** The root fiber [Fiber::Fiber()] leaves behind, and the world after it. *)
Definition main_fiber (P : Platform) (w : World) : Fiber :=
  {| m_id := s_fiber_id w;
     m_stack_size := 0;
     m_state := RUNNING;
     m_ctx := mk_ucontext None 0 0 (pc_captured (S (length (trace w))));
     m_stack := 0;
     m_cb := None;
     m_runInScheduler := indeterminate_bool P;
     use_count := 0 |}.

Definition after_Fiber_ctor_main (P : Platform) (t : tid) (this : addr)
    (w : World) : World :=
  {| s_fiber_count := u64 (s_fiber_count w + 1);
     s_fiber_id := u64 (s_fiber_id w + 1);
     g_fiber_stack_size := g_fiber_stack_size w;
     heap := <[this := main_fiber P w]> (heap w);
     tls := <[t := mk_TLS (Some this) (t_thread_fiber (tls_of w t))
                     (t_scheduler_fiber (tls_of w t))]> (tls w);
     trace := trace w ++ [ESetThis t (Some this); EGetContext this];
     logged := logged w ++ [LogMainCtor (s_fiber_id w)] |}.

(** The world after the first [GetThis] of thread [t]. *)
Definition after_first_GetThis (P : Platform) (t : tid) (w : World) : World :=
  let this := fresh (dom (heap w)) in
  let w1 := after_Fiber_ctor_main P t this w in
  with_tls (<[t := mk_TLS (Some this) (Some this)
                     (t_scheduler_fiber (tls_of w t))]> (tls w1))
    (with_heap (<[this := with_use_count 2 (main_fiber P w)]> (heap w1)) w1).

(** What the log tells about the life of the process: the ids the
    constructors assigned, in order, and how many destructors ran. *)
Definition ctor_id (l : LogLine) : option Z :=
  match l with
  | LogMainCtor id | LogCtor id => Some id
  | _ => None
  end.

Definition is_dtor (l : LogLine) : bool :=
  match l with LogDtor _ => true | _ => false end.

Definition constructed_ids (w : World) : list Z := omap ctor_id (logged w).

Definition destroyed (w : World) : nat :=
  length (filter (fun l => is_dtor l = true) (logged w)).

(** The two counters agree with the history: the k-th fiber built got id k
    modulo 2^64, the id generator stands at the number of fibers built and
    the live-fiber counter at built minus destroyed, both modulo 2^64. *)
Definition ledger_ok (w : World) : Prop :=
  let N := length (constructed_ids w) in
  constructed_ids w = (fun k => u64 (Z.of_nat k)) <$> seq 0 N /\
  s_fiber_id w = u64 (Z.of_nat N) /\
  s_fiber_count w = u64 (Z.of_nat N - Z.of_nat (destroyed w)).

(** An operation that leaves both counters and the log as they were, however
    it ends; an operation that keeps [ledger_ok] when it returns.  The
    counters are [static] in fiber.cpp: a callback reaches them only through
    the functions of this file, which is what [preserves_ledger] asks of
    [user_code]. *)
Definition keeps_ledger {A} (m : M A) : Prop :=
  forall w o w', m w = (o, w') ->
    s_fiber_id w' = s_fiber_id w /\ s_fiber_count w' = s_fiber_count w /\
    logged w' = logged w.

Definition preserves_ledger {A} (m : M A) : Prop :=
  forall w a w', ledger_ok w -> m w = (Ret a, w') -> ledger_ok w'.

(** The calls a process makes into fiber.cpp, and a handle to a fiber being
    dropped. *)
Inductive Call : Type :=
| CallGetThis (t : tid)
| CallNew (cb : function) (stack_size : Z) (run_in_scheduler : bool)
| CallResume (t : tid) (this : addr)
| CallYield (t : tid) (this : addr)
| CallReset (this : addr) (cb : function)
| CallMainFunc (t : tid)
| CallSetThis (t : tid) (f : Fiber_ptr)
| CallGetFiberId (t : tid)
| CallTotalFibers
| DropHandle (t : tid) (p : Fiber_ptr).

Definition run_call (P : Platform) (c : Call) : M unit :=
  match c with
  | CallGetThis t => GetThis P t;; mret tt
  | CallNew cb stack_size run_in_scheduler =>
      Fiber_new P cb stack_size run_in_scheduler;; mret tt
  | CallResume t this => resume P t this
  | CallYield t this => yield P t this
  | CallReset this cb => reset P this cb
  | CallMainFunc t => MainFunc P t
  | CallSetThis t f => SetThis t f
  | CallGetFiberId t => GetFiberId t;; mret tt
  | CallTotalFibers => TotalFibers;; mret tt
  | DropHandle t p => shared_ptr_release t p
  end.

Fixpoint run_calls (P : Platform) (cs : list Call) : M unit :=
  match cs with
  | [] => mret tt
  | c :: rest => run_call P c;; run_calls P rest
  end.

(** What no call changes in a fiber once it is built: its id and its
    stack. *)
Definition same_static (f f' : Fiber) : Prop :=
  m_id f' = m_id f /\ m_stack f' = m_stack f /\
  m_stack_size f' = m_stack_size f.

(** Events that are not calls of the stack allocator. *)
Definition quiet (e : Event) : Prop :=
  match e with
  | EAlloc _ _ | EDealloc _ _ => False
  | _ => True
  end.

(** [w'] has the fibers of [w]: the same objects are alive, with the ids and
    stacks they had; the counters, the log and the configuration are as they
    were; the allocator was not called. *)
Definition same_fibers (w w' : World) : Prop :=
  s_fiber_id w' = s_fiber_id w /\
  s_fiber_count w' = s_fiber_count w /\
  logged w' = logged w /\
  g_fiber_stack_size w' = g_fiber_stack_size w /\
  (forall a,
     match heap w !! a, heap w' !! a with
     | Some f, Some f' => same_static f f'
     | None, None => True
     | _, _ => False
     end) /\
  exists extra, trace w' = trace w ++ extra /\ Forall quiet extra.

Definition keeps_fibers {A} (m : M A) : Prop :=
  forall w o w', m w = (o, w') -> same_fibers w w'.

(** The live-fiber counter is the number of live [Fiber] objects. *)
Definition live_count_ok (w : World) : Prop :=
  s_fiber_count w = u64 (Z.of_nat (size (heap w))).

(** While no more than 2^64 fibers were built, live fibers have ids below
    the number built, and no two of them share one. *)
Definition ids_ok (w : World) : Prop :=
  Z.of_nat (length (constructed_ids w)) <= 2 ^ 64 ->
  (forall a f, heap w !! a = Some f ->
     0 <= m_id f < Z.of_nat (length (constructed_ids w))) /\
  (forall a b fa fb,
     heap w !! a = Some fa -> heap w !! b = Some fb ->
     m_id fa = m_id fb -> a = b).

(** The stack of a live fiber was returned by [Alloc] for its size, and what
    [Dealloc] was given had been returned by [Alloc] for that size before. *)
Definition stacks_ok (w : World) : Prop :=
  (forall a f, heap w !! a = Some f -> m_stack f <> 0 ->
     EAlloc (m_stack_size f) (m_stack f) ∈ trace w) /\
  (forall l1 p s l2,
     trace w = l1 ++ EDealloc p s :: l2 -> EAlloc s p ∈ l1).

Definition fibers_ok (w : World) : Prop :=
  ledger_ok w /\ live_count_ok w /\ ids_ok w /\ stacks_ok w.

Definition preserves_fibers {A} (m : M A) : Prop :=
  forall w a w', fibers_ok w -> m w = (Ret a, w') -> fibers_ok w'.

(** Every fiber that was built and not destroyed is alive, and no other: the
    constructors' log lines count the fibers built, the destructor's the
    fibers destroyed.  [preserves_census] asks of an operation, and of
    [user_code], that it keeps this when it returns. *)
Definition census_ok (w : World) : Prop :=
  length (constructed_ids w) = (destroyed w + size (heap w))%nat.

Definition preserves_census {A} (m : M A) : Prop :=
  forall w a w', census_ok w -> m w = (Ret a, w') -> census_ok w'.

(** ** Running the model step by step *)

Lemma bind_Ret {A B} (m : M A) (k : A -> M B) w a w' :
  m w = (Ret a, w') -> (m ≫= k) w = k a w'.
Proof. intros H. unfold mbind, M_bind, bind. now rewrite H. Qed.

Lemma bind_Abort {A B} (m : M A) (k : A -> M B) w s w' :
  m w = (Abort s, w') -> (m ≫= k) w = (Abort s, w').
Proof. intros H. unfold mbind, M_bind, bind. now rewrite H. Qed.

Lemma bind_Throw {A B} (m : M A) (k : A -> M B) w s w' :
  m w = (Throw s, w') -> (m ≫= k) w = (Throw s, w').
Proof. intros H. unfold mbind, M_bind, bind. now rewrite H. Qed.

Lemma bind_Undefined {A B} (m : M A) (k : A -> M B) w s w' :
  m w = (Undefined s, w') -> (m ≫= k) w = (Undefined s, w').
Proof. intros H. unfold mbind, M_bind, bind. now rewrite H. Qed.

Lemma run_mret {A} (a : A) w : (mret a : M A) w = (Ret a, w).
Proof. reflexivity. Qed.

Lemma run_get_world w : get_world w = (Ret w, w).
Proof. reflexivity. Qed.

Lemma run_update g w : update g w = (Ret tt, g w).
Proof. reflexivity. Qed.

Lemma run_emit e w : emit e w = (Ret tt, with_trace (trace w ++ [e]) w).
Proof. reflexivity. Qed.

Lemma run_log l w :
  SYLAR_LOG_DEBUG l w = (Ret tt, with_logged (logged w ++ [l]) w).
Proof. reflexivity. Qed.

Lemma run_assert_true text w : SYLAR_ASSERT true text w = (Ret tt, w).
Proof. reflexivity. Qed.

Lemma run_assert_false text w : SYLAR_ASSERT false text w = (Abort text, w).
Proof. reflexivity. Qed.

Lemma run_deref a w : deref (Some a) w = (Ret a, w).
Proof. reflexivity. Qed.

Lemma run_fiber_at a f w :
  heap w !! a = Some f -> fiber_at a w = (Ret f, w).
Proof. intros H. unfold fiber_at. now rewrite H. Qed.

Lemma run_fiber_at_dangling a w :
  heap w !! a = None -> fiber_at a w = (Undefined "dangling Fiber*", w).
Proof. intros H. unfold fiber_at. now rewrite H. Qed.

Lemma run_modify a g f w :
  heap w !! a = Some f ->
  modify a g w = (Ret tt, with_heap (<[a := g f]> (heap w)) w).
Proof.
  intros H. unfold modify. now rewrite (bind_Ret _ _ _ _ _ (run_fiber_at _ _ _ H)).
Qed.

Lemma run_get_tls t w : get_tls t w = (Ret (tls_of w t), w).
Proof. reflexivity. Qed.

Lemma run_set_tls t g w :
  set_tls t g w = (Ret tt, with_tls (<[t := g (tls_of w t)]> (tls w)) w).
Proof. reflexivity. Qed.

Lemma run_SetThis t f w : SetThis t f w = (Ret tt, registered t f w).
Proof. reflexivity. Qed.

Lemma tls_of_insert t l (m : gmap tid TLS) w :
  tls_of (with_tls (<[t := l]> m) w) t = l.
Proof. unfold tls_of. cbn. now rewrite lookup_insert_eq. Qed.

Lemma tls_of_registered t f w :
  tls_of (registered t f w) t =
  mk_TLS f (t_thread_fiber (tls_of w t)) (t_scheduler_fiber (tls_of w t)).
Proof. unfold registered. apply tls_of_insert. Qed.

Lemma tls_of_with_heap h w t : tls_of (with_heap h w) t = tls_of w t.
Proof. reflexivity. Qed.

Lemma tls_of_with_trace tr w t : tls_of (with_trace tr w) t = tls_of w t.
Proof. reflexivity. Qed.

Lemma run_incr_fiber_count w :
  incr_fiber_count w = (Ret tt, with_count (u64 (s_fiber_count w + 1)) w).
Proof. reflexivity. Qed.

Lemma run_decr_fiber_count w :
  decr_fiber_count w = (Ret tt, with_count (u64 (s_fiber_count w - 1)) w).
Proof. reflexivity. Qed.

Lemma run_fetch_incr_fiber_id w :
  fetch_incr_fiber_id w =
    (Ret (s_fiber_id w), with_next_id (u64 (s_fiber_id w + 1)) w).
Proof. reflexivity. Qed.

Lemma run_Alloc P size w :
  StackAllocator_Alloc P size w =
    (Ret (libc_malloc P (trace w) size),
     with_trace (trace w ++ [EAlloc size (libc_malloc P (trace w) size)]) w).
Proof. reflexivity. Qed.

Lemma run_Dealloc vp size w :
  StackAllocator_Dealloc vp size w =
    (Ret tt, with_trace (trace w ++ [EDealloc vp size]) w).
Proof. reflexivity. Qed.

Lemma run_operator_new w : operator_new w = (Ret (fresh (dom (heap w))), w).
Proof. reflexivity. Qed.

Lemma run_release_null t w : shared_ptr_release t None w = (Ret tt, w).
Proof. reflexivity. Qed.

Lemma run_Scheduler_GetMainFiber t w :
  Scheduler_GetMainFiber t w = (Ret (t_scheduler_fiber (tls_of w t)), w).
Proof. reflexivity. Qed.

Lemma run_swapcontext P t s l fs fl w :
  heap w !! s = Some fs -> heap w !! l = Some fl ->
  swapcontext P t (Some s) (Some l) w =
  (Ret (libc_swapcontext P (trace w)),
   let w1 := with_trace (trace w ++ [ESwapContext t s l]) w in
   if decide (libc_swapcontext P (trace w) = 0)
   then with_heap (<[s := captured (length (trace w)) fs]> (heap w)) w1
   else w1).
Proof.
  intros Hs Hl. unfold swapcontext.
  rewrite (bind_Ret _ _ _ _ _ (run_deref _ _)).
  rewrite (bind_Ret _ _ _ _ _ (run_deref _ _)).
  rewrite (bind_Ret _ _ _ _ _ (run_fiber_at _ _ _ Hs)).
  rewrite (bind_Ret _ _ _ _ _ (run_fiber_at _ _ _ Hl)).
  rewrite (bind_Ret _ _ _ _ _ (run_get_world _)).
  rewrite (bind_Ret _ _ _ _ _ (run_emit _ _)).
  destruct (decide (libc_swapcontext P (trace w) = 0)) as [Hz|Hz].
  - erewrite bind_Ret; [reflexivity|].
    now rewrite (run_modify s _ fs) by exact Hs.
  - erewrite bind_Ret; reflexivity.
Qed.

Lemma run_getcontext P this f w :
  heap w !! this = Some f ->
  getcontext P this w =
  (Ret (libc_getcontext P (trace w)),
   let w1 := with_trace (trace w ++ [EGetContext this]) w in
   if decide (libc_getcontext P (trace w) = 0)
   then with_heap (<[this := captured (length (trace w)) f]> (heap w)) w1
   else w1).
Proof.
  intros Hf. unfold getcontext.
  rewrite (bind_Ret _ _ _ _ _ (run_get_world _)).
  rewrite (bind_Ret _ _ _ _ _ (run_emit _ _)).
  destruct (decide (libc_getcontext P (trace w) = 0)) as [Hz|Hz].
  - erewrite bind_Ret; [reflexivity|].
    now rewrite (run_modify this _ f) by exact Hf.
  - erewrite bind_Ret; reflexivity.
Qed.

(** Projections of an updated world, and lookups in an updated heap. *)
Ltac wsimpl :=
  cbn [heap tls trace logged s_fiber_count s_fiber_id g_fiber_stack_size
       with_count with_next_id with_heap with_tls with_trace with_logged
       registered].

Ltac heap_lookup :=
  wsimpl; rewrite ?lookup_insert_eq;
  first [ eassumption | reflexivity
        | rewrite lookup_insert_ne by congruence; eassumption ].

(** One statement of a method body. *)
Ltac step :=
  first
    [ rewrite (bind_Ret _ _ _ _ _ (run_mret _ _))
    | rewrite (bind_Ret _ _ _ _ _ (run_get_world _))
    | rewrite (bind_Ret _ _ _ _ _ (run_update _ _))
    | rewrite (bind_Ret _ _ _ _ _ (run_emit _ _))
    | rewrite (bind_Ret _ _ _ _ _ (run_log _ _))
    | rewrite (bind_Ret _ _ _ _ _ (run_assert_true _ _))
    | rewrite (bind_Ret _ _ _ _ _ (run_deref _ _))
    | rewrite (bind_Ret _ _ _ _ _ (run_get_tls _ _))
    | rewrite (bind_Ret _ _ _ _ _ (run_set_tls _ _ _))
    | rewrite (bind_Ret _ _ _ _ _ (run_SetThis _ _ _))
    | rewrite (bind_Ret _ _ _ _ _ (run_Scheduler_GetMainFiber _ _))
    | rewrite (bind_Ret _ _ _ _ _ (run_release_null _ _))
    | rewrite (bind_Ret _ _ _ _ _ (run_operator_new _))
    | rewrite (bind_Ret _ _ _ _ _ (run_Alloc _ _ _))
    | rewrite (bind_Ret _ _ _ _ _ (run_Dealloc _ _ _))
    | rewrite (bind_Ret _ _ _ _ _ (run_incr_fiber_count _))
    | rewrite (bind_Ret _ _ _ _ _ (run_decr_fiber_count _))
    | rewrite (bind_Ret _ _ _ _ _ (run_fetch_incr_fiber_id _))
    | erewrite (bind_Ret (fiber_at _)) by (apply run_fiber_at; heap_lookup)
    | erewrite (bind_Ret (modify _ _)) by (apply run_modify; heap_lookup) ].

(** ** resume *)

Lemma resume_illegal P t this w f :
  heap w !! this = Some f ->
  m_state f = TERM \/ m_state f = RUNNING ->
  resume P t this w = (Abort "m_state != TERM && m_state != RUNNING", w).
Proof.
  intros Hf Hs. unfold resume. step.
  apply bind_Abort.
  destruct Hs as [-> | ->]; reflexivity.
Qed.

Lemma resume_legal P t this w f anchor fa :
  heap w !! this = Some f ->
  m_state f <> TERM -> m_state f <> RUNNING ->
  (if m_runInScheduler f then t_scheduler_fiber (tls_of w t)
   else t_thread_fiber (tls_of w t)) = Some anchor ->
  heap w !! anchor = Some fa ->
  let w1 := with_heap (<[this := with_state RUNNING f]> (heap w))
              (registered t (Some this) w) in
  let rc := libc_swapcontext P (trace w1) in
  exists fa',
    heap w1 !! anchor = Some fa' /\
    resume P t this w =
    (if decide (rc = 0) then Ret tt else Abort "swapcontext",
     let w2 := with_trace (trace w1 ++ [ESwapContext t anchor this]) w1 in
     if decide (rc = 0)
     then with_heap (<[anchor := captured (length (trace w1)) fa']> (heap w1)) w2
     else w2).
Proof.
  intros Hf Hs1 Hs2 Ha Hfa w1 rc.
  assert (Hthis : heap w1 !! this = Some (with_state RUNNING f))
    by (subst w1; heap_lookup).
  assert (Hanchor : exists fa', heap w1 !! anchor = Some fa').
  { subst w1; wsimpl. destruct (decide (this = anchor)) as [->|Hne].
    - rewrite lookup_insert_eq. eauto.
    - rewrite lookup_insert_ne by exact Hne. eauto. }
  destruct Hanchor as [fa' Hfa']. exists fa'. split; [exact Hfa'|].
  unfold resume. step.
  assert (Hok : bool_decide (m_state f <> TERM)
                && bool_decide (m_state f <> RUNNING) = true).
  { rewrite !bool_decide_eq_true_2 by assumption. reflexivity. }
  rewrite Hok. do 3 step.
  change (with_heap _ (registered t (Some this) w)) with w1.
  assert (Hanchor_w1 :
    (if m_runInScheduler f then t_scheduler_fiber (tls_of w1 t)
     else t_thread_fiber (tls_of w1 t)) = Some anchor).
  { subst w1. rewrite tls_of_with_heap, tls_of_registered. exact Ha. }
  destruct (m_runInScheduler f).
  - step. change (with_heap _ (registered t (Some this) w)) with w1.
    rewrite Hanchor_w1.
    rewrite (bind_Ret _ _ _ _ _ (run_swapcontext P t _ _ _ _ _ Hfa' Hthis)).
    fold rc. destruct (decide (rc = 0)); reflexivity.
  - step. change (with_heap _ (registered t (Some this) w)) with w1.
    rewrite Hanchor_w1.
    rewrite (bind_Ret _ _ _ _ _ (run_swapcontext P t _ _ _ _ _ Hfa' Hthis)).
    fold rc. destruct (decide (rc = 0)); reflexivity.
Qed.

(** C1: [resume()] on a fiber that is neither TERM nor RUNNING registers it
    as the thread's current fiber, sets it RUNNING and calls [swapcontext]
    saving into the context of the scheduler's hub fiber when
    [m_runInScheduler] is set and into the thread's root fiber's otherwise
    (the anchor being a live fiber); on a TERM or RUNNING fiber the
    assertion fails. *)
Theorem resume_registers_runs_and_swaps P t this w f :
  heap w !! this = Some f ->
  (m_state f <> TERM -> m_state f <> RUNNING ->
   forall anchor,
     (if m_runInScheduler f then t_scheduler_fiber (tls_of w t)
      else t_thread_fiber (tls_of w t)) = Some anchor ->
     is_Some (heap w !! anchor) ->
     let rc := libc_swapcontext P (trace w ++ [ESetThis t (Some this)]) in
     exists w',
       resume P t this w =
         (if decide (rc = 0) then Ret tt else Abort "swapcontext", w') /\
       t_fiber (tls_of w' t) = Some this /\
       m_state <$> heap w' !! this = Some RUNNING /\
       trace w' =
         trace w ++ [ESetThis t (Some this); ESwapContext t anchor this] /\
       (rc = 0 ->
        uc_pc ∘ m_ctx <$> heap w' !! anchor =
          Some (pc_captured (S (length (trace w))))))
  /\ (m_state f = TERM \/ m_state f = RUNNING ->
      resume P t this w =
        (Abort "m_state != TERM && m_state != RUNNING", w)).
Proof.
  intros Hf. split; [|apply resume_illegal; exact Hf].
  intros Hs1 Hs2 anchor Ha [fa Hfa] rc.
  destruct (resume_legal P t this w f anchor fa Hf Hs1 Hs2 Ha Hfa)
    as (fa' & Hfa' & Hrun).
  eexists. split; [exact Hrun|].
  change (libc_swapcontext P _) with rc.
  assert (Hstate : m_state fa' = RUNNING \/ anchor <> this).
  { revert Hfa'. wsimpl. destruct (decide (this = anchor)) as [->|Hne].
    - rewrite lookup_insert_eq. intros [= <-]. now left.
    - right. congruence. }
  destruct (decide (rc = 0)) as [Hz|Hz].
  - rewrite tls_of_with_heap, tls_of_with_trace, tls_of_with_heap,
      tls_of_registered.
    wsimpl. split; [reflexivity|]. split.
    { destruct (decide (anchor = this)) as [->|Hne].
      - rewrite lookup_insert_eq. destruct Hstate as [Hst|Hne]; [|congruence].
        cbn. now rewrite Hst.
      - rewrite lookup_insert_ne by exact Hne. now rewrite lookup_insert_eq. }
    split; [now rewrite <- app_assoc|].
    intros _. rewrite lookup_insert_eq. cbn.
    rewrite length_app. cbn. do 2 f_equal. lia.
  - rewrite tls_of_with_trace, tls_of_with_heap, tls_of_registered.
    wsimpl. split; [reflexivity|]. split; [now rewrite lookup_insert_eq|].
    split; [now rewrite <- app_assoc|]. intros Hrc. contradiction.
Qed.

Lemma resume_registers_runs_and_swaps_witness :
  exists w',
    resume demo_platform 1 2 demo_world = (Ret tt, w') /\
    t_fiber (tls_of w' 1) = Some 2%positive /\
    m_state <$> heap w' !! 2%positive = Some RUNNING /\
    trace w' =
      trace demo_world ++
        [ESetThis 1 (Some 2%positive); ESwapContext 1 1 2].
Proof.
  destruct (heap demo_world !! 2%positive) as [f|] eqn:Hf;
    [|vm_compute in Hf; discriminate].
  destruct (resume_registers_runs_and_swaps demo_platform 1 2 demo_world f Hf)
    as [Hlegal _].
  assert (Hs : m_state f = READY /\ m_runInScheduler f = false)
    by (vm_compute in Hf; injection Hf as <-; split; reflexivity).
  destruct Hs as [Hs Hr].
  destruct (Hlegal ltac:(congruence) ltac:(congruence) 1%positive)
    as (w' & Hrun & H1 & H2 & H3 & _).
  - rewrite Hr. reflexivity.
  - vm_compute. eauto.
  - exists w'. repeat split; assumption.
Defined.

(** ** yield *)

Lemma yield_illegal P t this w f :
  heap w !! this = Some f ->
  m_state f = READY ->
  yield P t this w = (Abort "m_state == RUNNING || m_state == TERM", w).
Proof.
  intros Hf Hs. unfold yield. step. apply bind_Abort. now rewrite Hs.
Qed.

Lemma m_state_captured n f : m_state (captured n f) = m_state f.
Proof. reflexivity. Qed.

Lemma yield_legal P t this w f root :
  heap w !! this = Some f ->
  m_state f = RUNNING \/ m_state f = TERM ->
  t_thread_fiber (tls_of w t) = Some root ->
  is_Some (heap w !! root) ->
  let rc := libc_swapcontext P (trace w ++ [ESetThis t (Some root)]) in
  yield P t this w =
    (if decide (rc = 0) then Ret tt else Abort "swapcontext",
     yield_after_swap rc t this f root w).
Proof.
  intros Hf Hs Hroot [fr Hfr] rc.
  unfold yield_after_swap.
  set (w2 := yield_before_swap t this f root w).
  set (f1 := if decide (m_state f = TERM) then f else with_state READY f).
  set (w1 := registered t (Some root) w).
  assert (Hthis2 : heap w2 !! this = Some f1)
    by (subst w2; unfold yield_before_swap; heap_lookup).
  assert (Hroot2 : is_Some (heap w2 !! root)).
  { subst w2. unfold yield_before_swap. wsimpl.
    destruct (decide (this = root)) as [->|Hne].
    - rewrite lookup_insert_eq. eauto.
    - rewrite lookup_insert_ne by exact Hne. eauto. }
  destruct Hroot2 as [fr2 Hroot2].
  unfold yield. step.
  assert (Hok : bool_decide (m_state f = RUNNING)
                || bool_decide (m_state f = TERM) = true).
  { destruct Hs as [-> | ->]; reflexivity. }
  rewrite Hok. do 2 step. rewrite Hroot. do 2 step.
  change (registered t (Some root) w) with w1.
  assert (Hstep : forall (k : unit -> M unit),
    ((if decide (m_state f <> TERM) then modify this (with_state READY)
      else mret tt) ≫= k) w1 = k tt w2).
  { intros k. subst w2 f1. unfold yield_before_swap. fold w1.
    destruct (decide (m_state f <> TERM)) as [Hn|Hn].
    - step. rewrite decide_False by exact Hn. reflexivity.
    - step. apply dec_stable in Hn. rewrite decide_True by exact Hn.
      rewrite insert_id by exact Hf. now destruct w. }
  rewrite Hstep. step.
  assert (Htls : t_thread_fiber (tls_of w2 t) = Some root).
  { subst w2 w1. unfold yield_before_swap.
    rewrite tls_of_with_heap, tls_of_registered. exact Hroot. }
  rewrite Htls.
  rewrite (bind_Ret _ _ _ _ _ (run_swapcontext P t _ _ _ _ _ Hthis2 Hroot2)).
  change (libc_swapcontext P (trace w2)) with rc.
  destruct (decide (rc = 0)); reflexivity.
Qed.

Lemma yield_after_swap_facts rc t this f root w :
  let w' := yield_after_swap rc t this f root w in
  t_fiber (tls_of w' t) = Some root /\
  heap w' !! this =
    Some ((if decide (rc = 0)
           then captured (S (length (trace w))) else fun x => x)
            (if decide (m_state f = TERM) then f else with_state READY f)) /\
  trace w' = trace w ++ [ESetThis t (Some root); ESwapContext t this root] /\
  s_fiber_count w' = s_fiber_count w /\ s_fiber_id w' = s_fiber_id w.
Proof.
  unfold yield_after_swap, yield_before_swap.
  destruct (decide (rc = 0)) as [Hz|Hz].
  - rewrite tls_of_with_heap, tls_of_with_trace, tls_of_with_heap,
      tls_of_registered. wsimpl.
    split; [reflexivity|]. split.
    { rewrite lookup_insert_eq. rewrite length_app. cbn [length].
      now rewrite Nat.add_1_r. }
    split; [now rewrite <- app_assoc|]. split; reflexivity.
  - rewrite tls_of_with_trace, tls_of_with_heap, tls_of_registered. wsimpl.
    split; [reflexivity|]. split; [now rewrite lookup_insert_eq|].
    split; [now rewrite <- app_assoc|]. split; reflexivity.
Qed.

(** C2: [yield()] is legal only on a RUNNING or TERM fiber (the assertion
    fails on a READY one); it registers the thread's root fiber as current,
    makes a fiber that is not TERM READY and leaves a TERM one TERM, and
    calls [swapcontext] from this fiber's context to the thread root fiber's,
    whatever [m_runInScheduler] and the scheduler's hub are. *)
Theorem yield_registers_root_and_swaps_to_root P t this w f :
  heap w !! this = Some f ->
  (m_state f = RUNNING \/ m_state f = TERM ->
   forall root,
     t_thread_fiber (tls_of w t) = Some root ->
     is_Some (heap w !! root) ->
     let rc := libc_swapcontext P (trace w ++ [ESetThis t (Some root)]) in
     exists w',
       yield P t this w =
         (if decide (rc = 0) then Ret tt else Abort "swapcontext", w') /\
       t_fiber (tls_of w' t) = Some root /\
       m_state <$> heap w' !! this =
         Some (if decide (m_state f = TERM) then TERM else READY) /\
       trace w' =
         trace w ++ [ESetThis t (Some root); ESwapContext t this root])
  /\ (m_state f = READY ->
      yield P t this w =
        (Abort "m_state == RUNNING || m_state == TERM", w)).
Proof.
  intros Hf. split; [|apply yield_illegal; exact Hf].
  intros Hs root Hroot Hlive rc.
  eexists. split; [exact (yield_legal P t this w f root Hf Hs Hroot Hlive)|].
  destruct (yield_after_swap_facts
              (libc_swapcontext P (trace w ++ [ESetThis t (Some root)]))
              t this f root w) as (H1 & H2 & H3 & _).
  split; [exact H1|]. split; [|exact H3].
  subst rc. rewrite H2.
  destruct (decide (_ = 0)); destruct (decide (m_state f = TERM)) as [Ht|Ht];
    cbn; rewrite ?Ht; reflexivity.
Qed.

Lemma yield_registers_root_and_swaps_to_root_witness :
  let w := snd (resume demo_platform 1 3 demo_world) in
  t_scheduler_fiber (tls_of w 1) = Some 4%positive /\
  exists w',
    yield demo_platform 1 3 w = (Ret tt, w') /\
    t_fiber (tls_of w' 1) = Some 1%positive /\
    m_state <$> heap w' !! 3%positive = Some READY /\
    trace w' = trace w ++ [ESetThis 1 (Some 1%positive); ESwapContext 1 3 1].
Proof.
  cbv zeta. split; [reflexivity|].
  set (w := snd (resume demo_platform 1 3 demo_world)).
  destruct (heap w !! 3%positive) as [f|] eqn:Hf;
    [|vm_compute in Hf; discriminate].
  assert (Hs : m_state f = RUNNING)
    by (vm_compute in Hf; injection Hf as <-; reflexivity).
  destruct (yield_registers_root_and_swaps_to_root demo_platform 1 3 w f Hf)
    as [Hlegal _].
  destruct (Hlegal (or_introl Hs) 1%positive) as (w' & Hrun & H1 & H2 & H3).
  - reflexivity.
  - vm_compute. eauto.
  - exists w'. rewrite Hs in H2. repeat split; assumption.
Defined.

(** ** shared_ptr and GetThis on a thread that has a current fiber *)

Lemma run_shared_from_this this f w :
  heap w !! this = Some f -> use_count f <> 0%nat ->
  shared_from_this this w =
    (Ret (Some this),
     with_heap (<[this := with_use_count (S (use_count f)) f]> (heap w)) w).
Proof.
  intros Hf Hc. unfold shared_from_this. step.
  rewrite decide_False by exact Hc. step. reflexivity.
Qed.

Lemma run_shared_from_this_unowned this f w :
  heap w !! this = Some f -> use_count f = 0%nat ->
  shared_from_this this w = (Throw "std::bad_weak_ptr", w).
Proof.
  intros Hf Hc. unfold shared_from_this. step.
  rewrite decide_True by exact Hc. reflexivity.
Qed.

Lemma run_shared_ptr_copy this f w :
  heap w !! this = Some f ->
  shared_ptr_copy (Some this) w =
    (Ret (Some this),
     with_heap (<[this := with_use_count (S (use_count f)) f]> (heap w)) w).
Proof.
  intros Hf. unfold shared_ptr_copy. do 2 step. reflexivity.
Qed.

Lemma GetThis_current P t cur w :
  t_fiber (tls_of w t) = Some cur ->
  GetThis P t w = shared_from_this cur w.
Proof. intros Hc. unfold GetThis. step. now rewrite Hc. Qed.

Lemma run_release_shared t this f n w :
  heap w !! this = Some f -> use_count f = S (S n) ->
  shared_ptr_release t (Some this) w =
    (Ret tt, with_heap (<[this := with_use_count (S n) f]> (heap w)) w).
Proof.
  intros Hf Hc. unfold shared_ptr_release. step. rewrite Hc.
  now rewrite (run_modify this _ f) by exact Hf.
Qed.

(** ** The entry trampoline *)




(** ** Destruction *)

Lemma u64_small z : 0 <= z < 2 ^ 64 -> u64 z = z.
Proof. intros H. unfold u64. now apply Z.mod_small. Qed.

Lemma Fiber_dtor_task t this w f :
  heap w !! this = Some f ->
  m_stack f <> 0 ->
  Fiber_dtor t this w =
    if decide (m_state f = TERM)
    then (Ret tt,
          with_logged (logged w ++ [LogDtor (m_id f); LogDeallocStack (m_id f)])
            (with_trace (trace w ++ [EDealloc (m_stack f) (m_stack_size f)])
               (dtor_entered f w)))
    else (Abort "m_state == TERM", dtor_entered f w).
Proof.
  intros Hf Hstack. unfold Fiber_dtor. do 3 step.
  rewrite decide_True by exact Hstack.
  destruct (decide (m_state f = TERM)) as [Hs|Hs].
  - rewrite bool_decide_eq_true_2 by exact Hs. do 2 step.
    rewrite run_log. unfold dtor_entered. wsimpl.
    now rewrite <- app_assoc.
  - rewrite bool_decide_eq_false_2 by exact Hs.
    apply bind_Abort. reflexivity.
Qed.

Lemma Fiber_dtor_main t this w f :
  heap w !! this = Some f ->
  m_stack f = 0 ->
  Fiber_dtor t this w =
    if decide (m_cb f = None)
    then if decide (m_state f = RUNNING)
         then (Ret tt,
               if decide (t_fiber (tls_of w t) = Some this)
               then registered t None (dtor_entered f w)
               else dtor_entered f w)
         else (Abort "m_state == RUNNING", dtor_entered f w)
    else (Abort "!m_cb", dtor_entered f w).
Proof.
  intros Hf Hstack. unfold Fiber_dtor. do 3 step.
  rewrite decide_False by (intros H; now apply H).
  destruct (decide (m_cb f = None)) as [Hcb|Hcb].
  - rewrite (bool_decide_eq_true_2 _ Hcb). step.
    destruct (decide (m_state f = RUNNING)) as [Hs|Hs].
    + rewrite (bool_decide_eq_true_2 _ Hs). do 2 step.
      change (tls_of (with_count _ _) t) with (tls_of w t).
      destruct (decide (t_fiber (tls_of w t) = Some this)); reflexivity.
    + rewrite (bool_decide_eq_false_2 _ Hs). apply bind_Abort. reflexivity.
  - rewrite (bool_decide_eq_false_2 _ Hcb). apply bind_Abort. reflexivity.
Qed.

(** C4: the destructor takes one off the live-fiber counter whatever
    follows; for a fiber that owns a stack it asserts TERM and frees the stack
    with one [Dealloc]; for a root fiber (no stack) it asserts that there is
    no callback and that the state is RUNNING, frees nothing, and clears the
    thread's current-fiber pointer exactly when that points at this fiber. *)
Theorem dtor_asserts_frees_stack_once_and_deregisters_root t this w f :
  heap w !! this = Some f ->
  0 < s_fiber_count w < 2 ^ 64 ->
  exists o w',
    Fiber_dtor t this w = (o, w') /\
    s_fiber_count w' = s_fiber_count w - 1 /\
    (m_stack f <> 0 ->
       (m_state f = TERM ->
          o = Ret tt /\
          trace w' = trace w ++ [EDealloc (m_stack f) (m_stack_size f)] /\
          t_fiber (tls_of w' t) = t_fiber (tls_of w t)) /\
       (m_state f <> TERM ->
          o = Abort "m_state == TERM" /\ trace w' = trace w)) /\
    (m_stack f = 0 ->
       (m_cb f <> None -> o = Abort "!m_cb") /\
       (m_cb f = None -> m_state f <> RUNNING ->
          o = Abort "m_state == RUNNING") /\
       (m_cb f = None -> m_state f = RUNNING ->
          o = Ret tt /\
          t_fiber (tls_of w' t) =
            (if decide (t_fiber (tls_of w t) = Some this) then None
             else t_fiber (tls_of w t)) /\
          forall e, e ∈ trace w' -> e ∈ trace w \/ e = ESetThis t None)).
Proof.
  intros Hf Hcount.
  assert (Hdec : s_fiber_count (dtor_entered f w) = s_fiber_count w - 1).
  { unfold dtor_entered. wsimpl. apply u64_small. lia. }
  destruct (decide (m_stack f = 0)) as [Hstack|Hstack].
  - rewrite (Fiber_dtor_main t this w f Hf Hstack).
    destruct (decide (m_cb f = None)) as [Hcb|Hcb];
      [destruct (decide (m_state f = RUNNING)) as [Hs|Hs]|].
    + eexists _, _. split; [reflexivity|]. split.
      { destruct (decide (t_fiber (tls_of w t) = Some this)); exact Hdec. }
      split; [intros; contradiction|]. intros _.
      split; [intros; contradiction|]. split; [intros; contradiction|].
      intros _ _. split; [reflexivity|].
      destruct (decide (t_fiber (tls_of w t) = Some this)) as [Hc|Hc].
      * rewrite tls_of_registered. split; [reflexivity|].
        intros e. unfold registered, dtor_entered. wsimpl.
        rewrite elem_of_app, list_elem_of_singleton. tauto.
      * split; [reflexivity|]. intros e He. now left.
    + eexists _, _. split; [reflexivity|]. split; [exact Hdec|].
      split; [intros; contradiction|]. intros _.
      split; [intros; contradiction|]. split; [reflexivity|].
      intros; contradiction.
    + eexists _, _. split; [reflexivity|]. split; [exact Hdec|].
      split; [intros; contradiction|]. intros _.
      split; [reflexivity|]. split; intros; contradiction.
  - rewrite (Fiber_dtor_task t this w f Hf Hstack).
    destruct (decide (m_state f = TERM)) as [Hs|Hs].
    + eexists _, _. split; [reflexivity|]. split; [exact Hdec|].
      split; [|intros; contradiction]. intros _.
      split; [|intros; contradiction]. intros _.
      repeat split.
    + eexists _, _. split; [reflexivity|]. split; [exact Hdec|].
      split; [|intros; contradiction]. intros _.
      split; [intros; contradiction|]. intros _. repeat split.
Qed.

Lemma dtor_asserts_frees_stack_once_and_deregisters_root_witness :
  let w := snd ((resume demo_platform 1 2;; MainFunc demo_platform 1)
                  demo_world) in
  exists w',
    Fiber_dtor 1 2 w = (Ret tt, w') /\
    s_fiber_count w = 4 /\ s_fiber_count w' = 3 /\
    trace w' = trace w ++ [EDealloc 12288 131072].
Proof.
  cbv zeta.
  set (w := snd ((resume demo_platform 1 2;; MainFunc demo_platform 1)
                   demo_world)).
  destruct (heap w !! 2%positive) as [f|] eqn:Hf;
    [|vm_compute in Hf; discriminate].
  assert (Hfacts : m_state f = TERM /\ m_stack f = 12288
                   /\ m_stack_size f = 131072)
    by (vm_compute in Hf; injection Hf as <-; repeat split; reflexivity).
  destruct Hfacts as (Hs & Hstack & Hsize).
  assert (Hcount : s_fiber_count w = 4) by reflexivity.
  destruct (dtor_asserts_frees_stack_once_and_deregisters_root 1 2 w f Hf)
    as (o & w' & Hrun & Hdec & Htask & _).
  - rewrite Hcount. lia.
  - destruct Htask as [Hterm _]; [rewrite Hstack; discriminate|].
    destruct (Hterm Hs) as (-> & Htrace & _).
    exists w'. rewrite Hstack, Hsize in Htrace. rewrite Hcount in Hdec.
    repeat split; assumption.
Defined.

(** ** Reset *)

Lemma run_makecontext this f w :
  heap w !! this = Some f ->
  makecontext_MainFunc this w =
    (Ret tt,
     with_heap (<[this := bound_to_MainFunc f]> (heap w))
       (with_trace (trace w ++ [EMakeContext this]) w)).
Proof.
  intros Hf. unfold makecontext_MainFunc. step.
  now rewrite (run_modify this _ f) by exact Hf.
Qed.

Lemma reset_legal P this cb w f :
  heap w !! this = Some f ->
  m_stack f <> 0 -> m_state f = TERM ->
  reset P this cb w =
    if decide (libc_getcontext P (trace w) = 0)
    then (Ret tt,
          with_heap
            (<[this := with_state READY
                 (bound_to_MainFunc
                    (ctx_on_stack
                       (captured (length (trace w)) (with_cb cb f))))]>
               (heap w))
            (with_trace (trace w ++ [EGetContext this; EMakeContext this]) w))
    else (Abort "getcontext",
          with_trace (trace w ++ [EGetContext this])
            (with_heap (<[this := with_cb cb f]> (heap w)) w)).
Proof.
  intros Hf Hstack Hs. unfold reset. step.
  rewrite (bool_decide_eq_true_2 _ Hstack). step.
  rewrite (bool_decide_eq_true_2 _ Hs). do 2 step.
  erewrite bind_Ret; cycle 1.
  { apply run_getcontext. heap_lookup. }
  wsimpl.
  destruct (decide (libc_getcontext P (trace w) = 0)) as [Hz|Hz].
  - do 3 step.
    erewrite bind_Ret; cycle 1.
    { apply run_makecontext. heap_lookup. }
    erewrite run_modify by heap_lookup. wsimpl.
    rewrite !insert_insert_eq, <- app_assoc. reflexivity.
  - apply bind_Abort. reflexivity.
Qed.

(** C5: [reset(cb)] asserts that the fiber owns a stack and then that it is
    TERM; on such a fiber it installs [cb], rebinds the context to the entry
    trampoline on the same stack and makes the fiber READY, leaving id, stack
    pointer and stack size as they were and allocating nothing. *)
Theorem reset_reuses_stack_and_makes_ready P this cb w f :
  heap w !! this = Some f ->
  (m_stack f <> 0 -> m_state f = TERM ->
   libc_getcontext P (trace w) = 0 ->
   exists w' f',
     reset P this cb w = (Ret tt, w') /\
     heap w' !! this = Some f' /\
     m_state f' = READY /\ m_cb f' = cb /\
     m_id f' = m_id f /\ m_stack f' = m_stack f /\
     m_stack_size f' = m_stack_size f /\
     uc_pc (m_ctx f') = pc_entry_MainFunc /\
     uc_stack_ss_sp (m_ctx f') = m_stack f /\
     uc_stack_ss_size (m_ctx f') = m_stack_size f /\
     trace w' = trace w ++ [EGetContext this; EMakeContext this])
  /\ (m_stack f = 0 -> reset P this cb w = (Abort "m_stack", w))
  /\ (m_stack f <> 0 -> m_state f <> TERM ->
      reset P this cb w = (Abort "m_state == TERM", w)).
Proof.
  intros Hf. split; [|split].
  - intros Hstack Hs Hrc.
    rewrite (reset_legal P this cb w f Hf Hstack Hs).
    rewrite decide_True by exact Hrc.
    eexists _, _. split; [reflexivity|]. wsimpl.
    split; [apply lookup_insert_eq|]. repeat split.
  - intros Hstack. unfold reset. step. apply bind_Abort.
    rewrite (bool_decide_eq_false_2 (m_stack f <> 0))
      by (intros H; now apply H).
    reflexivity.
  - intros Hstack Hs. unfold reset. step.
    rewrite (bool_decide_eq_true_2 _ Hstack). step.
    apply bind_Abort. rewrite (bool_decide_eq_false_2 _ Hs). reflexivity.
Qed.

Lemma reset_reuses_stack_and_makes_ready_witness :
  let w := snd ((resume demo_platform 1 2;; MainFunc demo_platform 1)
                  demo_world) in
  m_state <$> heap w !! 2%positive = Some TERM /\
  exists w' f',
    reset demo_platform 2 (Some 11%nat) w = (Ret tt, w') /\
    heap w' !! 2%positive = Some f' /\
    m_state f' = READY /\ m_cb f' = Some 11%nat /\
    m_id f' = 1 /\ m_stack f' = 12288 /\ m_stack_size f' = 131072.
Proof.
  cbv zeta. split; [reflexivity|].
  set (w := snd ((resume demo_platform 1 2;; MainFunc demo_platform 1)
                   demo_world)).
  destruct (heap w !! 2%positive) as [f|] eqn:Hf;
    [|vm_compute in Hf; discriminate].
  assert (Hfacts : m_state f = TERM /\ m_stack f = 12288
                   /\ m_stack_size f = 131072 /\ m_id f = 1)
    by (vm_compute in Hf; injection Hf as <-; repeat split; reflexivity).
  destruct Hfacts as (Hs & Hstack & Hsize & Hid).
  destruct (reset_reuses_stack_and_makes_ready demo_platform 2 (Some 11%nat)
              w f Hf) as (Hlegal & _ & _).
  destruct Hlegal as (w' & f' & Hrun & Hf' & H1 & H2 & H3 & H4 & H5 & _).
  - rewrite Hstack. discriminate.
  - exact Hs.
  - reflexivity.
  - exists w', f'. rewrite Hid in H3. rewrite Hstack in H4.
    rewrite Hsize in H5. repeat split; assumption.
Defined.

(** ** Construction *)

Lemma run_place this f w :
  heap w !! this = None ->
  place this f w = (Ret tt, with_heap (<[this := f]> (heap w)) w).
Proof.
  intros Hfree. unfold place. step. now rewrite Hfree.
Qed.

Lemma Fiber_ctor_run P this cb stack_size run_in_scheduler w :
  heap w !! this = None ->
  (ctor_getcontext_rc P stack_size w = 0 ->
   Fiber_ctor P this cb stack_size run_in_scheduler w =
     (Ret tt, after_Fiber_ctor P this cb stack_size run_in_scheduler w))
  /\ (ctor_getcontext_rc P stack_size w <> 0 ->
      exists w', Fiber_ctor P this cb stack_size run_in_scheduler w =
                   (Abort "getcontext", w')).
Proof.
  intros Hfree. unfold Fiber_ctor. step.
  erewrite bind_Ret by (apply run_place; exact Hfree).
  do 5 step. wsimpl. cbn [m_stack_size with_stack_size].
  change (u32 _) with (ctor_stack_size stack_size w).
  change (libc_malloc P (trace w) _) with (ctor_stack P stack_size w).
  step.
  erewrite bind_Ret; cycle 1.
  { apply run_getcontext. heap_lookup. }
  wsimpl.
  change (libc_getcontext P _) with (ctor_getcontext_rc P stack_size w).
  split; intros Hrc.
  - rewrite !decide_True by exact Hrc. do 3 step.
    erewrite bind_Ret; cycle 1.
    { apply run_makecontext. heap_lookup. }
    rewrite run_log. unfold after_Fiber_ctor. wsimpl.
    rewrite !insert_insert_eq, <- !app_assoc. reflexivity.
  - rewrite !decide_False by exact Hrc. eexists.
    apply bind_Abort. reflexivity.
Qed.

Lemma Fiber_ctor_main_run P t this w :
  heap w !! this = None ->
  let rc := libc_getcontext P (trace w ++ [ESetThis t (Some this)]) in
  (rc = 0 ->
   Fiber_ctor_main P t this w = (Ret tt, after_Fiber_ctor_main P t this w))
  /\ (rc <> 0 ->
      exists w', Fiber_ctor_main P t this w = (Abort "getcontext", w')).
Proof.
  intros Hfree rc. unfold Fiber_ctor_main.
  erewrite bind_Ret by (apply run_place; exact Hfree).
  do 2 step.
  erewrite bind_Ret; cycle 1.
  { apply run_getcontext. heap_lookup. }
  wsimpl. change (libc_getcontext P _) with rc.
  split; intros Hrc.
  - rewrite !decide_True by exact Hrc. do 4 step.
    rewrite run_log. unfold after_Fiber_ctor_main, main_fiber. wsimpl.
    rewrite !insert_insert_eq, <- !app_assoc, length_app, Nat.add_1_r.
    reflexivity.
  - rewrite !decide_False by exact Hrc. eexists.
    apply bind_Abort. reflexivity.
Qed.

Lemma fresh_is_free (w : World) : heap w !! fresh (dom (heap w)) = None.
Proof. apply not_elem_of_dom, is_fresh. Qed.

Lemma GetThis_first P t w :
  t_fiber (tls_of w t) = None ->
  t_thread_fiber (tls_of w t) = None ->
  let this := fresh (dom (heap w)) in
  libc_getcontext P (trace w ++ [ESetThis t (Some this)]) = 0 ->
  GetThis P t w = (Ret (Some this), after_first_GetThis P t w).
Proof.
  intros Hcur Hroot this Hrc. unfold GetThis. step. rewrite Hcur.
  step. fold this.
  destruct (Fiber_ctor_main_run P t this w (fresh_is_free w)) as [Hrun _].
  rewrite (bind_Ret _ _ _ _ _ (Hrun Hrc)).
  assert (Hthis : heap (after_Fiber_ctor_main P t this w) !! this
                  = Some (main_fiber P w))
    by (unfold after_Fiber_ctor_main; heap_lookup).
  rewrite (bind_Ret _ _ _ _ _ (run_modify this _ _ _ Hthis)).
  assert (Htls : tls_of (after_Fiber_ctor_main P t this w) t =
                 mk_TLS (Some this) None (t_scheduler_fiber (tls_of w t))).
  { unfold after_Fiber_ctor_main, tls_of at 1. cbn [tls].
    rewrite lookup_insert_eq. cbn. now rewrite Hroot. }
  step. rewrite tls_of_with_heap, Htls. cbn [t_fiber].
  rewrite bool_decide_eq_true_2 by reflexivity. step.
  erewrite bind_Ret; cycle 1.
  { apply run_shared_ptr_copy. heap_lookup. }
  step. rewrite !tls_of_with_heap, Htls.
  cbn [t_thread_fiber t_fiber t_scheduler_fiber].
  do 2 step.
  rewrite tls_of_insert. cbn [t_fiber]. step.
  erewrite bind_Ret; cycle 1.
  { eapply run_shared_from_this; [heap_lookup|]. cbn. discriminate. }
  erewrite bind_Ret; cycle 1.
  { eapply run_release_shared; [heap_lookup|]. reflexivity. }
  unfold after_first_GetThis. fold this. wsimpl.
  rewrite !insert_insert_eq. reflexivity.
Qed.

(** ** GetThis and GetFiberId *)

Lemma GetFiberId_none t w :
  t_fiber (tls_of w t) = None -> GetFiberId t w = (Ret 0, w).
Proof. intros Hcur. unfold GetFiberId. step. now rewrite Hcur. Qed.

Lemma GetFiberId_current t cur f w :
  t_fiber (tls_of w t) = Some cur -> heap w !! cur = Some f ->
  GetFiberId t w = (Ret (m_id f), w).
Proof.
  intros Hcur Hf. unfold GetFiberId. step. rewrite Hcur. step. reflexivity.
Qed.

(** C9: on a thread with no registered fiber [GetFiberId()] returns 0; the
    first [GetThis()] there builds the root fiber (no callback, no stack,
    RUNNING, the next id), makes it the thread's current fiber and its owned
    root, and returns a handle to it; from then on [GetFiberId()] returns the
    root's id and [GetThis()] returns the fiber that is current. *)
Theorem GetThis_creates_root_once P t w :
  t_fiber (tls_of w t) = None ->
  t_thread_fiber (tls_of w t) = None ->
  libc_getcontext P
    (trace w ++ [ESetThis t (Some (fresh (dom (heap w))))]) = 0 ->
  GetFiberId t w = (Ret 0, w) /\
  exists this root w1,
    heap w !! this = None /\
    GetThis P t w = (Ret (Some this), w1) /\
    heap w1 !! this = Some root /\
    m_cb root = None /\ m_stack root = 0 /\ m_state root = RUNNING /\
    m_id root = s_fiber_id w /\
    use_count root = 2%nat /\
    t_fiber (tls_of w1 t) = Some this /\
    t_thread_fiber (tls_of w1 t) = Some this /\
    GetFiberId t w1 = (Ret (m_id root), w1) /\
    exists w2,
      GetThis P t w1 = (Ret (Some this), w2) /\
      heap w2 = <[this := with_use_count 3 root]> (heap w1) /\
      tls w2 = tls w1 /\ s_fiber_id w2 = s_fiber_id w1 /\
      s_fiber_count w2 = s_fiber_count w1 /\ trace w2 = trace w1.
Proof.
  intros Hcur Hroot Hrc. split; [apply GetFiberId_none; exact Hcur|].
  set (this := fresh (dom (heap w))) in *.
  set (w1 := after_first_GetThis P t w).
  assert (Hthis : heap w1 !! this = Some (with_use_count 2 (main_fiber P w)))
    by (subst w1; unfold after_first_GetThis; heap_lookup).
  assert (Htls : tls_of w1 t =
                 mk_TLS (Some this) (Some this) (t_scheduler_fiber (tls_of w t)))
    by (subst w1; unfold after_first_GetThis; apply tls_of_insert).
  exists this, (with_use_count 2 (main_fiber P w)), w1.
  split; [apply fresh_is_free|].
  split; [exact (GetThis_first P t w Hcur Hroot Hrc)|].
  split; [exact Hthis|]. do 5 (split; [reflexivity|]).
  split; [now rewrite Htls|]. split; [now rewrite Htls|].
  split.
  { apply (GetFiberId_current t this _ w1); [now rewrite Htls|exact Hthis]. }
  eexists. split.
  { rewrite (GetThis_current P t this w1) by now rewrite Htls.
    apply (run_shared_from_this this _ w1 Hthis). cbn. discriminate. }
  repeat split.
Qed.

Lemma GetThis_creates_root_once_witness :
  GetFiberId 1 World_init = (Ret 0, World_init) /\
  exists w1,
    GetThis demo_platform 1 World_init = (Ret (Some 1%positive), w1) /\
    m_state <$> heap w1 !! 1%positive = Some RUNNING /\
    t_fiber (tls_of w1 1) = Some 1%positive /\
    t_thread_fiber (tls_of w1 1) = Some 1%positive /\
    exists w2, GetThis demo_platform 1 w1 = (Ret (Some 1%positive), w2).
Proof.
  destruct (GetThis_creates_root_once demo_platform 1 World_init
              eq_refl eq_refl eq_refl)
    as (H0 & this & root & w1 & Hfree & Hrun & Hroot & _ & _ & Hs & _ & _
        & Hcur & Howned & _ & w2 & Hagain & _).
  assert (Hthis : this = 1%positive).
  { assert (Hfst : fst (GetThis demo_platform 1 World_init)
                   = Ret (Some 1%positive)) by (vm_compute; reflexivity).
    rewrite Hrun in Hfst. now injection Hfst. }
  subst this. split; [exact H0|].
  exists w1. split; [exact Hrun|]. split; [now rewrite Hroot, <- Hs|].
  split; [exact Hcur|]. split; [exact Howned|]. exists w2. exact Hagain.
Defined.

(** C10: [GetFiberId()] returning 0 does not mean that no fiber is
    registered: ids start at 0, so on the thread whose root fiber is the
    first fiber of the process [GetFiberId()] is 0 with that fiber registered
    and current, as it is before any fiber exists. *)
Theorem GetFiberId_zero_with_registered_fiber :
  let w := snd (GetThis demo_platform 1 World_init) in
  GetFiberId 1 World_init = (Ret 0, World_init) /\
  t_fiber (tls_of World_init 1) = None /\
  fst (GetThis demo_platform 1 World_init) = Ret (Some 1%positive) /\
  t_fiber (tls_of w 1) = Some 1%positive /\
  m_id <$> heap w !! 1%positive = Some 0 /\
  fst (GetFiberId 1 w) = Ret 0.
Proof.
  cbv zeta. repeat split; vm_compute; reflexivity.
Qed.

(** ** Creating a task fiber *)

Lemma u32_small z : 0 <= z < 2 ^ 32 -> u32 z = z.
Proof. intros H. unfold u32. now apply Z.mod_small. Qed.

Lemma Fiber_new_run P cb stack_size run_in_scheduler w :
  ctor_getcontext_rc P stack_size w = 0 ->
  let this := fresh (dom (heap w)) in
  let w1 := after_Fiber_ctor P this cb stack_size run_in_scheduler w in
  Fiber_new P cb stack_size run_in_scheduler w =
    (Ret (Some this),
     with_heap
       (<[this := with_use_count 1
                    (task_fiber P cb stack_size run_in_scheduler w)]>
          (heap w1)) w1).
Proof.
  intros Hrc this w1. unfold Fiber_new. step. fold this.
  destruct (Fiber_ctor_run P this cb stack_size run_in_scheduler w
              (fresh_is_free w)) as [Hrun _].
  rewrite (bind_Ret _ _ _ _ _ (Hrun Hrc)). fold w1.
  erewrite bind_Ret; cycle 1.
  { apply run_modify. subst w1. unfold after_Fiber_ctor. heap_lookup. }
  reflexivity.
Qed.

(** X1: What holds of every task fiber the constructor builds when [malloc]
    has returned a block for its stack and [getcontext] succeeds: READY, one
    more live fiber, the context bound to the trampoline on the new stack,
    the stack sized by the configured default for a request of 0 and by the
    request itself when that is below 2^32.  (The constructor does not test
    what [malloc] returned: a null stack goes to [makecontext] as it is, and
    nothing is stated here about that run.) *)
Lemma Fiber_ctor_ready_counted_bound P this cb stack_size run_in_scheduler w :
  heap w !! this = None ->
  ctor_stack P stack_size w <> 0 ->
  ctor_getcontext_rc P stack_size w = 0 ->
  0 <= g_fiber_stack_size w < 2 ^ 32 ->
  exists w' f,
    Fiber_ctor P this cb stack_size run_in_scheduler w = (Ret tt, w') /\
    heap w' !! this = Some f /\
    m_state f = READY /\ m_cb f = cb /\
    m_runInScheduler f = run_in_scheduler /\
    s_fiber_count w' = u64 (s_fiber_count w + 1) /\
    (s_fiber_count w + 1 < 2 ^ 64 -> 0 <= s_fiber_count w ->
     s_fiber_count w' = s_fiber_count w + 1) /\
    uc_pc (m_ctx f) = pc_entry_MainFunc /\
    uc_stack_ss_sp (m_ctx f) = m_stack f /\
    uc_stack_ss_size (m_ctx f) = m_stack_size f /\
    m_stack f = libc_malloc P (trace w) (m_stack_size f) /\
    m_stack f <> 0 /\
    (stack_size = 0 -> m_stack_size f = g_fiber_stack_size w) /\
    (0 < stack_size < 2 ^ 32 -> m_stack_size f = stack_size).
Proof.
  intros Hfree Hstack Hrc Hcfg.
  destruct (Fiber_ctor_run P this cb stack_size run_in_scheduler w Hfree)
    as [Hrun _].
  eexists _, _. split; [exact (Hrun Hrc)|].
  unfold after_Fiber_ctor. wsimpl. split; [apply lookup_insert_eq|].
  cbn [task_fiber m_state m_cb m_runInScheduler m_ctx uc_pc uc_stack_ss_sp
       uc_stack_ss_size m_stack m_stack_size].
  repeat split.
  - intros H1 H2. apply u64_small. lia.
  - exact Hstack.
  - intros ->. unfold ctor_stack_size. rewrite decide_True by reflexivity.
    now apply u32_small.
  - intros Hsz. unfold ctor_stack_size. rewrite decide_False by lia.
    apply u32_small. lia.
Qed.

Lemma fiber_stack_size_default_value : fiber_stack_size_default = 131072.
Proof. reflexivity. Qed.

(** C7, where the code falls short: the constructor stores the requested
    [size_t] in the [uint32_t] member [m_stack_size], so a request of
    2^32 + 4096 bytes is not used as given: the fiber gets a stack of 4096
    bytes. *)
Theorem Fiber_ctor_truncates_stack_size_to_32_bits :
  let r := Fiber_new demo_platform (Some 7%nat) (2 ^ 32 + 4096) false
             World_init in
  fst r = Ret (Some 1%positive) /\
  m_state <$> heap (snd r) !! 1%positive = Some READY /\
  m_stack_size <$> heap (snd r) !! 1%positive = Some 4096 /\
  trace (snd r) = [EAlloc 4096 4096; EGetContext 1; EMakeContext 1].
Proof.
  cbv zeta. repeat split; vm_compute; reflexivity.
Qed.

(** ** Who writes the current-fiber pointer *)

(** Creating a task fiber on a thread whose root is current: [SetThis] is not
    called and the thread's current fiber is still the root. *)
Lemma task_construction_leaves_current_fiber :
  let w0 := snd (GetThis demo_platform 1 World_init) in
  let r := Fiber_new demo_platform (Some 7%nat) 0 false w0 in
  fst r = Ret (Some 2%positive) /\
  t_fiber (tls_of w0 1) = Some 1%positive /\
  t_fiber (tls_of (snd r) 1) = Some 1%positive /\
  tls (snd r) = tls w0 /\
  trace (snd r) =
    trace w0 ++ [EAlloc 131072 12288; EGetContext 2; EMakeContext 2].
Proof.
  cbv zeta. repeat split; vm_compute; reflexivity.
Qed.

Lemma resume_sets_current P t this w f anchor :
  heap w !! this = Some f ->
  m_state f <> TERM -> m_state f <> RUNNING ->
  (if m_runInScheduler f then t_scheduler_fiber (tls_of w t)
   else t_thread_fiber (tls_of w t)) = Some anchor ->
  is_Some (heap w !! anchor) ->
  exists o w',
    resume P t this w = (o, w') /\
    t_fiber (tls_of w' t) = Some this /\
    ESetThis t (Some this) ∈ trace w'.
Proof.
  intros Hf Hs1 Hs2 Ha [fa Hfa].
  destruct (resume_legal P t this w f anchor fa Hf Hs1 Hs2 Ha Hfa)
    as (fa' & _ & Hrun).
  eexists _, _. split; [exact Hrun|]. cbv zeta.
  destruct (decide (_ = 0)).
  - rewrite tls_of_with_heap, tls_of_with_trace, tls_of_with_heap,
      tls_of_registered. wsimpl. split; [reflexivity|].
    rewrite !elem_of_app, !list_elem_of_singleton. tauto.
  - rewrite tls_of_with_trace, tls_of_with_heap, tls_of_registered. wsimpl.
    split; [reflexivity|].
    rewrite !elem_of_app, !list_elem_of_singleton. tauto.
Qed.

(** C8 (amended): the current-fiber pointer is written by every [resume()]
    (the resumed fiber), by every [yield()] (the thread's root fiber) and by
    the construction of a root fiber (the new fiber); the destructor clears
    it only for a root fiber it points at; constructing or destroying a task
    fiber leaves every thread's pointer as it was. *)
Theorem current_fiber_written_by_resume_yield_root_only P t this w :
  (forall f, heap w !! this = Some f ->
     (m_state f = READY ->
      forall anchor,
        (if m_runInScheduler f then t_scheduler_fiber (tls_of w t)
         else t_thread_fiber (tls_of w t)) = Some anchor ->
        is_Some (heap w !! anchor) ->
        exists o w',
          resume P t this w = (o, w') /\
          t_fiber (tls_of w' t) = Some this /\
          ESetThis t (Some this) ∈ trace w') /\
     (m_state f <> READY ->
      forall root,
        t_thread_fiber (tls_of w t) = Some root ->
        is_Some (heap w !! root) ->
        exists o w',
          yield P t this w = (o, w') /\
          t_fiber (tls_of w' t) = Some root /\
          ESetThis t (Some root) ∈ trace w') /\
     (m_stack f <> 0 ->
      exists o w',
        Fiber_dtor t this w = (o, w') /\ tls w' = tls w /\
        forall t' p, ESetThis t' p ∈ trace w' -> ESetThis t' p ∈ trace w) /\
     (m_stack f = 0 -> m_cb f = None -> m_state f = RUNNING ->
      exists w',
        Fiber_dtor t this w = (Ret tt, w') /\
        t_fiber (tls_of w' t) =
          (if decide (t_fiber (tls_of w t) = Some this) then None
           else t_fiber (tls_of w t)) /\
        (t_fiber (tls_of w t) <> Some this -> tls w' = tls w)))
  /\ (heap w !! this = None ->
      (libc_getcontext P (trace w ++ [ESetThis t (Some this)]) = 0 ->
       exists w',
         Fiber_ctor_main P t this w = (Ret tt, w') /\
         t_fiber (tls_of w' t) = Some this /\
         ESetThis t (Some this) ∈ trace w') /\
      (forall cb stack_size run_in_scheduler,
         ctor_getcontext_rc P stack_size w = 0 ->
         exists w',
           Fiber_ctor P this cb stack_size run_in_scheduler w = (Ret tt, w') /\
           tls w' = tls w /\
           forall t' p, ESetThis t' p ∈ trace w' -> ESetThis t' p ∈ trace w)).
Proof.
  split.
  - intros f Hf. split; [|split; [|split]].
    + intros Hs anchor Ha Hlive.
      apply (resume_sets_current P t this w f anchor Hf); try assumption;
        rewrite Hs; discriminate.
    + intros Hs root Hroot Hlive.
      assert (Hlegal : m_state f = RUNNING \/ m_state f = TERM)
        by (destruct (m_state f); [contradiction|now left|now right]).
      eexists _, _.
      split; [exact (yield_legal P t this w f root Hf Hlegal Hroot Hlive)|].
      destruct (yield_after_swap_facts
                  (libc_swapcontext P (trace w ++ [ESetThis t (Some root)]))
                  t this f root w) as (H1 & _ & H3 & _).
      split; [exact H1|]. rewrite H3.
      rewrite elem_of_app, elem_of_cons. tauto.
    + intros Hstack. rewrite (Fiber_dtor_task t this w f Hf Hstack).
      destruct (decide (m_state f = TERM)).
      * eexists _, _. split; [reflexivity|]. split; [reflexivity|].
        intros t' p. wsimpl. unfold dtor_entered. wsimpl.
        rewrite elem_of_app, list_elem_of_singleton. intros [H|H];
          [exact H|discriminate].
      * eexists _, _. split; [reflexivity|]. split; [reflexivity|].
        intros t' p H. exact H.
    + intros Hstack Hcb Hs. rewrite (Fiber_dtor_main t this w f Hf Hstack).
      rewrite (decide_True (P := m_cb f = None)) by exact Hcb.
      rewrite (decide_True (P := m_state f = RUNNING)) by exact Hs.
      eexists. split; [reflexivity|].
      destruct (decide (t_fiber (tls_of w t) = Some this)) as [Hc|Hc].
      * rewrite tls_of_registered. split; [reflexivity|]. contradiction.
      * split; [reflexivity|]. reflexivity.
  - intros Hfree. split.
    + intros Hrc.
      destruct (Fiber_ctor_main_run P t this w Hfree) as [Hrun _].
      eexists. split; [exact (Hrun Hrc)|].
      unfold after_Fiber_ctor_main, tls_of. cbn [tls trace].
      rewrite lookup_insert_eq. split; [reflexivity|].
      rewrite elem_of_app, elem_of_cons. tauto.
    + intros cb stack_size run_in_scheduler Hrc.
      destruct (Fiber_ctor_run P this cb stack_size run_in_scheduler w Hfree)
        as [Hrun _].
      eexists. split; [exact (Hrun Hrc)|]. split; [reflexivity|].
      intros t' p. unfold after_Fiber_ctor. cbn [trace].
      rewrite elem_of_app, !elem_of_cons, elem_of_nil.
      intros [H|[H|[H|[H|[]]]]]; [exact H|discriminate..].
Qed.

Lemma current_fiber_written_by_resume_yield_root_only_witness :
  (exists o w',
     resume demo_platform 1 2 demo_world = (o, w') /\
     t_fiber (tls_of w' 1) = Some 2%positive) /\
  (exists w',
     Fiber_ctor demo_platform 9 None 0 false demo_world = (Ret tt, w') /\
     tls w' = tls demo_world).
Proof.
  destruct (current_fiber_written_by_resume_yield_root_only
              demo_platform 1 2 demo_world) as [Hlive _].
  destruct (current_fiber_written_by_resume_yield_root_only
              demo_platform 1 9 demo_world) as [_ Hfree].
  destruct (heap demo_world !! 2%positive) as [f|] eqn:Hf;
    [|vm_compute in Hf; discriminate].
  assert (Hs : m_state f = READY /\ m_runInScheduler f = false)
    by (vm_compute in Hf; injection Hf as <-; split; reflexivity).
  destruct Hs as [Hs Hr].
  destruct (Hlive f eq_refl) as (Hresume & _).
  destruct (Hresume Hs 1%positive) as (o & w' & Hrun & Hcur & _).
  { rewrite Hr. vm_compute. reflexivity. }
  { vm_compute. eauto. }
  split; [exists o, w'; split; assumption|].
  destruct Hfree as [_ Htask]; [vm_compute; reflexivity|].
  destruct (Htask None 0 false) as (w'' & Hctor & Htls & _);
    [vm_compute; reflexivity|].
  exists w''. split; assumption.
Defined.

(** ** Ids and the live-fiber counter over the life of a process *)

Lemma u64_range z : 0 <= u64 z < 2 ^ 64.
Proof. unfold u64. apply Z.mod_pos_bound. reflexivity. Qed.

Lemma u64_add_l a b : u64 (u64 a + b) = u64 (a + b).
Proof. unfold u64. apply Zplus_mod_idemp_l. Qed.

Lemma u64_sub_l a b : u64 (u64 a - b) = u64 (a - b).
Proof. unfold u64. apply Zminus_mod_idemp_l. Qed.

Lemma bind_inv {A B} (m : M A) (k : A -> M B) w b w' :
  (m ≫= k) w = (Ret b, w') ->
  exists a w1, m w = (Ret a, w1) /\ k a w1 = (Ret b, w').
Proof.
  unfold mbind, M_bind, bind. destruct (m w) as [[a| | |] w1];
    [eauto|discriminate..].
Qed.

(** Most of fiber.cpp leaves the two counters and the log alone. *)
Lemma keeps_bind {A B} (m : M A) (k : A -> M B) :
  keeps_ledger m -> (forall a, keeps_ledger (k a)) ->
  keeps_ledger (m ≫= k).
Proof.
  intros Hm Hk w o w'. unfold mbind, M_bind, bind.
  destruct (m w) as [[a|s|s|s] w1] eqn:Hmw; intros Hrun;
    destruct (Hm _ _ _ Hmw) as (H1 & H2 & H3).
  - destruct (Hk a _ _ _ Hrun) as (H4 & H5 & H6). repeat split; congruence.
  - injection Hrun as <- <-. now repeat split.
  - injection Hrun as <- <-. now repeat split.
  - injection Hrun as <- <-. now repeat split.
Qed.

Lemma keeps_pure {A} (o : Outcome A) : keeps_ledger (fun w => (o, w)).
Proof. intros w o' w' [= <- <-]. now repeat split. Qed.

Lemma keeps_update g :
  (forall w, s_fiber_id (g w) = s_fiber_id w /\
             s_fiber_count (g w) = s_fiber_count w /\
             logged (g w) = logged w) ->
  keeps_ledger (update g).
Proof. intros Hg w o w' [= <- <-]. apply Hg. Qed.

Ltac keeps :=
  repeat first
    [ apply keeps_bind; [|intros ?]
    | apply keeps_pure
    | apply keeps_update; intros ?; repeat split
    | match goal with
      | |- keeps_ledger (if ?c then _ else _) => destruct c
      | |- keeps_ledger (match ?c with _ => _ end) => destruct c
      end ].

Lemma keeps_fiber_at a : keeps_ledger (fiber_at a).
Proof.
  intros w o w'. unfold fiber_at.
  destruct (heap w !! a); intros [= <- <-]; now repeat split.
Qed.

Lemma keeps_get_world : keeps_ledger get_world.
Proof. intros w o w' [= <- <-]. now repeat split. Qed.

Lemma keeps_get_tls t : keeps_ledger (get_tls t).
Proof. intros w o w' [= <- <-]. now repeat split. Qed.

Lemma keeps_Scheduler_GetMainFiber t :
  keeps_ledger (Scheduler_GetMainFiber t).
Proof. intros w o w' [= <- <-]. now repeat split. Qed.

Lemma keeps_modify a g : keeps_ledger (modify a g).
Proof. unfold modify. apply keeps_bind; [apply keeps_fiber_at|intros f]. keeps. Qed.

Lemma keeps_emit e : keeps_ledger (emit e).
Proof. unfold emit. keeps. Qed.

Lemma keeps_SetThis t f : keeps_ledger (SetThis t f).
Proof. unfold SetThis, set_tls. apply keeps_bind; [apply keeps_emit|intros]. keeps. Qed.

Lemma keeps_assert c s : keeps_ledger (SYLAR_ASSERT c s).
Proof. unfold SYLAR_ASSERT. destruct c; apply keeps_pure. Qed.

Lemma keeps_deref p : keeps_ledger (deref p).
Proof. unfold deref. destruct p; apply keeps_pure. Qed.

Lemma keeps_swapcontext P t s l : keeps_ledger (swapcontext P t s l).
Proof.
  unfold swapcontext.
  apply keeps_bind; [apply keeps_deref|intros].
  apply keeps_bind; [apply keeps_deref|intros].
  apply keeps_bind; [apply keeps_fiber_at|intros].
  apply keeps_bind; [apply keeps_fiber_at|intros].
  apply keeps_bind; [apply keeps_get_world|intros].
  apply keeps_bind; [apply keeps_emit|intros].
  apply keeps_bind; [|intros; apply keeps_pure].
  destruct (decide _); [apply keeps_modify|apply keeps_pure].
Qed.

Lemma keeps_getcontext P a : keeps_ledger (getcontext P a).
Proof.
  unfold getcontext.
  apply keeps_bind; [apply keeps_get_world|intros].
  apply keeps_bind; [apply keeps_emit|intros].
  apply keeps_bind; [|intros; apply keeps_pure].
  destruct (decide _); [apply keeps_modify|apply keeps_pure].
Qed.

Lemma keeps_makecontext a : keeps_ledger (makecontext_MainFunc a).
Proof.
  unfold makecontext_MainFunc.
  apply keeps_bind; [apply keeps_emit|intros]. apply keeps_modify.
Qed.

Lemma keeps_swap_checked P t s l :
  keeps_ledger
    (rc ← swapcontext P t s l;
     if decide (rc = 0) then mret tt else SYLAR_ASSERT2 false "swapcontext").
Proof.
  apply keeps_bind; [apply keeps_swapcontext|intros rc].
  destruct (decide _); [apply keeps_pure|apply keeps_assert].
Qed.

Lemma resume_keeps_ledger P t this : keeps_ledger (resume P t this).
Proof.
  unfold resume.
  apply keeps_bind; [apply keeps_fiber_at|intros f].
  apply keeps_bind; [apply keeps_assert|intros].
  apply keeps_bind; [apply keeps_SetThis|intros].
  apply keeps_bind; [apply keeps_modify|intros].
  destruct (m_runInScheduler f).
  - apply keeps_bind; [apply keeps_Scheduler_GetMainFiber|intros].
    apply keeps_swap_checked.
  - apply keeps_bind; [apply keeps_get_tls|intros]. apply keeps_swap_checked.
Qed.

Lemma yield_keeps_ledger P t this : keeps_ledger (yield P t this).
Proof.
  unfold yield.
  apply keeps_bind; [apply keeps_fiber_at|intros f].
  apply keeps_bind; [apply keeps_assert|intros].
  apply keeps_bind; [apply keeps_get_tls|intros].
  apply keeps_bind; [apply keeps_SetThis|intros].
  apply keeps_bind; [apply keeps_fiber_at|intros f'].
  apply keeps_bind;
    [destruct (decide _); [apply keeps_modify|apply keeps_pure]|intros].
  apply keeps_bind; [apply keeps_get_tls|intros]. apply keeps_swap_checked.
Qed.

Lemma reset_keeps_ledger P this cb : keeps_ledger (reset P this cb).
Proof.
  unfold reset.
  apply keeps_bind; [apply keeps_fiber_at|intros f].
  apply keeps_bind; [apply keeps_assert|intros].
  apply keeps_bind; [apply keeps_assert|intros].
  apply keeps_bind; [apply keeps_modify|intros].
  apply keeps_bind; [apply keeps_getcontext|intros rc].
  apply keeps_bind;
    [destruct (decide _); [apply keeps_pure|apply keeps_assert]|intros].
  apply keeps_bind; [apply keeps_fiber_at|intros f'].
  apply keeps_bind; [apply keeps_modify|intros].
  apply keeps_bind; [apply keeps_makecontext|intros].
  apply keeps_modify.
Qed.

Lemma keeps_shared_from_this this : keeps_ledger (shared_from_this this).
Proof.
  unfold shared_from_this.
  apply keeps_bind; [apply keeps_fiber_at|intros f].
  destruct (decide _); [apply keeps_pure|].
  apply keeps_bind; [apply keeps_modify|intros; apply keeps_pure].
Qed.

Lemma keeps_shared_ptr_copy p : keeps_ledger (shared_ptr_copy p).
Proof.
  unfold shared_ptr_copy. destruct p as [a|]; [|apply keeps_pure].
  apply keeps_bind; [apply keeps_fiber_at|intros f].
  apply keeps_bind; [apply keeps_modify|intros; apply keeps_pure].
Qed.

Lemma keeps_set_tls t g : keeps_ledger (set_tls t g).
Proof. unfold set_tls. keeps. Qed.

Lemma keeps_operator_new : keeps_ledger operator_new.
Proof. intros w o w' [= <- <-]. now repeat split. Qed.

Lemma GetFiberId_keeps_ledger t : keeps_ledger (GetFiberId t).
Proof.
  unfold GetFiberId. apply keeps_bind; [apply keeps_get_tls|intros l].
  destruct (t_fiber l); [|apply keeps_pure].
  apply keeps_bind; [apply keeps_fiber_at|intros; apply keeps_pure].
Qed.

Lemma TotalFibers_keeps_ledger : keeps_ledger TotalFibers.
Proof.
  unfold TotalFibers.
  apply keeps_bind; [apply keeps_get_world|intros; apply keeps_pure].
Qed.

(** [ledger_ok] over one construction and one destruction. *)

Lemma ledger_ok_same w w' :
  s_fiber_id w' = s_fiber_id w -> s_fiber_count w' = s_fiber_count w ->
  logged w' = logged w ->
  ledger_ok w -> ledger_ok w'.
Proof.
  unfold ledger_ok, constructed_ids, destroyed.
  intros -> -> ->. exact (fun H => H).
Qed.

Lemma ledger_ok_constructed w w' l :
  ledger_ok w ->
  ctor_id l = Some (s_fiber_id w) ->
  logged w' = logged w ++ [l] ->
  s_fiber_id w' = u64 (s_fiber_id w + 1) ->
  s_fiber_count w' = u64 (s_fiber_count w + 1) ->
  ledger_ok w'.
Proof.
  unfold ledger_ok, constructed_ids, destroyed.
  intros (Hids & Hid & Hcount) Hl Hlog Hid' Hcount'.
  assert (Hnot : is_dtor l = false) by (destruct l; try reflexivity; discriminate).
  assert (Hone : omap ctor_id [l] = [s_fiber_id w]) by (cbn; now rewrite Hl).
  rewrite Hlog, omap_app, filter_app, Hone.
  rewrite filter_cons_False by (rewrite Hnot; discriminate).
  rewrite filter_nil, app_nil_r, length_app. cbn [length].
  set (N := length (omap ctor_id (logged w))) in *.
  split; [|split].
  - rewrite seq_app, fmap_app, <- Hids. cbn. now rewrite Hid.
  - rewrite Hid', Hid, u64_add_l. f_equal. lia.
  - rewrite Hcount', Hcount, u64_add_l. f_equal. lia.
Qed.

Lemma ledger_ok_destroyed w w' id extra :
  ledger_ok w ->
  logged w' = logged w ++ LogDtor id :: extra ->
  omap ctor_id extra = [] ->
  filter (fun l => is_dtor l = true) extra = [] ->
  s_fiber_id w' = s_fiber_id w ->
  s_fiber_count w' = u64 (s_fiber_count w - 1) ->
  ledger_ok w'.
Proof.
  unfold ledger_ok, constructed_ids, destroyed.
  intros (Hids & Hid & Hcount) Hlog Hnoctor Hnodtor Hid' Hcount'.
  assert (Hone : omap ctor_id (LogDtor id :: extra) = [])
    by (cbn; exact Hnoctor).
  rewrite Hlog, omap_app, filter_app, Hone, app_nil_r.
  rewrite filter_cons_True by reflexivity.
  rewrite Hnodtor, length_app. cbn [length].
  split; [exact Hids|]. split; [now rewrite Hid'|].
  rewrite Hcount', Hcount, u64_sub_l. f_equal. lia.
Qed.

Lemma keeps_preserves {A} (m : M A) : keeps_ledger m -> preserves_ledger m.
Proof.
  intros Hm w a w' Hok Hrun. destruct (Hm _ _ _ Hrun) as (H1 & H2 & H3).
  now apply (ledger_ok_same w w').
Qed.

Lemma preserves_bind {A B} (m : M A) (k : A -> M B) :
  preserves_ledger m -> (forall a, preserves_ledger (k a)) ->
  preserves_ledger (m ≫= k).
Proof.
  intros Hm Hk w b w' Hok Hrun.
  apply bind_inv in Hrun as (a & w1 & H1 & H2).
  exact (Hk a w1 b w' (Hm w a w1 Hok H1) H2).
Qed.

Lemma preserves_ret {A} (a : A) : preserves_ledger (mret a : M A).
Proof. intros w a' w' Hok [= <- <-]. exact Hok. Qed.

Create HintDb ledger.
#[local] Hint Resolve keeps_bind keeps_pure keeps_fiber_at keeps_get_world
  keeps_get_tls keeps_Scheduler_GetMainFiber keeps_modify keeps_emit
  keeps_SetThis keeps_assert keeps_deref keeps_swapcontext keeps_getcontext
  keeps_makecontext keeps_shared_from_this keeps_shared_ptr_copy
  keeps_set_tls keeps_operator_new GetFiberId_keeps_ledger
  TotalFibers_keeps_ledger resume_keeps_ledger yield_keeps_ledger
  reset_keeps_ledger : ledger.

Lemma Fiber_ctor_returns P this cb stack_size run_in_scheduler w u w' :
  Fiber_ctor P this cb stack_size run_in_scheduler w = (Ret u, w') ->
  heap w !! this = None /\
  w' = after_Fiber_ctor P this cb stack_size run_in_scheduler w.
Proof.
  intros Hrun. destruct (heap w !! this) as [f|] eqn:Hfree.
  - exfalso. revert Hrun. unfold Fiber_ctor. step.
    erewrite bind_Undefined; [discriminate|].
    unfold place. step. wsimpl. rewrite Hfree. reflexivity.
  - destruct (Fiber_ctor_run P this cb stack_size run_in_scheduler w Hfree)
      as [Hret Habort].
    destruct (decide (ctor_getcontext_rc P stack_size w = 0)) as [Hrc|Hrc].
    + rewrite (Hret Hrc) in Hrun. injection Hrun as _ <-. now split.
    + destruct (Habort Hrc) as [w1 H1]. rewrite H1 in Hrun. discriminate.
Qed.

Lemma Fiber_ctor_main_returns P t this w u w' :
  Fiber_ctor_main P t this w = (Ret u, w') ->
  heap w !! this = None /\ w' = after_Fiber_ctor_main P t this w.
Proof.
  intros Hrun. destruct (heap w !! this) as [f|] eqn:Hfree.
  - exfalso. revert Hrun. unfold Fiber_ctor_main.
    erewrite bind_Undefined; [discriminate|].
    unfold place. step. rewrite Hfree. reflexivity.
  - destruct (Fiber_ctor_main_run P t this w Hfree) as [Hret Habort].
    destruct (decide (libc_getcontext P
                (trace w ++ [ESetThis t (Some this)]) = 0)) as [Hrc|Hrc].
    + rewrite (Hret Hrc) in Hrun. injection Hrun as _ <-. now split.
    + destruct (Habort Hrc) as [w1 H1]. rewrite H1 in Hrun. discriminate.
Qed.

Lemma Fiber_dtor_returns t this w u w' :
  Fiber_dtor t this w = (Ret u, w') ->
  exists f extra,
    heap w !! this = Some f /\
    logged w' = logged w ++ LogDtor (m_id f) :: extra /\
    omap ctor_id extra = [] /\
    filter (fun l => is_dtor l = true) extra = [] /\
    s_fiber_id w' = s_fiber_id w /\
    s_fiber_count w' = u64 (s_fiber_count w - 1).
Proof.
  intros Hrun. destruct (heap w !! this) as [f|] eqn:Hf.
  - destruct (decide (m_stack f = 0)) as [Hstack|Hstack].
    + rewrite (Fiber_dtor_main t this w f Hf Hstack) in Hrun.
      destruct (decide (m_cb f = None)); [|discriminate].
      destruct (decide (m_state f = RUNNING)); [|discriminate].
      injection Hrun as _ <-. exists f, [].
      destruct (decide (t_fiber (tls_of w t) = Some this)); repeat split.
    + rewrite (Fiber_dtor_task t this w f Hf Hstack) in Hrun.
      destruct (decide (m_state f = TERM)); [|discriminate].
      injection Hrun as _ <-. exists f, [LogDeallocStack (m_id f)].
      repeat split.
  - exfalso. revert Hrun. unfold Fiber_dtor.
    erewrite bind_Undefined; [discriminate|].
    apply run_fiber_at_dangling. exact Hf.
Qed.

Lemma Fiber_ctor_preserves_ledger P this cb stack_size run_in_scheduler :
  preserves_ledger (Fiber_ctor P this cb stack_size run_in_scheduler).
Proof.
  intros w a w' Hok Hrun.
  apply Fiber_ctor_returns in Hrun as [_ ->].
  apply (ledger_ok_constructed w _ (LogCtor (s_fiber_id w)));
    [exact Hok|reflexivity..].
Qed.

Lemma Fiber_ctor_main_preserves_ledger P t this :
  preserves_ledger (Fiber_ctor_main P t this).
Proof.
  intros w a w' Hok Hrun.
  apply Fiber_ctor_main_returns in Hrun as [_ ->].
  apply (ledger_ok_constructed w _ (LogMainCtor (s_fiber_id w)));
    [exact Hok|reflexivity..].
Qed.

Lemma Fiber_dtor_preserves_ledger t this : preserves_ledger (Fiber_dtor t this).
Proof.
  intros w a w' Hok Hrun.
  apply Fiber_dtor_returns in Hrun
    as (f & extra & _ & Hlog & Hnoctor & Hnodtor & Hid & Hcount).
  now apply (ledger_ok_destroyed w w' (m_id f) extra).
Qed.

#[local] Hint Resolve keeps_preserves preserves_bind preserves_ret
  Fiber_ctor_preserves_ledger Fiber_ctor_main_preserves_ledger
  Fiber_dtor_preserves_ledger : ledger.

Lemma destroy_preserves_ledger t this : preserves_ledger (destroy t this).
Proof.
  unfold destroy. apply preserves_bind; [auto with ledger|intros _].
  apply keeps_preserves. keeps.
Qed.

Lemma shared_ptr_release_preserves_ledger t p :
  preserves_ledger (shared_ptr_release t p).
Proof.
  unfold shared_ptr_release. destruct p as [a|]; [|apply preserves_ret].
  apply preserves_bind; [auto with ledger|intros f].
  destruct (use_count f) as [|[|n]].
  - apply keeps_preserves, keeps_pure.
  - apply preserves_bind; [auto with ledger|intros _].
    apply destroy_preserves_ledger.
  - auto with ledger.
Qed.

#[local] Hint Resolve destroy_preserves_ledger
  shared_ptr_release_preserves_ledger : ledger.

Lemma Fiber_new_preserves_ledger P cb stack_size run_in_scheduler :
  preserves_ledger (Fiber_new P cb stack_size run_in_scheduler).
Proof.
  unfold Fiber_new.
  apply preserves_bind; [auto with ledger|intros this].
  apply preserves_bind; [auto with ledger|intros _].
  apply preserves_bind; [auto with ledger|intros _].
  apply preserves_ret.
Qed.

Lemma GetThis_preserves_ledger P t : preserves_ledger (GetThis P t).
Proof.
  unfold GetThis. apply preserves_bind; [auto with ledger|intros l].
  destruct (t_fiber l) as [cur|]; [auto with ledger|].
  apply preserves_bind; [auto with ledger|intros this].
  apply preserves_bind; [auto with ledger|intros _].
  apply preserves_bind; [auto with ledger|intros _].
  apply preserves_bind; [auto with ledger|intros l1].
  apply preserves_bind; [auto with ledger|intros _].
  apply preserves_bind; [auto with ledger|intros _].
  apply preserves_bind; [auto with ledger|intros _].
  apply preserves_bind; [auto with ledger|intros _].
  apply preserves_bind; [auto with ledger|intros l2].
  apply preserves_bind; [auto with ledger|intros cur].
  apply preserves_bind; [auto with ledger|intros r].
  apply preserves_bind; [auto with ledger|intros _].
  apply preserves_ret.
Qed.

Lemma MainFunc_preserves_ledger P t :
  (forall c t', preserves_ledger (user_code P c t')) ->
  preserves_ledger (MainFunc P t).
Proof.
  intros Huser. unfold MainFunc.
  apply preserves_bind; [apply GetThis_preserves_ledger|intros cur].
  apply preserves_bind; [auto with ledger|intros _].
  apply preserves_bind; [auto with ledger|intros this].
  apply preserves_bind; [auto with ledger|intros f].
  apply preserves_bind.
  { unfold invoke. destruct (m_cb f) as [c|];
      [|apply keeps_preserves, keeps_pure].
    apply preserves_bind; [auto with ledger|intros _]. apply Huser. }
  intros _.
  apply preserves_bind; [auto with ledger|intros _].
  apply preserves_bind; [auto with ledger|intros _].
  apply preserves_bind; [auto with ledger|intros _].
  auto with ledger.
Qed.

Lemma run_call_preserves_ledger P c :
  (forall c' t, preserves_ledger (user_code P c' t)) ->
  preserves_ledger (run_call P c).
Proof.
  intros Huser. destruct c; unfold run_call.
  - apply preserves_bind; [apply GetThis_preserves_ledger|intros; apply preserves_ret].
  - apply preserves_bind; [apply Fiber_new_preserves_ledger|intros; apply preserves_ret].
  - auto with ledger.
  - auto with ledger.
  - auto with ledger.
  - now apply MainFunc_preserves_ledger.
  - auto with ledger.
  - apply preserves_bind; [auto with ledger|intros; apply preserves_ret].
  - apply preserves_bind; [auto with ledger|intros; apply preserves_ret].
  - auto with ledger.
Qed.

Lemma run_calls_preserves_ledger P cs :
  (forall c t, preserves_ledger (user_code P c t)) ->
  preserves_ledger (run_calls P cs).
Proof.
  intros Huser. induction cs as [|c rest IH]; [apply preserves_ret|].
  cbn [run_calls]. apply preserves_bind; [|intros _; exact IH].
  now apply run_call_preserves_ledger.
Qed.

Lemma ledger_ok_init : ledger_ok World_init.
Proof. repeat split. Qed.

Lemma constructed_ids_app w w' extra :
  logged w' = logged w ++ extra ->
  constructed_ids w' = constructed_ids w ++ omap ctor_id extra.
Proof. unfold constructed_ids. intros ->. apply omap_app. Qed.

Lemma destroyed_app w w' extra :
  logged w' = logged w ++ extra ->
  destroyed w' =
    (destroyed w + length (filter (fun l => is_dtor l = true) extra))%nat.
Proof.
  unfold destroyed. intros ->. now rewrite filter_app, length_app.
Qed.

Lemma seq_strictly_sorted n : forall s,
  StronglySorted Z.lt (Z.of_nat <$> seq s n).
Proof.
  induction n as [|n IH]; intros s; cbn; constructor.
  - apply IH.
  - apply Forall_forall. intros x Hx.
    apply list_elem_of_fmap in Hx as (k & -> & Hk).
    apply elem_of_seq in Hk. lia.
Qed.

(** ** Edges of the life of a task fiber *)

Lemma Fiber_ctor_ready_counted_bound_witness :
  exists w' f,
    Fiber_ctor demo_platform 9 (Some 5%nat) 0 true demo_world = (Ret tt, w') /\
    heap w' !! 9%positive = Some f /\
    m_state f = READY /\
    s_fiber_count w' = 5 /\
    uc_pc (m_ctx f) = pc_entry_MainFunc /\
    m_stack_size f = 131072.
Proof.
  destruct (Fiber_ctor_ready_counted_bound demo_platform 9 (Some 5%nat) 0 true
              demo_world)
    as (w' & f & Hrun & Hf & Hs & _ & _ & _ & Hcount & Hpc & _ & _ & _ & _
        & Hdflt & _);
    [vm_compute; reflexivity | vm_compute; discriminate | reflexivity
    | vm_compute; split; [discriminate|reflexivity] |].
  exists w', f. split; [exact Hrun|]. split; [exact Hf|]. split; [exact Hs|].
  split; [apply Hcount; vm_compute; [reflexivity|discriminate]|].
  split; [exact Hpc|]. now apply Hdflt.
Defined.

(** Dropping the last handle of a fiber. *)
Lemma run_release_last t this f w :
  heap w !! this = Some f -> use_count f = 1%nat ->
  shared_ptr_release t (Some this) w =
    destroy t this
      (with_heap (<[this := with_use_count 0 f]> (heap w)) w).
Proof.
  intros Hf Hc. unfold shared_ptr_release. step. rewrite Hc.
  erewrite bind_Ret by (apply run_modify; exact Hf). reflexivity.
Qed.

(** X2: A task fiber that was created (on a stack [malloc] returned) and
    never run cannot be destroyed: when its only handle goes, the
    destructor's assertion [m_state == TERM] fails; the stack has not been
    freed and the object is still there. *)
Theorem fresh_task_fiber_cannot_be_destroyed
    P t cb stack_size run_in_scheduler w :
  ctor_stack P stack_size w <> 0 ->
  ctor_getcontext_rc P stack_size w = 0 ->
  exists w',
    (p ← Fiber_new P cb stack_size run_in_scheduler;
     shared_ptr_release t p) w = (Abort "m_state == TERM", w') /\
    is_Some (heap w' !! fresh (dom (heap w))) /\
    trace w' =
      trace w ++ [EAlloc (ctor_stack_size stack_size w)
                    (ctor_stack P stack_size w);
                  EGetContext (fresh (dom (heap w)));
                  EMakeContext (fresh (dom (heap w)))].
Proof.
  intros Hstack Hrc.
  pose proof (Fiber_new_run P cb stack_size run_in_scheduler w Hrc) as Hnew.
  cbv zeta in Hnew. set (this := fresh (dom (heap w))) in *.
  set (f1 := with_use_count 1 (task_fiber P cb stack_size run_in_scheduler w))
    in *.
  set (w1 := with_heap _ _) in Hnew.
  assert (Hf1 : heap w1 !! this = Some f1) by (subst w1; heap_lookup).
  rewrite (bind_Ret _ _ _ _ _ Hnew).
  rewrite (run_release_last t this f1 w1 Hf1 eq_refl).
  set (w2 := with_heap (<[this := with_use_count 0 f1]> (heap w1)) w1).
  assert (Hf2 : heap w2 !! this = Some (with_use_count 0 f1))
    by (subst w2; heap_lookup).
  unfold destroy.
  pose proof (Fiber_dtor_task t this w2 _ Hf2 Hstack) as Hdtor.
  rewrite (decide_False (P := m_state (with_use_count 0 f1) = TERM))
    in Hdtor by discriminate.
  rewrite (bind_Abort _ _ _ _ _ Hdtor). eexists. split; [reflexivity|].
  split; [|reflexivity].
  change (heap (dtor_entered (with_use_count 0 f1) w2)) with (heap w2).
  rewrite Hf2. eauto.
Qed.

Lemma fresh_task_fiber_cannot_be_destroyed_witness :
  exists w',
    (p ← Fiber_new demo_platform (Some 5%nat) 0 false;
     shared_ptr_release 1 p) demo_world = (Abort "m_state == TERM", w') /\
    is_Some (heap w' !! 5%positive).
Proof.
  destruct (fresh_task_fiber_cannot_be_destroyed demo_platform 1 (Some 5%nat)
              0 false demo_world ltac:(vm_compute; discriminate) eq_refl)
    as (w' & Hrun & Hlive & _).
  exists w'. split; [exact Hrun|].
  assert (Hfresh : fresh (dom (heap demo_world)) = 5%positive)
    by (vm_compute; reflexivity).
  now rewrite Hfresh in Hlive.
Defined.

(** X3: The trampoline holds the only handle when the callback has returned:
    dropping it destroys the fiber and frees the stack the trampoline runs
    on, and the [yield()] that follows is a call on the destroyed object. *)
Theorem MainFunc_with_last_handle_destroys_fiber_before_yield
    P t this w f c w_cb f_cb :
  t_fiber (tls_of w t) = Some this ->
  heap w !! this = Some f ->
  use_count f <> 0%nat ->
  m_cb f = Some c ->
  user_code P c t (MainFunc_at_invoke t this f c w) = (Ret tt, w_cb) ->
  heap w_cb !! this = Some f_cb ->
  use_count f_cb = 1%nat ->
  m_stack f_cb <> 0 ->
  exists w',
    MainFunc P t w = (Undefined "dangling Fiber*", w') /\
    heap w' !! this = None /\
    trace w' = trace w_cb ++ [EDealloc (m_stack f_cb) (m_stack_size f_cb)] /\
    s_fiber_count w' = u64 (s_fiber_count w_cb - 1).
Proof.
  intros Hcur Hf Hown Hcb Hret Hf_cb Hcount Hstack.
  unfold MainFunc.
  rewrite (bind_Ret (GetThis P t) _ w (Some this) _
             (eq_trans (GetThis_current P t this w Hcur)
                       (run_shared_from_this this f w Hf Hown))).
  rewrite bool_decide_eq_true_2 by discriminate.
  do 3 step. cbn [m_cb with_use_count]. rewrite Hcb. unfold invoke.
  erewrite bind_Ret; cycle 1.
  { rewrite (bind_Ret _ _ _ _ _ (run_emit _ _)). exact Hret. }
  do 2 step.
  set (f1 := with_state TERM (with_cb None f_cb)).
  set (w1 := with_heap _ (with_heap _ w_cb)).
  assert (Hf1 : heap w1 !! this = Some f1) by (subst w1; heap_lookup).
  set (w2 := with_heap (<[this := with_use_count 0 f1]> (heap w1)) w1).
  assert (Hf2 : heap w2 !! this = Some (with_use_count 0 f1))
    by (subst w2; heap_lookup).
  pose proof (Fiber_dtor_task t this w2 _ Hf2 Hstack) as Hdtor.
  rewrite (decide_True (P := m_state (with_use_count 0 f1) = TERM))
    in Hdtor by reflexivity.
  erewrite bind_Ret; cycle 1.
  { rewrite (run_release_last t this f1 w1 Hf1 Hcount). fold w2.
    unfold destroy. rewrite (bind_Ret _ _ _ _ _ Hdtor). reflexivity. }
  eexists. split.
  { unfold yield. apply bind_Undefined. apply run_fiber_at_dangling.
    wsimpl. apply lookup_delete_eq. }
  wsimpl. split; [apply lookup_delete_eq|]. split; reflexivity.
Qed.

Lemma MainFunc_with_last_handle_destroys_fiber_before_yield_witness :
  let w := snd ((GetThis demo_platform 1;;
                 p ← Fiber_new demo_platform (Some 7%nat) 0 false;
                 resume demo_platform 1 2) World_init) in
  exists w',
    MainFunc
      (mk_Platform (fun _ => 0) (fun _ => 0)
         (fun tr _ => 4096 * (1 + Z.of_nat (length tr))) false
         (fun _ t => shared_ptr_release t (Some 2%positive)))
      1 w = (Undefined "dangling Fiber*", w') /\
    heap w' !! 2%positive = None.
Proof.
  cbv zeta.
  set (w := snd ((GetThis demo_platform 1;;
                  p ← Fiber_new demo_platform (Some 7%nat) 0 false;
                  resume demo_platform 1 2) World_init)).
  set (Q := mk_Platform (fun _ => 0) (fun _ => 0)
              (fun tr _ => 4096 * (1 + Z.of_nat (length tr))) false
              (fun _ t => shared_ptr_release t (Some 2%positive))).
  destruct (heap w !! 2%positive) as [f|] eqn:Hf;
    [|vm_compute in Hf; discriminate].
  assert (Hfacts : use_count f = 1%nat /\ m_cb f = Some 7%nat
                   /\ m_stack f = 12288)
    by (vm_compute in Hf; injection Hf as <-; repeat split; reflexivity).
  destruct Hfacts as (Hc & Hcb & Hstack).
  set (w_in := MainFunc_at_invoke 1 2 f 7%nat w).
  assert (Hin : heap w_in !! 2%positive = Some (with_use_count 2 f)).
  { subst w_in. unfold MainFunc_at_invoke. wsimpl. rewrite Hc.
    apply lookup_insert_eq. }
  destruct (MainFunc_with_last_handle_destroys_fiber_before_yield Q 1 2 w f
              7%nat
              (with_heap (<[2%positive := with_use_count 1 (with_use_count 2 f)]>
                            (heap w_in)) w_in)
              (with_use_count 1 (with_use_count 2 f)))
    as (w' & Hrun & Hgone & _).
  - reflexivity.
  - exact Hf.
  - rewrite Hc. discriminate.
  - exact Hcb.
  - exact (run_release_shared 1 2 _ 0 w_in Hin eq_refl).
  - wsimpl. apply lookup_insert_eq.
  - reflexivity.
  - cbn. rewrite Hstack. discriminate.
  - exists w'. split; assumption.
Defined.

(** X4: [MainFunc] throws [std::bad_weak_ptr] when no [shared_ptr] owns the
    thread's current fiber, before anything is changed, and
    [std::bad_function_call] when the fiber's callback is empty: the fiber
    then keeps its state (it is not made TERM) and nothing is appended to the
    trace, so no [yield()] takes place. *)
Theorem MainFunc_throws_without_owner_or_callback P t this w f :
  t_fiber (tls_of w t) = Some this ->
  heap w !! this = Some f ->
  (use_count f = 0%nat ->
   MainFunc P t w = (Throw "std::bad_weak_ptr", w)) /\
  (use_count f <> 0%nat -> m_cb f = None ->
   exists w',
     MainFunc P t w = (Throw "std::bad_function_call", w') /\
     trace w' = trace w /\
     m_state <$> heap w' !! this = Some (m_state f)).
Proof.
  intros Hcur Hf. split.
  - intros Hc. unfold MainFunc. apply bind_Throw.
    rewrite (GetThis_current P t this w Hcur).
    exact (run_shared_from_this_unowned this f w Hf Hc).
  - intros Hown Hcb. unfold MainFunc.
    rewrite (bind_Ret (GetThis P t) _ w (Some this) _
               (eq_trans (GetThis_current P t this w Hcur)
                         (run_shared_from_this this f w Hf Hown))).
    rewrite bool_decide_eq_true_2 by discriminate.
    do 3 step. cbn [m_cb with_use_count]. rewrite Hcb.
    eexists. split; [apply bind_Throw; reflexivity|].
    wsimpl. rewrite lookup_insert_eq. repeat split.
Qed.

Lemma MainFunc_throws_without_owner_or_callback_witness :
  let w := snd ((GetThis demo_platform 1;;
                 p ← Fiber_new demo_platform None 0 false;
                 resume demo_platform 1 2) World_init) in
  exists w',
    MainFunc demo_platform 1 w = (Throw "std::bad_function_call", w') /\
    m_state <$> heap w' !! 2%positive = Some RUNNING.
Proof.
  cbv zeta.
  set (w := snd ((GetThis demo_platform 1;;
                  p ← Fiber_new demo_platform None 0 false;
                  resume demo_platform 1 2) World_init)).
  destruct (heap w !! 2%positive) as [f|] eqn:Hf;
    [|vm_compute in Hf; discriminate].
  assert (Hfacts : use_count f = 1%nat /\ m_cb f = None /\ m_state f = RUNNING)
    by (vm_compute in Hf; injection Hf as <-; repeat split; reflexivity).
  destruct Hfacts as (Hc & Hcb & Hs).
  destruct (MainFunc_throws_without_owner_or_callback demo_platform 1 2 w f
              eq_refl Hf) as [_ Hempty].
  destruct Hempty as (w' & Hrun & _ & Hstate);
    [rewrite Hc; discriminate|exact Hcb|].
  exists w'. rewrite Hs in Hstate. split; assumption.
Defined.

(** ** Switching without an anchor, and back and forth *)

(** X5: [resume()] of a READY fiber whose anchor is null (a thread that never
    called [GetThis], or has no scheduler hub, as the fiber requires): the
    fiber has been registered as the thread's current fiber and made RUNNING
    when the arguments of [swapcontext] are formed through the null anchor,
    which is undefined behaviour. *)
Theorem resume_without_anchor_dereferences_null P t this w f :
  heap w !! this = Some f ->
  m_state f = READY ->
  (if m_runInScheduler f then t_scheduler_fiber (tls_of w t)
   else t_thread_fiber (tls_of w t)) = None ->
  exists w',
    resume P t this w = (Undefined "null Fiber*", w') /\
    t_fiber (tls_of w' t) = Some this /\
    m_state <$> heap w' !! this = Some RUNNING /\
    ESetThis t (Some this) ∈ trace w'.
Proof.
  intros Hf Hs Hnull. unfold resume. step. rewrite Hs.
  do 3 step.
  set (w1 := with_heap _ (registered t (Some this) w)).
  assert (Hnull1 :
    (if m_runInScheduler f then t_scheduler_fiber (tls_of w1 t)
     else t_thread_fiber (tls_of w1 t)) = None).
  { subst w1. rewrite tls_of_with_heap, tls_of_registered. exact Hnull. }
  exists w1. split.
  - destruct (m_runInScheduler f); step; rewrite Hnull1;
      apply bind_Undefined; reflexivity.
  - subst w1. rewrite tls_of_with_heap, tls_of_registered. wsimpl.
    rewrite lookup_insert_eq. split; [reflexivity|]. split; [reflexivity|].
    rewrite elem_of_app, list_elem_of_singleton. now right.
Qed.

Lemma resume_without_anchor_dereferences_null_witness :
  let w := snd (Fiber_new demo_platform (Some 7%nat) 0 false World_init) in
  exists w',
    resume demo_platform 1 1 w = (Undefined "null Fiber*", w') /\
    t_fiber (tls_of w' 1) = Some 1%positive /\
    m_state <$> heap w' !! 1%positive = Some RUNNING.
Proof.
  cbv zeta.
  set (w := snd (Fiber_new demo_platform (Some 7%nat) 0 false World_init)).
  destruct (heap w !! 1%positive) as [f|] eqn:Hf;
    [|vm_compute in Hf; discriminate].
  assert (Hfacts : m_state f = READY /\ m_runInScheduler f = false)
    by (vm_compute in Hf; injection Hf as <-; split; reflexivity).
  destruct Hfacts as [Hs Hr].
  destruct (resume_without_anchor_dereferences_null demo_platform 1 1 w f
              Hf Hs) as (w' & Hrun & Hcur & Hstate & _).
  - rewrite Hr. reflexivity.
  - exists w'. repeat split; assumption.
Defined.

(** X6: A fiber that takes part in scheduling, on a thread that has a scheduler
    hub but never called [GetThis]: [resume()] succeeds against the hub, and
    the [yield()] that follows registers a null current fiber and
    dereferences the thread's null root handle. *)
Theorem yield_of_scheduler_fiber_without_root_dereferences_null
    P t this w f hub :
  (forall tr, libc_swapcontext P tr = 0) ->
  heap w !! this = Some f ->
  m_state f = READY ->
  m_runInScheduler f = true ->
  t_scheduler_fiber (tls_of w t) = Some hub ->
  is_Some (heap w !! hub) ->
  t_thread_fiber (tls_of w t) = None ->
  exists w1 w',
    resume P t this w = (Ret tt, w1) /\
    yield P t this w1 = (Undefined "null Fiber*", w') /\
    t_fiber (tls_of w' t) = None /\
    m_state <$> heap w' !! this = Some READY.
Proof.
  intros Hrc Hf Hs Hr Hhub [fh Hfh] Hroot.
  destruct (resume_legal P t this w f hub fh Hf) as (fa' & Hfa' & Hres);
    [rewrite Hs; discriminate..|now rewrite Hr|exact Hfh|].
  cbv zeta in Hres. rewrite !(decide_True (P := _ = 0)) in Hres by apply Hrc.
  set (w0 := with_heap (<[this := with_state RUNNING f]> (heap w))
               (registered t (Some this) w)) in *.
  set (w1 := with_heap _ (with_trace _ w0)) in Hres.
  assert (Hthis1 : exists f1, heap w1 !! this = Some f1 /\ m_state f1 = RUNNING).
  { subst w1. wsimpl. destruct (decide (hub = this)) as [->|Hne].
    - rewrite lookup_insert_eq. eexists. split; [reflexivity|].
      revert Hfa'. subst w0. wsimpl. rewrite lookup_insert_eq.
      now intros [= <-].
    - rewrite lookup_insert_ne by exact Hne. subst w0. wsimpl.
      rewrite lookup_insert_eq. eauto. }
  destruct Hthis1 as (f1 & Hf1 & Hs1).
  assert (Hroot1 : t_thread_fiber (tls_of w1 t) = None).
  { subst w1 w0. rewrite tls_of_with_heap, tls_of_with_trace,
      tls_of_with_heap, tls_of_registered. exact Hroot. }
  exists w1. eexists. split; [exact Hres|].
  unfold yield. step. rewrite Hs1. do 2 step. rewrite Hroot1. do 2 step.
  rewrite Hs1. rewrite decide_True by discriminate. step.
  rewrite (bind_Ret _ _ _ _ _ (run_get_tls _ _)).
  rewrite tls_of_with_heap, tls_of_registered. cbn [t_thread_fiber].
  rewrite Hroot1.
  split.
  { apply bind_Undefined. unfold swapcontext.
    erewrite (bind_Ret (deref (Some this))) by reflexivity.
    apply bind_Undefined. reflexivity. }
  rewrite tls_of_with_heap, tls_of_registered. wsimpl.
  rewrite lookup_insert_eq. split; reflexivity.
Qed.

Lemma yield_of_scheduler_fiber_without_root_dereferences_null_witness :
  let w :=
    snd ((Fiber_new demo_platform (Some 8%nat) 0 true;;
          hub ← Fiber_new demo_platform (Some 9%nat) 0 false;
          set_tls 1 (fun l => mk_TLS (t_fiber l) (t_thread_fiber l) hub))
           World_init) in
  exists w1 w',
    resume demo_platform 1 1 w = (Ret tt, w1) /\
    yield demo_platform 1 1 w1 = (Undefined "null Fiber*", w') /\
    t_fiber (tls_of w' 1) = None.
Proof.
  cbv zeta.
  set (w := snd _).
  destruct (heap w !! 1%positive) as [f|] eqn:Hf;
    [|vm_compute in Hf; discriminate].
  assert (Hfacts : m_state f = READY /\ m_runInScheduler f = true)
    by (vm_compute in Hf; injection Hf as <-; split; reflexivity).
  destruct Hfacts as [Hs Hr].
  destruct (yield_of_scheduler_fiber_without_root_dereferences_null
              demo_platform 1 1 w f 2%positive)
    as (w1 & w' & Hres & Hy & Hcur & _).
  - reflexivity.
  - exact Hf.
  - exact Hs.
  - exact Hr.
  - vm_compute. reflexivity.
  - destruct (heap w !! 2%positive) eqn:Hh; [eauto|vm_compute in Hh; discriminate].
  - vm_compute. reflexivity.
  - exists w1, w'. repeat split; assumption.
Defined.

(** X7: a fiber suspended in a [yield()] (READY, its context saved by
    [swapcontext]) is resumed and its callback calls [yield()] again at once:
    at that second switch the fiber is READY again and the thread's root fiber
    is current, for a fiber inside or outside the scheduler; nothing of the
    fiber but its saved context has changed, and the calls made are
    [SetThis(this)], [swapcontext(anchor, this)], [SetThis(root)],
    [swapcontext(this, root)].  A fiber that has not run yet, or was reset,
    is outside this statement: its context is bound to [MainFunc], which its
    first [resume()] enters. *)
Theorem resume_then_yield_leaves_fiber_ready_and_root_current
    P t this w f anchor root n :
  (forall tr, libc_swapcontext P tr = 0) ->
  heap w !! this = Some f ->
  m_state f = READY ->
  uc_pc (m_ctx f) = pc_captured n ->
  (if m_runInScheduler f then t_scheduler_fiber (tls_of w t)
   else t_thread_fiber (tls_of w t)) = Some anchor ->
  is_Some (heap w !! anchor) ->
  t_thread_fiber (tls_of w t) = Some root ->
  is_Some (heap w !! root) ->
  exists w' f',
    (resume P t this;; yield P t this) w = (Ret tt, w') /\
    t_fiber (tls_of w' t) = Some root /\
    heap w' !! this = Some f' /\
    m_state f' = READY /\ m_id f' = m_id f /\ m_cb f' = m_cb f /\
    m_stack f' = m_stack f /\ m_stack_size f' = m_stack_size f /\
    use_count f' = use_count f /\
    trace w' =
      trace w ++ [ESetThis t (Some this); ESwapContext t anchor this;
                  ESetThis t (Some root); ESwapContext t this root].
Proof.
  intros Hrc Hf Hs _ Ha [fa Hfa] Hroot [fr Hfr].
  destruct (resume_legal P t this w f anchor fa Hf) as (fa' & Hfa' & Hres);
    [rewrite Hs; discriminate..|exact Ha|exact Hfa|].
  cbv zeta in Hres. rewrite !(decide_True (P := _ = 0)) in Hres by apply Hrc.
  set (w1 := with_heap (<[this := with_state RUNNING f]> (heap w))
               (registered t (Some this) w)) in *.
  set (w2 := with_heap _ (with_trace _ w1)) in Hres.
  rewrite (bind_Ret _ _ _ _ _ Hres).
  assert (Hthis2 : exists f2, heap w2 !! this = Some f2 /\
            m_state f2 = RUNNING /\ m_id f2 = m_id f /\ m_cb f2 = m_cb f /\
            m_stack f2 = m_stack f /\ m_stack_size f2 = m_stack_size f /\
            use_count f2 = use_count f).
  { subst w2. wsimpl. destruct (decide (anchor = this)) as [->|Hne].
    - rewrite lookup_insert_eq. eexists. split; [reflexivity|].
      revert Hfa'. subst w1. wsimpl. rewrite lookup_insert_eq.
      intros [= <-]. repeat split.
    - rewrite lookup_insert_ne by exact Hne. subst w1. wsimpl.
      rewrite lookup_insert_eq. eexists. split; [reflexivity|]. repeat split. }
  destruct Hthis2 as (f2 & Hf2 & Hs2 & Hid2 & Hcb2 & Hst2 & Hsz2 & Hc2).
  assert (Hroot2 : t_thread_fiber (tls_of w2 t) = Some root).
  { subst w2 w1. rewrite tls_of_with_heap, tls_of_with_trace,
      tls_of_with_heap, tls_of_registered. exact Hroot. }
  assert (Hlive2 : is_Some (heap w2 !! root)).
  { subst w2 w1. wsimpl.
    destruct (decide (anchor = root)) as [->|Hne1];
      [rewrite lookup_insert_eq; eauto|rewrite lookup_insert_ne by exact Hne1].
    destruct (decide (this = root)) as [->|Hne2];
      [rewrite lookup_insert_eq; eauto|rewrite lookup_insert_ne by exact Hne2].
    eauto. }
  pose proof (yield_legal P t this w2 f2 root Hf2 (or_introl Hs2) Hroot2
                Hlive2) as Hyield.
  cbv zeta in Hyield. rewrite (decide_True (P := _ = 0)) in Hyield by apply Hrc.
  destruct (yield_after_swap_facts
              (libc_swapcontext P (trace w2 ++ [ESetThis t (Some root)]))
              t this f2 root w2) as (H1 & H2 & H3 & _).
  rewrite (decide_True (P := _ = 0)) in H2 by apply Hrc.
  rewrite (decide_False (P := m_state f2 = TERM)) in H2
    by (rewrite Hs2; discriminate).
  eexists _, _. split; [exact Hyield|]. split; [exact H1|].
  split; [exact H2|].
  split; [reflexivity|]. split; [exact Hid2|]. split; [exact Hcb2|].
  split; [exact Hst2|]. split; [exact Hsz2|]. split; [exact Hc2|].
  rewrite H3. subst w2 w1. wsimpl. now rewrite <- !app_assoc.
Qed.

Lemma resume_then_yield_leaves_fiber_ready_and_root_current_witness :
  let callback_yields :=
    mk_Platform (fun _ => 0) (fun _ => 0)
      (fun tr _ => 4096 * (1 + Z.of_nat (length tr))) false
      (fun _ t => yield demo_platform t 2%positive) in
  let w :=
    snd ((GetThis demo_platform 1;;
          Fiber_new demo_platform (Some 7%nat) 0 false;;
          resume demo_platform 1 2;;
          GetThis demo_platform 1;;
          invoke callback_yields 1 2 (Some 7%nat)) World_init) in
  (uc_pc ∘ m_ctx <$> heap w !! 2%positive = Some (pc_captured 9) /\
   use_count <$> heap w !! 2%positive = Some 2%nat) /\
  exists w',
    (resume demo_platform 1 2;; yield demo_platform 1 2) w = (Ret tt, w') /\
    t_fiber (tls_of w' 1) = Some 1%positive /\
    m_state <$> heap w' !! 2%positive = Some READY /\
    use_count <$> heap w' !! 2%positive = Some 2%nat.
Proof.
  cbv zeta.
  set (w := snd _).
  destruct (heap w !! 2%positive) as [f|] eqn:Hf;
    [|vm_compute in Hf; discriminate].
  assert (Hfacts : m_state f = READY /\ m_runInScheduler f = false /\
                   uc_pc (m_ctx f) = pc_captured 9 /\ use_count f = 2%nat)
    by (vm_compute in Hf; injection Hf as <-; repeat split; reflexivity).
  destruct Hfacts as (Hs & Hr & Hpc & Hc).
  split; [cbn; rewrite Hpc, Hc; split; reflexivity|].
  destruct (resume_then_yield_leaves_fiber_ready_and_root_current
              demo_platform 1 2 w f 1 1 9 (fun _ => eq_refl) Hf Hs Hpc)
    as (w' & f' & Hrun & Hcur & Hf' & Hs' & _ & _ & _ & _ & Hc' & _).
  - rewrite Hr. vm_compute. reflexivity.
  - vm_compute. eauto.
  - vm_compute. reflexivity.
  - vm_compute. eauto.
  - exists w'. split; [exact Hrun|]. split; [exact Hcur|].
    rewrite Hf'. cbn. rewrite Hs', Hc', Hc. split; reflexivity.
Defined.

(** ** What the calls leave alone *)

Lemma same_static_refl f : same_static f f.
Proof. repeat split. Qed.

Lemma same_static_trans f1 f2 f3 :
  same_static f1 f2 -> same_static f2 f3 -> same_static f1 f3.
Proof. intros (?&?&?) (?&?&?). repeat split; congruence. Qed.

Lemma same_fibers_refl w : same_fibers w w.
Proof.
  repeat split.
  - intros a. destruct (heap w !! a); [apply same_static_refl|exact I].
  - exists []. split; [now rewrite app_nil_r|constructor].
Qed.

Lemma same_fibers_trans w1 w2 w3 :
  same_fibers w1 w2 -> same_fibers w2 w3 -> same_fibers w1 w3.
Proof.
  intros (Hi & Hc & Hl & Hg & Hh & e1 & Ht & Hq)
         (Hi' & Hc' & Hl' & Hg' & Hh' & e2 & Ht' & Hq').
  split; [congruence|]. split; [congruence|]. split; [congruence|].
  split; [congruence|]. split.
  - intros a. specialize (Hh a). specialize (Hh' a).
    destruct (heap w1 !! a), (heap w2 !! a), (heap w3 !! a);
      try contradiction; try exact I.
    now apply (same_static_trans _ _ _ Hh Hh').
  - exists (e1 ++ e2). split; [now rewrite Ht', Ht, app_assoc|].
    now apply Forall_app.
Qed.

(** A world that differs in thread-locals only, in one live fiber's
    switching state, or by one quiet event. *)
Lemma same_fibers_with_tls m w : same_fibers w (with_tls m w).
Proof.
  repeat split.
  - intros a. cbn. destruct (heap w !! a); [apply same_static_refl|exact I].
  - exists []. split; [now rewrite app_nil_r|constructor].
Qed.

Lemma same_fibers_with_trace e w :
  quiet e -> same_fibers w (with_trace (trace w ++ [e]) w).
Proof.
  intros He. repeat split.
  - intros a. cbn. destruct (heap w !! a); [apply same_static_refl|exact I].
  - exists [e]. split; [reflexivity|]. now repeat constructor.
Qed.

Lemma same_fibers_with_heap a f f' w :
  heap w !! a = Some f -> same_static f f' ->
  same_fibers w (with_heap (<[a := f']> (heap w)) w).
Proof.
  intros Hf Hs. repeat split.
  - intros b. cbn. destruct (decide (a = b)) as [<-|Hne].
    + now rewrite lookup_insert_eq, Hf.
    + rewrite lookup_insert_ne by exact Hne.
      destruct (heap w !! b); [apply same_static_refl|exact I].
  - exists []. split; [now rewrite app_nil_r|constructor].
Qed.

Lemma keeps_fibers_bind {A B} (m : M A) (k : A -> M B) :
  keeps_fibers m -> (forall a, keeps_fibers (k a)) ->
  keeps_fibers (m ≫= k).
Proof.
  intros Hm Hk w o w'. unfold mbind, M_bind, bind.
  destruct (m w) as [[a|s|s|s] w1] eqn:Hmw; intros Hrun;
    pose proof (Hm _ _ _ Hmw) as H1.
  - exact (same_fibers_trans _ _ _ H1 (Hk a _ _ _ Hrun)).
  - now injection Hrun as <- <-.
  - now injection Hrun as <- <-.
  - now injection Hrun as <- <-.
Qed.

Lemma keeps_fibers_pure {A} (o : Outcome A) : keeps_fibers (fun w => (o, w)).
Proof. intros w o' w' [= <- <-]. apply same_fibers_refl. Qed.

Lemma keeps_fibers_fiber_at a : keeps_fibers (fiber_at a).
Proof.
  intros w o w'. unfold fiber_at.
  destruct (heap w !! a); intros [= <- <-]; apply same_fibers_refl.
Qed.

Lemma keeps_fibers_get_world : keeps_fibers get_world.
Proof. intros w o w' [= <- <-]. apply same_fibers_refl. Qed.

Lemma keeps_fibers_get_tls t : keeps_fibers (get_tls t).
Proof. intros w o w' [= <- <-]. apply same_fibers_refl. Qed.

Lemma keeps_fibers_set_tls t g : keeps_fibers (set_tls t g).
Proof. intros w o w' [= <- <-]. apply same_fibers_with_tls. Qed.

Lemma keeps_fibers_Scheduler_GetMainFiber t :
  keeps_fibers (Scheduler_GetMainFiber t).
Proof. intros w o w' [= <- <-]. apply same_fibers_refl. Qed.

Lemma keeps_fibers_operator_new : keeps_fibers operator_new.
Proof. intros w o w' [= <- <-]. apply same_fibers_refl. Qed.

Lemma keeps_fibers_emit e : quiet e -> keeps_fibers (emit e).
Proof. intros He w o w' [= <- <-]. now apply same_fibers_with_trace. Qed.

Lemma keeps_fibers_modify a g :
  (forall f, same_static f (g f)) -> keeps_fibers (modify a g).
Proof.
  intros Hg w o w'. unfold modify, mbind, M_bind, bind, fiber_at.
  destruct (heap w !! a) as [f|] eqn:Hf; intros [= <- <-].
  - now apply (same_fibers_with_heap a f).
  - apply same_fibers_refl.
Qed.

Lemma keeps_fibers_assert c s : keeps_fibers (SYLAR_ASSERT c s).
Proof. unfold SYLAR_ASSERT. destruct c; apply keeps_fibers_pure. Qed.

Lemma keeps_fibers_deref p : keeps_fibers (deref p).
Proof. unfold deref. destruct p; apply keeps_fibers_pure. Qed.

Lemma keeps_fibers_SetThis t f : keeps_fibers (SetThis t f).
Proof.
  unfold SetThis.
  apply keeps_fibers_bind; [now apply keeps_fibers_emit|intros _].
  apply keeps_fibers_set_tls.
Qed.

Create HintDb fibers.
#[local] Hint Resolve same_static_refl keeps_fibers_pure keeps_fibers_fiber_at
  keeps_fibers_get_world keeps_fibers_get_tls keeps_fibers_set_tls
  keeps_fibers_Scheduler_GetMainFiber keeps_fibers_operator_new
  keeps_fibers_assert keeps_fibers_deref keeps_fibers_SetThis : fibers.

Lemma keeps_fibers_swapcontext P t s l : keeps_fibers (swapcontext P t s l).
Proof.
  unfold swapcontext.
  apply keeps_fibers_bind; [auto with fibers|intros].
  apply keeps_fibers_bind; [auto with fibers|intros].
  apply keeps_fibers_bind; [auto with fibers|intros].
  apply keeps_fibers_bind; [auto with fibers|intros].
  apply keeps_fibers_bind; [auto with fibers|intros].
  apply keeps_fibers_bind; [now apply keeps_fibers_emit|intros].
  apply keeps_fibers_bind; [|intros; apply keeps_fibers_pure].
  destruct (decide _); [|apply keeps_fibers_pure].
  apply keeps_fibers_modify. intros f. repeat split.
Qed.

Lemma keeps_fibers_getcontext P a : keeps_fibers (getcontext P a).
Proof.
  unfold getcontext.
  apply keeps_fibers_bind; [auto with fibers|intros].
  apply keeps_fibers_bind; [now apply keeps_fibers_emit|intros].
  apply keeps_fibers_bind; [|intros; apply keeps_fibers_pure].
  destruct (decide _); [|apply keeps_fibers_pure].
  apply keeps_fibers_modify. intros f. repeat split.
Qed.

Lemma keeps_fibers_makecontext a : keeps_fibers (makecontext_MainFunc a).
Proof.
  unfold makecontext_MainFunc.
  apply keeps_fibers_bind; [now apply keeps_fibers_emit|intros].
  apply keeps_fibers_modify. intros f. repeat split.
Qed.

Lemma keeps_fibers_swap_checked P t s l :
  keeps_fibers
    (rc ← swapcontext P t s l;
     if decide (rc = 0) then mret tt else SYLAR_ASSERT2 false "swapcontext").
Proof.
  apply keeps_fibers_bind; [apply keeps_fibers_swapcontext|intros rc].
  destruct (decide _); [apply keeps_fibers_pure|apply keeps_fibers_assert].
Qed.

Lemma resume_keeps_fibers P t this : keeps_fibers (resume P t this).
Proof.
  unfold resume.
  apply keeps_fibers_bind; [auto with fibers|intros f].
  apply keeps_fibers_bind; [auto with fibers|intros].
  apply keeps_fibers_bind; [auto with fibers|intros].
  apply keeps_fibers_bind;
    [apply keeps_fibers_modify; intros; repeat split|intros].
  destruct (m_runInScheduler f).
  - apply keeps_fibers_bind; [auto with fibers|intros].
    apply keeps_fibers_swap_checked.
  - apply keeps_fibers_bind; [auto with fibers|intros].
    apply keeps_fibers_swap_checked.
Qed.

Lemma yield_keeps_fibers P t this : keeps_fibers (yield P t this).
Proof.
  unfold yield.
  apply keeps_fibers_bind; [auto with fibers|intros f].
  apply keeps_fibers_bind; [auto with fibers|intros].
  apply keeps_fibers_bind; [auto with fibers|intros].
  apply keeps_fibers_bind; [auto with fibers|intros].
  apply keeps_fibers_bind; [auto with fibers|intros f'].
  apply keeps_fibers_bind.
  { destruct (decide _); [|apply keeps_fibers_pure].
    apply keeps_fibers_modify. intros; repeat split. }
  intros. apply keeps_fibers_bind; [auto with fibers|intros].
  apply keeps_fibers_swap_checked.
Qed.

Lemma reset_keeps_fibers P this cb : keeps_fibers (reset P this cb).
Proof.
  unfold reset.
  apply keeps_fibers_bind; [auto with fibers|intros f].
  apply keeps_fibers_bind; [auto with fibers|intros].
  apply keeps_fibers_bind; [auto with fibers|intros].
  apply keeps_fibers_bind;
    [apply keeps_fibers_modify; intros; repeat split|intros].
  apply keeps_fibers_bind; [apply keeps_fibers_getcontext|intros rc].
  apply keeps_fibers_bind.
  { destruct (decide _); [apply keeps_fibers_pure|apply keeps_fibers_assert]. }
  intros. apply keeps_fibers_bind; [auto with fibers|intros f'].
  apply keeps_fibers_bind;
    [apply keeps_fibers_modify; intros; repeat split|intros].
  apply keeps_fibers_bind; [apply keeps_fibers_makecontext|intros].
  apply keeps_fibers_modify. intros; repeat split.
Qed.

Lemma keeps_fibers_shared_from_this this : keeps_fibers (shared_from_this this).
Proof.
  unfold shared_from_this.
  apply keeps_fibers_bind; [auto with fibers|intros f].
  destruct (decide _); [apply keeps_fibers_pure|].
  apply keeps_fibers_bind; [|intros; apply keeps_fibers_pure].
  apply keeps_fibers_modify. intros; repeat split.
Qed.

Lemma keeps_fibers_shared_ptr_copy p : keeps_fibers (shared_ptr_copy p).
Proof.
  unfold shared_ptr_copy. destruct p as [a|]; [|apply keeps_fibers_pure].
  apply keeps_fibers_bind; [auto with fibers|intros f].
  apply keeps_fibers_bind; [|intros; apply keeps_fibers_pure].
  apply keeps_fibers_modify. intros; repeat split.
Qed.

Lemma GetFiberId_keeps_fibers t : keeps_fibers (GetFiberId t).
Proof.
  unfold GetFiberId. apply keeps_fibers_bind; [auto with fibers|intros l].
  destruct (t_fiber l); [|apply keeps_fibers_pure].
  apply keeps_fibers_bind; [auto with fibers|intros; apply keeps_fibers_pure].
Qed.

Lemma TotalFibers_keeps_fibers : keeps_fibers TotalFibers.
Proof.
  unfold TotalFibers.
  apply keeps_fibers_bind; [auto with fibers|intros; apply keeps_fibers_pure].
Qed.

(** ** The invariant of the fiber population *)

Lemma same_fibers_size w w' :
  same_fibers w w' -> size (heap w') = size (heap w).
Proof.
  intros (_ & _ & _ & _ & Hh & _).
  rewrite <- !(size_dom (D := gset addr)). f_equal. apply set_eq. intros a.
  rewrite !elem_of_dom. specialize (Hh a).
  destruct (heap w !! a), (heap w' !! a); try contradiction;
    split; intros [x Hx]; try discriminate; eauto.
Qed.

Lemma dealloc_preceded_app (tr extra : list Event) :
  (forall l1 p s l2, tr = l1 ++ EDealloc p s :: l2 -> EAlloc s p ∈ l1) ->
  (forall p s, EDealloc p s ∉ extra) ->
  forall l1 p s l2,
    tr ++ extra = l1 ++ EDealloc p s :: l2 -> EAlloc s p ∈ l1.
Proof.
  intros Htr Hextra l1 p s l2 Heq.
  apply app_eq_app in Heq as [l [[Htr' Hl]|[Hl1 Hex]]].
  - destruct l as [|e l].
    + exfalso. apply (Hextra p s). cbn in Hl. rewrite <- Hl.
      apply list_elem_of_here.
    + cbn in Hl. injection Hl as <- _. exact (Htr _ _ _ _ Htr').
  - exfalso. apply (Hextra p s). rewrite Hex, elem_of_app. right.
    apply list_elem_of_here.
Qed.

Lemma dealloc_preceded_snoc (tr : list Event) p s :
  (forall l1 p s l2, tr = l1 ++ EDealloc p s :: l2 -> EAlloc s p ∈ l1) ->
  EAlloc s p ∈ tr ->
  forall l1 p' s' l2,
    tr ++ [EDealloc p s] = l1 ++ EDealloc p' s' :: l2 -> EAlloc s' p' ∈ l1.
Proof.
  intros Htr Hin l1 p' s' l2 Heq.
  apply app_eq_app in Heq as [l [[Htr' Hl]|[Hl1 Hex]]].
  - destruct l as [|e l].
    + cbn in Hl. injection Hl as <- <- _. rewrite app_nil_r in Htr'.
      now rewrite <- Htr'.
    + cbn in Hl. injection Hl as <- _. exact (Htr _ _ _ _ Htr').
  - destruct l as [|e l].
    + cbn in Hex. injection Hex as <- <- _. rewrite app_nil_r in Hl1.
      now rewrite Hl1.
    + exfalso. cbn in Hex. injection Hex as _ Hnil.
      now destruct l.
Qed.

Lemma quiet_not_dealloc extra :
  Forall quiet extra -> forall p s, EDealloc p s ∉ extra.
Proof.
  intros Hq p s Hin. rewrite Forall_forall in Hq. exact (Hq _ Hin).
Qed.

Lemma fibers_ok_same w w' : same_fibers w w' -> fibers_ok w -> fibers_ok w'.
Proof.
  intros Hsame (Hledger & Hlive & Hids & Hstacks).
  pose proof (same_fibers_size w w' Hsame) as Hsize.
  destruct Hsame as (Hi & Hc & Hl & Hg & Hh & extra & Ht & Hq).
  assert (Hback : forall a f', heap w' !! a = Some f' ->
            exists f, heap w !! a = Some f /\ same_static f f').
  { intros a f' Hf'. specialize (Hh a). rewrite Hf' in Hh.
    destruct (heap w !! a) as [f|]; [eauto|contradiction]. }
  split; [now apply (ledger_ok_same w w')|]. split; [|split].
  - unfold live_count_ok. now rewrite Hc, Hsize.
  - unfold ids_ok, constructed_ids in *. rewrite Hl. intros Hbound.
    destruct (Hids Hbound) as [Hrange Hinj]. split.
    + intros a f' Hf'. destruct (Hback a f' Hf') as (f & Hf & Hid & _).
      rewrite Hid. exact (Hrange a f Hf).
    + intros a b fa' fb' Ha Hb Heq.
      destruct (Hback a fa' Ha) as (fa & Hfa & Hida & _).
      destruct (Hback b fb' Hb) as (fb & Hfb & Hidb & _).
      apply (Hinj a b fa fb Hfa Hfb). congruence.
  - destruct Hstacks as [Hlive_stack Hdealloc]. split.
    + intros a f' Hf' Hstack.
      destruct (Hback a f' Hf') as (f & Hf & _ & Hst & Hsz).
      rewrite Ht, Hst, Hsz, elem_of_app. left.
      apply (Hlive_stack a f Hf). now rewrite <- Hst.
    + rewrite Ht. apply dealloc_preceded_app; [exact Hdealloc|].
      now apply quiet_not_dealloc.
Qed.

Lemma keeps_preserves_fibers {A} (m : M A) :
  keeps_fibers m -> preserves_fibers m.
Proof.
  intros Hm w a w' Hok Hrun. exact (fibers_ok_same w w' (Hm _ _ _ Hrun) Hok).
Qed.

Lemma preserves_fibers_bind {A B} (m : M A) (k : A -> M B) :
  preserves_fibers m -> (forall a, preserves_fibers (k a)) ->
  preserves_fibers (m ≫= k).
Proof.
  intros Hm Hk w b w' Hok Hrun.
  apply bind_inv in Hrun as (a & w1 & H1 & H2).
  exact (Hk a w1 b w' (Hm w a w1 Hok H1) H2).
Qed.

Lemma preserves_fibers_ret {A} (a : A) : preserves_fibers (mret a : M A).
Proof. intros w a' w' Hok [= <- <-]. exact Hok. Qed.

Lemma fibers_ok_constructed w w' this f l extra :
  fibers_ok w ->
  heap w !! this = None ->
  heap w' = <[this := f]> (heap w) ->
  m_id f = s_fiber_id w ->
  ctor_id l = Some (s_fiber_id w) ->
  logged w' = logged w ++ [l] ->
  s_fiber_id w' = u64 (s_fiber_id w + 1) ->
  s_fiber_count w' = u64 (s_fiber_count w + 1) ->
  trace w' = trace w ++ extra ->
  (forall p s, EDealloc p s ∉ extra) ->
  (m_stack f <> 0 -> EAlloc (m_stack_size f) (m_stack f) ∈ extra) ->
  fibers_ok w'.
Proof.
  intros (Hledger & Hlive & Hids & Hstacks) Hfree Hheap Hid Hl Hlog Hid' Hcount'
    Htrace Hnodealloc Hstack.
  split; [now apply (ledger_ok_constructed w w' l)|]. split; [|split].
  - unfold live_count_ok in *.
    rewrite Hcount', Hlive, Hheap, map_size_insert_None by exact Hfree.
    rewrite u64_add_l. f_equal. lia.
  - unfold ids_ok in *.
    rewrite (constructed_ids_app w w' [l] Hlog), length_app.
    assert (Hone : omap ctor_id [l] = [s_fiber_id w]) by (cbn; now rewrite Hl).
    rewrite Hone. cbn [length].
    set (N := length (constructed_ids w)) in *. intros Hbound.
    destruct Hids as [Hrange Hinj]; [lia|].
    assert (HidN : s_fiber_id w = Z.of_nat N).
    { destruct Hledger as (_ & -> & _). apply u64_small. lia. }
    rewrite Hheap. split.
    + intros a fa. destruct (decide (this = a)) as [<-|Hne].
      * rewrite lookup_insert_eq. intros [= <-]. lia.
      * rewrite lookup_insert_ne by exact Hne. intros Hfa.
        specialize (Hrange a fa Hfa). lia.
    + intros a b fa fb.
      destruct (decide (this = a)) as [<-|Hna];
        destruct (decide (this = b)) as [<-|Hnb];
        rewrite ?lookup_insert_eq, ?lookup_insert_ne by assumption.
      * reflexivity.
      * intros [= <-] Hfb Heq. specialize (Hrange b fb Hfb). lia.
      * intros Hfa [= <-] Heq. specialize (Hrange a fa Hfa). lia.
      * apply Hinj.
  - destruct Hstacks as [Hlive_stack Hdealloc]. split.
    + intros a fa. rewrite Hheap, Htrace, elem_of_app.
      destruct (decide (this = a)) as [<-|Hne].
      * rewrite lookup_insert_eq. intros [= <-] Hst. right. now apply Hstack.
      * rewrite lookup_insert_ne by exact Hne. intros Hfa Hst. left.
        now apply (Hlive_stack a fa).
    + rewrite Htrace. now apply dealloc_preceded_app.
Qed.

Lemma Fiber_ctor_preserves_fibers P this cb stack_size run_in_scheduler :
  preserves_fibers (Fiber_ctor P this cb stack_size run_in_scheduler).
Proof.
  intros w a w' Hok Hrun.
  apply Fiber_ctor_returns in Hrun as [Hfree ->].
  apply (fibers_ok_constructed w _ this
           (task_fiber P cb stack_size run_in_scheduler w)
           (LogCtor (s_fiber_id w))
           [EAlloc (ctor_stack_size stack_size w) (ctor_stack P stack_size w);
            EGetContext this; EMakeContext this]);
    try reflexivity; try assumption.
  - intros p s Hin. rewrite !elem_of_cons, elem_of_nil in Hin.
    destruct Hin as [H|[H|[H|[]]]]; discriminate.
  - intros _. apply list_elem_of_here.
Qed.

Lemma Fiber_ctor_main_preserves_fibers P t this :
  preserves_fibers (Fiber_ctor_main P t this).
Proof.
  intros w a w' Hok Hrun.
  apply Fiber_ctor_main_returns in Hrun as [Hfree ->].
  apply (fibers_ok_constructed w _ this (main_fiber P w)
           (LogMainCtor (s_fiber_id w))
           [ESetThis t (Some this); EGetContext this]);
    try reflexivity; try assumption.
  - intros p s Hin. rewrite !elem_of_cons, elem_of_nil in Hin.
    destruct Hin as [H|[H|[]]]; discriminate.
  - intros Hst. now contradiction Hst.
Qed.

Lemma destroy_returns t this w u w' :
  destroy t this w = (Ret u, w') ->
  exists f extra_log extra,
    heap w !! this = Some f /\
    heap w' = delete this (heap w) /\
    logged w' = logged w ++ LogDtor (m_id f) :: extra_log /\
    omap ctor_id extra_log = [] /\
    filter (fun l => is_dtor l = true) extra_log = [] /\
    s_fiber_id w' = s_fiber_id w /\
    s_fiber_count w' = u64 (s_fiber_count w - 1) /\
    trace w' = trace w ++ extra /\
    (extra = [EDealloc (m_stack f) (m_stack_size f)] /\ m_stack f <> 0
     \/ Forall quiet extra).
Proof.
  unfold destroy. intros Hrun.
  apply bind_inv in Hrun as (u' & w1 & Hdtor & Hdel).
  injection Hdel as _ <-.
  destruct (heap w !! this) as [f|] eqn:Hf.
  - destruct (decide (m_stack f = 0)) as [Hstack|Hstack].
    + rewrite (Fiber_dtor_main t this w f Hf Hstack) in Hdtor.
      destruct (decide (m_cb f = None)); [|discriminate].
      destruct (decide (m_state f = RUNNING)); [|discriminate].
      injection Hdtor as _ <-.
      destruct (decide (t_fiber (tls_of w t) = Some this)).
      * exists f, [], [ESetThis t None]. repeat split.
        right. repeat constructor.
      * exists f, [], []. repeat split; [|right; constructor].
        cbn. now rewrite app_nil_r.
    + rewrite (Fiber_dtor_task t this w f Hf Hstack) in Hdtor.
      destruct (decide (m_state f = TERM)); [|discriminate].
      injection Hdtor as _ <-.
      exists f, [LogDeallocStack (m_id f)],
        [EDealloc (m_stack f) (m_stack_size f)].
      repeat split. now left.
  - exfalso. revert Hdtor. unfold Fiber_dtor.
    erewrite bind_Undefined; [discriminate|].
    apply run_fiber_at_dangling. exact Hf.
Qed.

Lemma destroy_preserves_fibers t this : preserves_fibers (destroy t this).
Proof.
  intros w u w' Hok Hrun.
  pose proof (destroy_preserves_ledger t this w u w') as Hledger.
  apply destroy_returns in Hrun
    as (f & extra_log & extra & Hf & Hheap & Hlog & Hnoctor & Hnodtor & Hid
        & Hcount & Htrace & Hextra).
  destruct Hok as (Hledger0 & Hlive & Hids & Hstacks).
  assert (Hledger' : ledger_ok w')
    by now apply (ledger_ok_destroyed w w' (m_id f) extra_log).
  split; [exact Hledger'|]. split; [|split].
  - unfold live_count_ok in *.
    rewrite Hcount, Hlive, Hheap, map_size_delete_Some by eauto.
    rewrite u64_sub_l. f_equal.
    assert (size (heap w) <> 0%nat).
    { intros Hz. apply map_size_empty_inv in Hz. rewrite Hz in Hf.
      now rewrite lookup_empty in Hf. }
    lia.
  - unfold ids_ok in *.
    assert (Hsame : constructed_ids w' = constructed_ids w).
    { rewrite (constructed_ids_app w w' _ Hlog). cbn.
      now rewrite Hnoctor, app_nil_r. }
    rewrite Hsame, Hheap. intros Hbound.
    destruct (Hids Hbound) as [Hrange Hinj]. split.
    + intros a fa Hfa. apply lookup_delete_Some in Hfa as [_ Hfa].
      exact (Hrange a fa Hfa).
    + intros a b fa fb Hfa Hfb.
      apply lookup_delete_Some in Hfa as [_ Hfa].
      apply lookup_delete_Some in Hfb as [_ Hfb].
      exact (Hinj a b fa fb Hfa Hfb).
  - destruct Hstacks as [Hlive_stack Hdealloc]. split.
    + intros a fa. rewrite Hheap, Htrace, elem_of_app. intros Hfa Hst.
      apply lookup_delete_Some in Hfa as [_ Hfa]. left.
      now apply (Hlive_stack a fa).
    + rewrite Htrace. destruct Hextra as [[-> Hst]|Hquiet].
      * apply dealloc_preceded_snoc; [exact Hdealloc|].
        now apply (Hlive_stack this f).
      * apply dealloc_preceded_app; [exact Hdealloc|].
        now apply quiet_not_dealloc.
Qed.

#[local] Hint Resolve keeps_preserves_fibers preserves_fibers_bind
  preserves_fibers_ret keeps_fibers_shared_from_this
  keeps_fibers_shared_ptr_copy resume_keeps_fibers yield_keeps_fibers
  reset_keeps_fibers GetFiberId_keeps_fibers TotalFibers_keeps_fibers
  Fiber_ctor_preserves_fibers Fiber_ctor_main_preserves_fibers
  destroy_preserves_fibers : fibers.

Lemma keeps_fibers_use_count a n : keeps_fibers (modify a (with_use_count n)).
Proof. apply keeps_fibers_modify. intros; repeat split. Qed.

Lemma keeps_fibers_with_cb a cb : keeps_fibers (modify a (with_cb cb)).
Proof. apply keeps_fibers_modify. intros; repeat split. Qed.

Lemma keeps_fibers_with_state a s : keeps_fibers (modify a (with_state s)).
Proof. apply keeps_fibers_modify. intros; repeat split. Qed.

#[local] Hint Resolve keeps_fibers_use_count keeps_fibers_with_cb
  keeps_fibers_with_state : fibers.

Lemma shared_ptr_release_preserves_fibers t p :
  preserves_fibers (shared_ptr_release t p).
Proof.
  unfold shared_ptr_release. destruct p as [a|]; [|apply preserves_fibers_ret].
  apply preserves_fibers_bind; [auto with fibers|intros f].
  destruct (use_count f) as [|[|n]].
  - apply keeps_preserves_fibers, keeps_fibers_pure.
  - apply preserves_fibers_bind; [auto with fibers|intros _].
    apply destroy_preserves_fibers.
  - auto with fibers.
Qed.

Lemma Fiber_new_preserves_fibers P cb stack_size run_in_scheduler :
  preserves_fibers (Fiber_new P cb stack_size run_in_scheduler).
Proof.
  unfold Fiber_new.
  apply preserves_fibers_bind; [auto with fibers|intros this].
  apply preserves_fibers_bind; [auto with fibers|intros _].
  apply preserves_fibers_bind; [auto with fibers|intros _].
  apply preserves_fibers_ret.
Qed.

#[local] Hint Resolve shared_ptr_release_preserves_fibers
  Fiber_new_preserves_fibers : fibers.

Lemma GetThis_preserves_fibers P t : preserves_fibers (GetThis P t).
Proof.
  unfold GetThis. apply preserves_fibers_bind; [auto with fibers|intros l].
  destruct (t_fiber l) as [cur|]; [auto with fibers|].
  apply preserves_fibers_bind; [auto with fibers|intros this].
  apply preserves_fibers_bind; [auto with fibers|intros _].
  apply preserves_fibers_bind; [auto with fibers|intros _].
  apply preserves_fibers_bind; [auto with fibers|intros l1].
  apply preserves_fibers_bind; [auto with fibers|intros _].
  apply preserves_fibers_bind; [auto with fibers|intros _].
  apply preserves_fibers_bind; [auto with fibers|intros _].
  apply preserves_fibers_bind; [auto with fibers|intros _].
  apply preserves_fibers_bind; [auto with fibers|intros l2].
  apply preserves_fibers_bind; [auto with fibers|intros cur].
  apply preserves_fibers_bind; [auto with fibers|intros r].
  apply preserves_fibers_bind; [auto with fibers|intros _].
  apply preserves_fibers_ret.
Qed.

Lemma MainFunc_preserves_fibers P t :
  (forall c t', preserves_fibers (user_code P c t')) ->
  preserves_fibers (MainFunc P t).
Proof.
  intros Huser. unfold MainFunc.
  apply preserves_fibers_bind; [apply GetThis_preserves_fibers|intros cur].
  apply preserves_fibers_bind; [auto with fibers|intros _].
  apply preserves_fibers_bind; [auto with fibers|intros this].
  apply preserves_fibers_bind; [auto with fibers|intros f].
  apply preserves_fibers_bind.
  { unfold invoke. destruct (m_cb f) as [c|];
      [|apply keeps_preserves_fibers, keeps_fibers_pure].
    apply preserves_fibers_bind; [|intros _; apply Huser].
    now apply keeps_preserves_fibers, keeps_fibers_emit. }
  intros _.
  apply preserves_fibers_bind; [auto with fibers|intros _].
  apply preserves_fibers_bind; [auto with fibers|intros _].
  apply preserves_fibers_bind; [auto with fibers|intros _].
  auto with fibers.
Qed.

Lemma run_call_preserves_fibers P c :
  (forall c' t, preserves_fibers (user_code P c' t)) ->
  preserves_fibers (run_call P c).
Proof.
  intros Huser. destruct c; unfold run_call.
  - apply preserves_fibers_bind;
      [apply GetThis_preserves_fibers|intros; apply preserves_fibers_ret].
  - apply preserves_fibers_bind;
      [apply Fiber_new_preserves_fibers|intros; apply preserves_fibers_ret].
  - auto with fibers.
  - auto with fibers.
  - auto with fibers.
  - now apply MainFunc_preserves_fibers.
  - auto with fibers.
  - apply preserves_fibers_bind;
      [auto with fibers|intros; apply preserves_fibers_ret].
  - apply preserves_fibers_bind;
      [auto with fibers|intros; apply preserves_fibers_ret].
  - auto with fibers.
Qed.

Lemma run_calls_preserves_fibers P cs :
  (forall c t, preserves_fibers (user_code P c t)) ->
  preserves_fibers (run_calls P cs).
Proof.
  intros Huser. induction cs as [|c rest IH]; [apply preserves_fibers_ret|].
  cbn [run_calls]. apply preserves_fibers_bind; [|intros _; exact IH].
  now apply run_call_preserves_fibers.
Qed.

Lemma heap_init_empty a : heap World_init !! a = None.
Proof. apply lookup_empty. Qed.

Lemma fibers_ok_init : fibers_ok World_init.
Proof.
  split; [apply ledger_ok_init|]. split; [reflexivity|]. split.
  - intros _. split.
    + intros a f Hf. now rewrite heap_init_empty in Hf.
    + intros a b fa fb Hfa. now rewrite heap_init_empty in Hfa.
  - split.
    + intros a f Hf. now rewrite heap_init_empty in Hf.
    + intros l1 p s l2 Htr. now destruct l1.
Qed.

(** ** Built, destroyed, alive *)

Lemma census_ok_same w w' : same_fibers w w' -> census_ok w -> census_ok w'.
Proof.
  intros Hsame Hok. pose proof (same_fibers_size w w' Hsame) as Hsize.
  destruct Hsame as (_ & _ & Hl & _).
  unfold census_ok, constructed_ids, destroyed in *. now rewrite Hl, Hsize.
Qed.

Lemma keeps_preserves_census {A} (m : M A) :
  keeps_fibers m -> preserves_census m.
Proof.
  intros Hm w a w' Hok Hrun. exact (census_ok_same w w' (Hm _ _ _ Hrun) Hok).
Qed.

Lemma preserves_census_bind {A B} (m : M A) (k : A -> M B) :
  preserves_census m -> (forall a, preserves_census (k a)) ->
  preserves_census (m ≫= k).
Proof.
  intros Hm Hk w b w' Hok Hrun.
  apply bind_inv in Hrun as (a & w1 & H1 & H2).
  exact (Hk a w1 b w' (Hm w a w1 Hok H1) H2).
Qed.

Lemma preserves_census_ret {A} (a : A) : preserves_census (mret a : M A).
Proof. intros w a' w' Hok [= <- <-]. exact Hok. Qed.

Lemma census_ok_constructed w w' this f l :
  census_ok w ->
  heap w !! this = None ->
  heap w' = <[this := f]> (heap w) ->
  is_Some (ctor_id l) ->
  logged w' = logged w ++ [l] ->
  census_ok w'.
Proof.
  unfold census_ok. intros Hok Hfree Hheap [id Hl] Hlog.
  assert (Hnot : is_dtor l = false)
    by (destruct l; try reflexivity; discriminate).
  rewrite (constructed_ids_app w w' [l] Hlog), length_app.
  rewrite (destroyed_app w w' [l] Hlog).
  rewrite filter_cons_False by (rewrite Hnot; discriminate).
  rewrite Hheap, map_size_insert_None by exact Hfree.
  cbn. rewrite Hl. cbn. lia.
Qed.

Lemma Fiber_ctor_preserves_census P this cb stack_size run_in_scheduler :
  preserves_census (Fiber_ctor P this cb stack_size run_in_scheduler).
Proof.
  intros w a w' Hok Hrun.
  apply Fiber_ctor_returns in Hrun as [Hfree ->].
  apply (census_ok_constructed w _ this
           (task_fiber P cb stack_size run_in_scheduler w)
           (LogCtor (s_fiber_id w)));
    try reflexivity; try assumption. cbn. eauto.
Qed.

Lemma Fiber_ctor_main_preserves_census P t this :
  preserves_census (Fiber_ctor_main P t this).
Proof.
  intros w a w' Hok Hrun.
  apply Fiber_ctor_main_returns in Hrun as [Hfree ->].
  apply (census_ok_constructed w _ this (main_fiber P w)
           (LogMainCtor (s_fiber_id w)));
    try reflexivity; try assumption. cbn. eauto.
Qed.

Lemma destroy_preserves_census t this : preserves_census (destroy t this).
Proof.
  intros w u w' Hok Hrun.
  apply destroy_returns in Hrun
    as (f & extra_log & extra & Hf & Hheap & Hlog & Hnoctor & Hnodtor & _).
  unfold census_ok in *.
  rewrite (constructed_ids_app w w' _ Hlog), length_app.
  rewrite (destroyed_app w w' _ Hlog).
  rewrite filter_cons_True by reflexivity.
  rewrite Hnodtor, Hheap, map_size_delete_Some by eauto.
  cbn. rewrite Hnoctor. cbn.
  assert (size (heap w) <> 0%nat).
  { intros Hz. apply map_size_empty_inv in Hz. rewrite Hz in Hf.
    now rewrite lookup_empty in Hf. }
  lia.
Qed.

Create HintDb census.
#[local] Hint Resolve keeps_preserves_census preserves_census_bind
  preserves_census_ret keeps_fibers_bind keeps_fibers_pure
  keeps_fibers_fiber_at keeps_fibers_get_world keeps_fibers_get_tls
  keeps_fibers_set_tls keeps_fibers_operator_new keeps_fibers_emit
  keeps_fibers_assert keeps_fibers_deref keeps_fibers_SetThis
  keeps_fibers_shared_from_this keeps_fibers_shared_ptr_copy
  keeps_fibers_use_count keeps_fibers_with_cb keeps_fibers_with_state
  resume_keeps_fibers yield_keeps_fibers reset_keeps_fibers
  GetFiberId_keeps_fibers TotalFibers_keeps_fibers
  Fiber_ctor_preserves_census Fiber_ctor_main_preserves_census
  destroy_preserves_census : census.

Lemma shared_ptr_release_preserves_census t p :
  preserves_census (shared_ptr_release t p).
Proof.
  unfold shared_ptr_release. destruct p as [a|]; [|apply preserves_census_ret].
  apply preserves_census_bind; [auto with census|intros f].
  destruct (use_count f) as [|[|n]].
  - apply keeps_preserves_census, keeps_fibers_pure.
  - apply preserves_census_bind; [auto with census|intros _].
    apply destroy_preserves_census.
  - auto with census.
Qed.

Lemma Fiber_new_preserves_census P cb stack_size run_in_scheduler :
  preserves_census (Fiber_new P cb stack_size run_in_scheduler).
Proof.
  unfold Fiber_new.
  apply preserves_census_bind; [auto with census|intros this].
  apply preserves_census_bind; [auto with census|intros _].
  apply preserves_census_bind; [auto with census|intros _].
  apply preserves_census_ret.
Qed.

#[local] Hint Resolve shared_ptr_release_preserves_census
  Fiber_new_preserves_census : census.

Lemma GetThis_preserves_census P t : preserves_census (GetThis P t).
Proof.
  unfold GetThis. apply preserves_census_bind; [auto with census|intros l].
  destruct (t_fiber l) as [cur|]; [auto with census|].
  apply preserves_census_bind; [auto with census|intros this].
  apply preserves_census_bind; [auto with census|intros _].
  apply preserves_census_bind; [auto with census|intros _].
  apply preserves_census_bind; [auto with census|intros l1].
  apply preserves_census_bind; [auto with census|intros _].
  apply preserves_census_bind; [auto with census|intros _].
  apply preserves_census_bind; [auto with census|intros _].
  apply preserves_census_bind; [auto with census|intros _].
  apply preserves_census_bind; [auto with census|intros l2].
  apply preserves_census_bind; [auto with census|intros cur].
  apply preserves_census_bind; [auto with census|intros r].
  apply preserves_census_bind; [auto with census|intros _].
  apply preserves_census_ret.
Qed.

Lemma MainFunc_preserves_census P t :
  (forall c t', preserves_census (user_code P c t')) ->
  preserves_census (MainFunc P t).
Proof.
  intros Huser. unfold MainFunc.
  apply preserves_census_bind; [apply GetThis_preserves_census|intros cur].
  apply preserves_census_bind; [auto with census|intros _].
  apply preserves_census_bind; [auto with census|intros this].
  apply preserves_census_bind; [auto with census|intros f].
  apply preserves_census_bind.
  { unfold invoke. destruct (m_cb f) as [c|];
      [|apply keeps_preserves_census, keeps_fibers_pure].
    apply preserves_census_bind; [|intros _; apply Huser].
    now apply keeps_preserves_census, keeps_fibers_emit. }
  intros _.
  apply preserves_census_bind; [auto with census|intros _].
  apply preserves_census_bind; [auto with census|intros _].
  apply preserves_census_bind; [auto with census|intros _].
  auto with census.
Qed.

Lemma run_call_preserves_census P c :
  (forall c' t, preserves_census (user_code P c' t)) ->
  preserves_census (run_call P c).
Proof.
  intros Huser. destruct c; unfold run_call.
  - apply preserves_census_bind;
      [apply GetThis_preserves_census|intros; apply preserves_census_ret].
  - apply preserves_census_bind;
      [apply Fiber_new_preserves_census|intros; apply preserves_census_ret].
  - auto with census.
  - auto with census.
  - auto with census.
  - now apply MainFunc_preserves_census.
  - auto with census.
  - apply preserves_census_bind;
      [auto with census|intros; apply preserves_census_ret].
  - apply preserves_census_bind;
      [auto with census|intros; apply preserves_census_ret].
  - auto with census.
Qed.

Lemma run_calls_preserves_census P cs :
  (forall c t, preserves_census (user_code P c t)) ->
  preserves_census (run_calls P cs).
Proof.
  intros Huser. induction cs as [|c rest IH]; [apply preserves_census_ret|].
  cbn [run_calls]. apply preserves_census_bind; [|intros _; exact IH].
  now apply run_call_preserves_census.
Qed.

Lemma census_ok_init : census_ok World_init.
Proof. reflexivity. Qed.

Lemma strictly_sorted_NoDup (l : list Z) : StronglySorted Z.lt l -> NoDup l.
Proof.
  induction 1 as [|x l Hs IH Hall]; constructor; [|exact IH].
  intros Hin. rewrite Forall_forall in Hall. specialize (Hall x Hin). lia.
Qed.

(** C6: while the process has built no more than 2^64 fibers and fewer than
    2^64 are alive (the range of the two 64-bit counters), the ids assigned
    across all constructions, root and task alike, are 0, 1, 2, ... in the
    order of construction, strictly increasing and without repeats; every
    constructor that returns has taken the next id and added one to the
    live-fiber counter, every destructor has taken one off; and after N
    constructions and M destructions the counter stands at N - M, the number
    of fibers alive. *)
Theorem ids_count_up_and_live_count_is_built_minus_destroyed P cs w' :
  (forall c t, preserves_ledger (user_code P c t)) ->
  (forall c t, preserves_census (user_code P c t)) ->
  run_calls P cs World_init = (Ret tt, w') ->
  let ids := constructed_ids w' in
  let N := length ids in
  let M := destroyed w' in
  Z.of_nat N <= 2 ^ 64 ->
  Z.of_nat N - Z.of_nat M < 2 ^ 64 ->
  (ids = Z.of_nat <$> seq 0 N /\ StronglySorted Z.lt ids /\ NoDup ids) /\
  ((M <= N)%nat /\ (N - M)%nat = size (heap w') /\
   s_fiber_count w' = Z.of_nat N - Z.of_nat M) /\
  (forall this cb stack_size run_in_scheduler w1 w2,
     Fiber_ctor P this cb stack_size run_in_scheduler w1 = (Ret tt, w2) ->
     m_id <$> heap w2 !! this = Some (s_fiber_id w1) /\
     constructed_ids w2 = constructed_ids w1 ++ [s_fiber_id w1] /\
     destroyed w2 = destroyed w1 /\
     s_fiber_id w2 = u64 (s_fiber_id w1 + 1) /\
     s_fiber_count w2 = u64 (s_fiber_count w1 + 1) /\
     (0 <= s_fiber_id w1 < 2 ^ 64 - 1 ->
      s_fiber_id w2 = s_fiber_id w1 + 1) /\
     (0 <= s_fiber_count w1 < 2 ^ 64 - 1 ->
      s_fiber_count w2 = s_fiber_count w1 + 1)) /\
  (forall t this w1 w2,
     Fiber_ctor_main P t this w1 = (Ret tt, w2) ->
     m_id <$> heap w2 !! this = Some (s_fiber_id w1) /\
     constructed_ids w2 = constructed_ids w1 ++ [s_fiber_id w1] /\
     destroyed w2 = destroyed w1 /\
     s_fiber_id w2 = u64 (s_fiber_id w1 + 1) /\
     s_fiber_count w2 = u64 (s_fiber_count w1 + 1) /\
     (0 <= s_fiber_id w1 < 2 ^ 64 - 1 ->
      s_fiber_id w2 = s_fiber_id w1 + 1) /\
     (0 <= s_fiber_count w1 < 2 ^ 64 - 1 ->
      s_fiber_count w2 = s_fiber_count w1 + 1)) /\
  (forall t this w1 w2,
     Fiber_dtor t this w1 = (Ret tt, w2) ->
     constructed_ids w2 = constructed_ids w1 /\
     destroyed w2 = S (destroyed w1) /\
     s_fiber_id w2 = s_fiber_id w1 /\
     s_fiber_count w2 = u64 (s_fiber_count w1 - 1) /\
     (0 < s_fiber_count w1 < 2 ^ 64 ->
      s_fiber_count w2 = s_fiber_count w1 - 1)).
Proof.
  intros Hledger Hcensus Hrun ids N M HN Hlive.
  destruct (run_calls_preserves_ledger P cs Hledger World_init tt w'
              ledger_ok_init Hrun) as (Hids & _ & Hcount).
  pose proof (run_calls_preserves_census P cs Hcensus World_init tt w'
                census_ok_init Hrun) as Hcens.
  unfold census_ok in Hcens.
  fold ids in Hids, Hcens. fold ids N in Hcount. fold N in Hids, Hcens.
  fold M in Hcount, Hcens.
  assert (Heq : ids = Z.of_nat <$> seq 0 N).
  { rewrite Hids at 1. apply list_fmap_ext. intros i k Hk.
    apply lookup_seq in Hk as [-> Hi]. apply u64_small. lia. }
  assert (Hsorted : StronglySorted Z.lt ids)
    by (rewrite Heq; apply seq_strictly_sorted).
  split; [split; [exact Heq|split; [exact Hsorted|]]|].
  { now apply strictly_sorted_NoDup. }
  split.
  { split; [lia|]. split; [lia|]. rewrite Hcount. apply u64_small. lia. }
  split; [|split].
  - intros this cb stack_size run_in_scheduler w1 w2 Hctor.
    apply Fiber_ctor_returns in Hctor as [_ ->].
    split; [unfold after_Fiber_ctor; cbn [heap]; now rewrite lookup_insert_eq|].
    split; [apply (constructed_ids_app w1 _ [LogCtor (s_fiber_id w1)]);
            reflexivity|].
    split.
    { rewrite (destroyed_app w1 _ [LogCtor (s_fiber_id w1)]) by reflexivity.
      rewrite filter_cons_False by discriminate. cbn. lia. }
    split; [reflexivity|]. split; [reflexivity|].
    split; intros Hr; cbn; apply u64_small; lia.
  - intros t this w1 w2 Hctor.
    apply Fiber_ctor_main_returns in Hctor as [_ ->].
    split; [unfold after_Fiber_ctor_main; cbn [heap];
            now rewrite lookup_insert_eq|].
    split; [apply (constructed_ids_app w1 _ [LogMainCtor (s_fiber_id w1)]);
            reflexivity|].
    split.
    { rewrite (destroyed_app w1 _ [LogMainCtor (s_fiber_id w1)])
        by reflexivity.
      rewrite filter_cons_False by discriminate. cbn. lia. }
    split; [reflexivity|]. split; [reflexivity|].
    split; intros Hr; cbn; apply u64_small; lia.
  - intros t this w1 w2 Hdtor.
    apply Fiber_dtor_returns in Hdtor
      as (f & extra & _ & Hlog & Hnoctor & Hnodtor & Hid' & Hcount').
    split.
    { rewrite (constructed_ids_app w1 w2 _ Hlog). cbn.
      now rewrite Hnoctor, app_nil_r. }
    split.
    { rewrite (destroyed_app w1 w2 _ Hlog).
      rewrite filter_cons_True by reflexivity. rewrite Hnodtor. cbn. lia. }
    split; [exact Hid'|]. split; [exact Hcount'|].
    intros Hr. rewrite Hcount'. apply u64_small. lia.
Qed.

Lemma ids_count_up_and_live_count_is_built_minus_destroyed_witness :
  let cs := [CallGetThis 1; CallNew (Some 7%nat) 0 false; CallResume 1 2;
             CallMainFunc 1; DropHandle 1 (Some 2%positive)] in
  exists w',
    run_calls demo_platform cs World_init = (Ret tt, w') /\
    constructed_ids w' = [0; 1] /\
    destroyed w' = 1%nat /\
    s_fiber_count w' = 1 /\
    size (heap w') = 1%nat.
Proof.
  cbv zeta.
  set (cs := [CallGetThis 1; CallNew (Some 7%nat) 0 false; CallResume 1 2;
              CallMainFunc 1; DropHandle 1 (Some 2%positive)]).
  assert (Hrun : run_calls demo_platform cs World_init
                 = (Ret tt, snd (run_calls demo_platform cs World_init)))
    by (vm_compute; reflexivity).
  assert (Hlen : length (constructed_ids
                           (snd (run_calls demo_platform cs World_init)))
                 = 2%nat) by (vm_compute; reflexivity).
  assert (Hdes : destroyed (snd (run_calls demo_platform cs World_init))
                 = 1%nat) by (vm_compute; reflexivity).
  pose proof (ids_count_up_and_live_count_is_built_minus_destroyed
                demo_platform cs _ (fun _ _ => preserves_ret tt)
                (fun _ _ => preserves_census_ret tt) Hrun) as H.
  cbv zeta in H. rewrite Hlen, Hdes in H.
  destruct H as ((Hids & _) & (_ & Hsize & Hcount) & _); [lia..|].
  eexists. split; [exact Hrun|]. split; [exact Hids|].
  split; [exact Hdes|]. split; [exact Hcount|]. now rewrite <- Hsize.
Defined.

(** ** Calls that leave the fiber population alone *)

(** X8: [reset], [SetThis], [GetFiberId] and [TotalFibers], none of which
    switches context, build and destroy no fiber on any path (for [reset]
    also when an assertion or [getcontext] fails), call neither [Alloc] nor
    [Dealloc], and leave every fiber's id, stack pointer and stack size, both
    counters, the configured stack size and the log as they were. *)
Theorem reset_and_registry_calls_build_and_free_nothing P t this cb p w :
  same_fibers w (snd (reset P this cb w)) /\
  same_fibers w (snd (SetThis t p w)) /\
  same_fibers w (snd (GetFiberId t w)) /\
  same_fibers w (snd (TotalFibers w)).
Proof.
  split; [|split; [|split]].
  - apply (reset_keeps_fibers P this cb w (fst (reset P this cb w))).
    apply surjective_pairing.
  - apply (keeps_fibers_SetThis t p w (fst (SetThis t p w))).
    apply surjective_pairing.
  - apply (GetFiberId_keeps_fibers t w (fst (GetFiberId t w))).
    apply surjective_pairing.
  - apply (TotalFibers_keeps_fibers w (fst (TotalFibers w))).
    apply surjective_pairing.
Qed.

(** ** What holds after any history of calls *)

(** X9: [TotalFibers()] is the number of [Fiber] objects alive, modulo 2^64,
    after any sequence of calls from the start of the process. *)
Theorem TotalFibers_is_the_number_of_live_fibers P cs w' :
  (forall c t, preserves_fibers (user_code P c t)) ->
  run_calls P cs World_init = (Ret tt, w') ->
  TotalFibers w' = (Ret (u64 (Z.of_nat (size (heap w')))), w') /\
  (Z.of_nat (size (heap w')) < 2 ^ 64 ->
   TotalFibers w' = (Ret (Z.of_nat (size (heap w'))), w')).
Proof.
  intros Huser Hrun.
  destruct (run_calls_preserves_fibers P cs Huser World_init tt w'
              fibers_ok_init Hrun) as (_ & Hlive & _).
  unfold live_count_ok in Hlive.
  assert (Hrun' : TotalFibers w' = (Ret (s_fiber_count w'), w'))
    by reflexivity.
  rewrite Hrun', Hlive. split; [reflexivity|].
  intros Hbound. rewrite u64_small by lia. reflexivity.
Qed.

Lemma TotalFibers_is_the_number_of_live_fibers_witness :
  let cs := [CallGetThis 1; CallNew (Some 7%nat) 0 false;
             CallNew (Some 8%nat) 4096 true; CallResume 1 2; CallMainFunc 1;
             DropHandle 1 (Some 2%positive)] in
  exists w',
    run_calls demo_platform cs World_init = (Ret tt, w') /\
    size (heap w') = 2%nat /\
    TotalFibers w' = (Ret 2, w').
Proof.
  cbv zeta.
  set (cs := [CallGetThis 1; CallNew (Some 7%nat) 0 false;
              CallNew (Some 8%nat) 4096 true; CallResume 1 2; CallMainFunc 1;
              DropHandle 1 (Some 2%positive)]).
  assert (Hrun : run_calls demo_platform cs World_init
                 = (Ret tt, snd (run_calls demo_platform cs World_init)))
    by (vm_compute; reflexivity).
  destruct (TotalFibers_is_the_number_of_live_fibers demo_platform cs _
              (fun _ _ => preserves_fibers_ret tt) Hrun) as [_ Hexact].
  assert (Hsize : size (heap (snd (run_calls demo_platform cs World_init)))
                  = 2%nat) by (vm_compute; reflexivity).
  eexists. split; [exact Hrun|]. split; [exact Hsize|].
  rewrite Hsize in Hexact. apply Hexact. reflexivity.
Defined.

(** X10: While no more than 2^64 fibers have been built, two different live
    fibers never have the same id. *)
Theorem live_fibers_have_distinct_ids P cs w' :
  (forall c t, preserves_fibers (user_code P c t)) ->
  run_calls P cs World_init = (Ret tt, w') ->
  Z.of_nat (length (constructed_ids w')) <= 2 ^ 64 ->
  forall a b fa fb,
    heap w' !! a = Some fa -> heap w' !! b = Some fb ->
    a <> b -> m_id fa <> m_id fb.
Proof.
  intros Huser Hrun Hbound a b fa fb Hfa Hfb Hne Heq.
  destruct (run_calls_preserves_fibers P cs Huser World_init tt w'
              fibers_ok_init Hrun) as (_ & _ & Hids & _).
  destruct (Hids Hbound) as [_ Hinj]. exact (Hne (Hinj a b fa fb Hfa Hfb Heq)).
Qed.

Lemma live_fibers_have_distinct_ids_witness :
  let cs := [CallGetThis 1; CallNew (Some 7%nat) 0 false;
             DropHandle 1 (Some 1%positive); CallGetThis 2] in
  exists w' fa fb,
    run_calls demo_platform cs World_init = (Ret tt, w') /\
    heap w' !! 2%positive = Some fa /\ heap w' !! 3%positive = Some fb /\
    m_id fa <> m_id fb.
Proof.
  cbv zeta.
  set (cs := [CallGetThis 1; CallNew (Some 7%nat) 0 false;
              DropHandle 1 (Some 1%positive); CallGetThis 2]).
  assert (Hrun : run_calls demo_platform cs World_init
                 = (Ret tt, snd (run_calls demo_platform cs World_init)))
    by (vm_compute; reflexivity).
  set (w' := snd (run_calls demo_platform cs World_init)) in *.
  destruct (heap w' !! 2%positive) as [fa|] eqn:Hfa;
    [|vm_compute in Hfa; discriminate].
  destruct (heap w' !! 3%positive) as [fb|] eqn:Hfb;
    [|vm_compute in Hfb; discriminate].
  exists w', fa, fb. split; [exact Hrun|]. split; [exact Hfa|].
  split; [exact Hfb|].
  apply (live_fibers_have_distinct_ids demo_platform cs w'
           (fun _ _ => preserves_fibers_ret tt) Hrun) with (a := 2%positive)
           (b := 3%positive); [|exact Hfa|exact Hfb|discriminate].
  vm_compute. discriminate.
Defined.

(** X11: Every [Dealloc(p, size)] frees a block that an earlier [Alloc(size)]
    returned, and the stack of every live fiber is such a block. *)
Theorem stacks_are_freed_as_they_were_allocated P cs w' :
  (forall c t, preserves_fibers (user_code P c t)) ->
  run_calls P cs World_init = (Ret tt, w') ->
  (forall l1 p s l2,
     trace w' = l1 ++ EDealloc p s :: l2 -> EAlloc s p ∈ l1) /\
  (forall a f, heap w' !! a = Some f -> m_stack f <> 0 ->
     EAlloc (m_stack_size f) (m_stack f) ∈ trace w').
Proof.
  intros Huser Hrun.
  destruct (run_calls_preserves_fibers P cs Huser World_init tt w'
              fibers_ok_init Hrun) as (_ & _ & _ & Hlive & Hdealloc).
  split; assumption.
Qed.

Lemma stacks_are_freed_as_they_were_allocated_witness :
  let cs := [CallGetThis 1; CallNew (Some 7%nat) 0 false; CallResume 1 2;
             CallMainFunc 1; DropHandle 1 (Some 2%positive)] in
  exists w' l1,
    run_calls demo_platform cs World_init = (Ret tt, w') /\
    trace w' = l1 ++ [EDealloc 12288 131072] /\
    EAlloc 131072 12288 ∈ l1.
Proof.
  cbv zeta.
  set (cs := [CallGetThis 1; CallNew (Some 7%nat) 0 false; CallResume 1 2;
              CallMainFunc 1; DropHandle 1 (Some 2%positive)]).
  assert (Hrun : run_calls demo_platform cs World_init
                 = (Ret tt, snd (run_calls demo_platform cs World_init)))
    by (vm_compute; reflexivity).
  set (w' := snd (run_calls demo_platform cs World_init)) in *.
  destruct (stacks_are_freed_as_they_were_allocated demo_platform cs w'
              (fun _ _ => preserves_fibers_ret tt) Hrun) as [Hdealloc _].
  assert (Htrace : trace w' = removelast (trace w') ++ [EDealloc 12288 131072])
    by (vm_compute; reflexivity).
  exists w', (removelast (trace w')). split; [exact Hrun|].
  split; [exact Htrace|]. exact (Hdealloc _ _ _ _ Htrace).
Defined.

(** ** The registry of each thread *)

(** X12: [SetThis(f)] on thread [t] changes what [GetFiberId()] and [GetThis()]
    return on [t] and nothing for any other thread; it leaves the thread's
    root handle alone, and [GetThis()] then returns [f] without building a
    root fiber. *)
Theorem SetThis_registers_for_its_thread_only P t t' p w :
  t' <> t ->
  let w1 := snd (SetThis t p w) in
  SetThis t p w = (Ret tt, w1) /\
  t_fiber (tls_of w1 t) = p /\
  t_thread_fiber (tls_of w1 t) = t_thread_fiber (tls_of w t) /\
  tls_of w1 t' = tls_of w t' /\
  fst (GetFiberId t' w1) = fst (GetFiberId t' w) /\
  (p = None -> GetFiberId t w1 = (Ret 0, w1)) /\
  (forall a f,
     p = Some a -> heap w !! a = Some f ->
     GetFiberId t w1 = (Ret (m_id f), w1) /\
     (use_count f <> 0%nat ->
      exists w2,
        GetThis P t w1 = (Ret (Some a), w2) /\
        s_fiber_id w2 = s_fiber_id w /\
        dom (heap w2) = dom (heap w))).
Proof.
  intros Hne w1. subst w1. rewrite run_SetThis. cbn [snd].
  assert (Hother : tls_of (registered t p w) t' = tls_of w t').
  { unfold registered, tls_of. wsimpl. now rewrite lookup_insert_ne. }
  split; [reflexivity|]. rewrite tls_of_registered.
  split; [reflexivity|]. split; [reflexivity|]. split; [exact Hother|].
  split.
  { unfold GetFiberId, mbind, M_bind, bind, get_tls. rewrite Hother.
    destruct (t_fiber (tls_of w t')) as [cur|]; [|reflexivity].
    unfold fiber_at. wsimpl. now destruct (heap w !! cur). }
  split.
  { intros ->. apply GetFiberId_none. now rewrite tls_of_registered. }
  intros a f -> Hf.
  assert (Hcur : t_fiber (tls_of (registered t (Some a) w) t) = Some a)
    by now rewrite tls_of_registered.
  split; [exact (GetFiberId_current t a f _ Hcur Hf)|].
  intros Hown. eexists. split.
  { rewrite (GetThis_current P t a _ Hcur).
    exact (run_shared_from_this a f (registered t (Some a) w) Hf Hown). }
  wsimpl. split; [reflexivity|].
  apply dom_insert_lookup_L. now exists f.
Qed.

Lemma SetThis_registers_for_its_thread_only_witness :
  let w1 := snd (SetThis 1 (Some 3%positive) demo_world) in
  GetFiberId 1 demo_world = (Ret 0, demo_world) /\
  GetFiberId 1 w1 = (Ret 2, w1) /\
  tls_of w1 2 = tls_of demo_world 2 /\
  exists w2, GetThis demo_platform 1 w1 = (Ret (Some 3%positive), w2).
Proof.
  cbv zeta.
  destruct (SetThis_registers_for_its_thread_only demo_platform 1 2
              (Some 3%positive) demo_world ltac:(discriminate))
    as (_ & _ & _ & Hother & _ & _ & Hset).
  destruct (heap demo_world !! 3%positive) as [f|] eqn:Hf;
    [|vm_compute in Hf; discriminate].
  assert (Hfacts : m_id f = 2 /\ use_count f = 1%nat)
    by (vm_compute in Hf; injection Hf as <-; split; reflexivity).
  destruct Hfacts as [Hid Hc].
  destruct (Hset 3%positive f eq_refl Hf) as [Hget Hthis].
  destruct Hthis as (w2 & Hrun & _); [rewrite Hc; discriminate|].
  split; [vm_compute; reflexivity|]. rewrite Hid in Hget.
  split; [exact Hget|]. split; [exact Hother|]. exists w2. exact Hrun.
Defined.
